(** * Telegram-Bot-Framework: command dispatch, wallet-link verification
      and the price-alert sweep

    A shallow embedding of [api/telegram/webhook.ts],
    [api/telegram/verify-link.ts] and [api/cron/check-alerts.ts] over the
    tables of [database/schema.sql].

    Modelling conventions.
    - A JavaScript string is a Rocq [string], and texts are taken in the
      ASCII range: the case maps and the whitespace set act on that range
      and leave every other character alone.  White space outside it that
      [trim] also strips (U+00A0, U+2003, U+FEFF, ...) and letters outside
      it that the case maps also change (U+212A, ...) are not modelled.
    - A JavaScript number that holds a price is a rational ([Q]); [NaN] is
      the [None] of an [option].  Timestamps are milliseconds in [Z].
    - A table is the list of its rows, in the order a [select] returns
      them; a filter of the query builder is a [List.filter].  A statement
      the schema refuses (a taken key, a UNIQUE pair, a value a column
      cannot hold) leaves the table as it was.  Foreign keys to
      [telegram_users] are taken to hold: a command runs after the
      sender's identity has been resolved.
    - Handlers run in a small monad that threads the store and the list of
      messages handed to the Telegram transport, and that can throw. *)

From Stdlib Require Import List String Ascii Bool Arith ZArith QArith Lia.
Import ListNotations.
Open Scope string_scope.

Set Implicit Arguments.

(* ================================================================== *)
(** ** JavaScript string primitives used by the handlers *)
(* ================================================================== *)

Module Js.

Definition code (c : ascii) : nat := nat_of_ascii c.

Definition is_upper (c : ascii) : bool := (65 <=? code c)%nat && (code c <=? 90)%nat.
Definition is_lower (c : ascii) : bool := (97 <=? code c)%nat && (code c <=? 122)%nat.

(** The white space [String.prototype.trim] strips, within ASCII:
    TAB, LF, VT, FF, CR and SPACE. *)
Definition is_space (c : ascii) : bool :=
  ((9 <=? code c)%nat && (code c <=? 13)%nat) || (code c =? 32)%nat.

Definition lower_char (c : ascii) : ascii :=
  if is_upper c then ascii_of_nat (code c + 32) else c.
Definition upper_char (c : ascii) : ascii :=
  if is_lower c then ascii_of_nat (code c - 32) else c.

Fixpoint map_chars (f : ascii -> ascii) (s : string) : string :=
  match s with
  | EmptyString => EmptyString
  | String c r => String (f c) (map_chars f r)
  end.

Definition toLowerCase : string -> string := map_chars lower_char.
Definition toUpperCase : string -> string := map_chars upper_char.

Fixpoint trimStart (s : string) : string :=
  match s with
  | EmptyString => EmptyString
  | String c r => if is_space c then trimStart r else s
  end.

Fixpoint trimEnd (s : string) : string :=
  match s with
  | EmptyString => EmptyString
  | String c r =>
      match trimEnd r with
      | EmptyString => if is_space c then EmptyString else String c EmptyString
      | t => String c t
      end
  end.

Definition trim (s : string) : string := trimEnd (trimStart s).

Definition is_sp (c : ascii) : bool := (code c =? 32)%nat.

(** [s.split(' ')]: cut at every single space; never the empty list. *)
Fixpoint split_sp (s : string) : list string :=
  match s with
  | EmptyString => [EmptyString]
  | String c r =>
      if is_sp c then EmptyString :: split_sp r
      else match split_sp r with
           | h :: t => String c h :: t
           | [] => [String c EmptyString]
           end
  end.

(** [parts.join(' ')]. *)
Fixpoint join_sp (l : list string) : string :=
  match l with
  | [] => EmptyString
  | [x] => x
  | x :: r => x ++ " " ++ join_sp r
  end.

Definition startsWith (s p : string) : bool := String.prefix p s.

(** [s.slice(0, n)] and [s.slice(-n)]. *)
Definition slice_to (n : nat) (s : string) : string := substring 0 n s.
Definition slice_last (n : nat) (s : string) : string :=
  substring (String.length s - n) n s.

(** Truthiness of a string: the empty string is falsy. *)
Definition truthy (s : string) : bool := negb (s =? "").

(** [x || y] on a string that may be [null]. *)
Definition or_else (x : option string) (y : string) : string :=
  match x with
  | Some s => if truthy s then s else y
  | None => y
  end.

(** [s || null]. *)
Definition or_null (s : string) : option string :=
  if truthy s then Some s else None.

End Js.

(* ================================================================== *)
(** ** The tables of [database/schema.sql] *)
(* ================================================================== *)

(** [telegram_users] (the [TelegramUser] interface of the webhook). *)
Record TelegramUser := mkUser {
  telegram_id : Z;
  wallet_address : option string;
  username : option string;
  link_code : option string;
  link_code_expires : option Z;
  linked_at : option Z;
  created_at : Z;
  referral_code : option string;
  referred_by : option Z;
  notifications_enabled : bool
}.

(** [telegram_price_alerts]. *)
Record PriceAlert := mkAlert {
  alert_id : nat;
  alert_owner : Z;
  alert_type : string;
  target_price : Q;
  triggered : bool;
  triggered_at : option Z
}.

(** [telegram_watchlist]. *)
Record WatchEntry := mkWatch {
  watch_owner : Z;
  watch_address : string;
  nickname : option string
}.

(** [telegram_referrals]. *)
Record Referral := mkReferral {
  referrer_telegram_id : Z;
  referred_telegram_id : Z;
  ref_code : string;
  ref_status : string;
  completed_at : option Z
}.

(** [telegram_support_tickets]. *)
Record Ticket := mkTicket {
  ticket_owner : Z;
  subject : string;
  message : string
}.

Record Store := mkStore {
  users : list TelegramUser;
  alerts : list PriceAlert;
  watchlist : list WatchEntry;
  referrals : list Referral;
  tickets : list Ticket
}.

(** A message handed to the Telegram [sendMessage] endpoint. *)
Record Outbound := mkOut { chat_id : Z; text : string }.

(** What the handlers read from [process.env]. [supabase] tells whether
    the client could be built from its two settings. *)
Record Config := mkConfig {
  supabase : bool;
  BOT_TOKEN : string;
  TOKEN_ADDRESS : string;
  STAKING_CONTRACT_ADDRESS : string;
  CRON_SECRET : option string
}.

(** Library and runtime functions the handlers call but do not define:
    [parseFloat] and [parseInt] ([None] is [NaN]), [Number.prototype.toFixed],
    the conversion of a number inside a template literal, and ethers'
    [verifyMessage] ([None] when it throws on a malformed signature).
    The numbers read are finite: [Infinity] is not modelled. *)
Record Runtime := mkRuntime {
  parseFloat : string -> option Q;
  parseInt : string -> option Z;
  toFixed : nat -> Q -> string;
  numToString : Q -> string;
  verifyMessage : string -> string -> option string
}.

(** The price-feed answer for the most liquid pair. *)
Record PriceData := mkPrice {
  price : Q;
  change24h : Q;
  volume24h : Q;
  marketCap : Q
}.

(** The collaborators behind [fetch]: whether the Telegram endpoint can be
    reached for a message, the price feed, and the chain RPC reads
    ([balanceOf] and [earned] of a contract for an address, the gas price). *)
Record Collab := mkCollab {
  transport : Outbound -> bool;
  priceFeed : option PriceData;
  rpcBalanceOf : string -> string -> option Z;
  rpcEarned : string -> string -> option Z;
  rpcGasPrice : option Z
}.

(* ================================================================== *)
(** ** The handler monad: store, outbox, exceptions *)
(* ================================================================== *)

Record World := mkWorld { db : Store; outbox : list Outbound }.

Inductive Result (A : Type) : Type :=
| Ok (a : A) (w : World)
| Throw (w : World).
Arguments Throw {A} w.

Definition M (A : Type) : Type := World -> Result A.

Definition ret {A} (a : A) : M A := fun w => Ok a w.

Definition bind {A B} (m : M A) (k : A -> M B) : M B :=
  fun w => match m w with
           | Ok a w' => k a w'
           | Throw w' => Throw w'
           end.

Definition throw {A} : M A := fun w => Throw w.

(** [try { m } catch { h }]. *)
Definition try_catch {A} (m : M A) (h : M A) : M A :=
  fun w => match m w with
           | Ok a w' => Ok a w'
           | Throw w' => h w'
           end.

Declare Scope js_scope.
Delimit Scope js_scope with js.
Notation "x <- m ;; k" := (bind m (fun x => k))
  (at level 61, m at next level, right associativity) : js_scope.
Notation "m ;;; k" := (bind m (fun _ => k))
  (at level 61, right associativity) : js_scope.
Open Scope js_scope.

(** A read of the store. *)
Definition query {A} (f : Store -> A) : M A := fun w => Ok (f (db w)) w.

(** A write to the store. *)
Definition exec (f : Store -> Store) : M unit :=
  fun w => Ok tt (mkWorld (f (db w)) (outbox w)).

(** Hand a message to the transport. *)
Definition post (o : Outbound) : M unit :=
  fun w => Ok tt (mkWorld (db w) (outbox w ++ [o])).

Definition world_of {A} (r : Result A) : World :=
  match r with Ok _ w => w | Throw w => w end.

Definition value_of {A} (r : Result A) : option A :=
  match r with Ok a _ => Some a | Throw _ => None end.

(** [.single()]: the row when the query matched exactly one. *)
Definition single {A} (l : list A) : option A :=
  match l with
  | [x] => Some x
  | _ => None
  end.

Definition opt_is (o : option string) (s : string) : bool :=
  match o with
  | Some x => x =? s
  | None => false
  end.

(** *** Query-builder operations on the tables *)

Module Db.

Definition set_users (f : list TelegramUser -> list TelegramUser) (s : Store) : Store :=
  mkStore (f (users s)) (alerts s) (watchlist s) (referrals s) (tickets s).
Definition set_alerts (f : list PriceAlert -> list PriceAlert) (s : Store) : Store :=
  mkStore (users s) (f (alerts s)) (watchlist s) (referrals s) (tickets s).
Definition set_watchlist (f : list WatchEntry -> list WatchEntry) (s : Store) : Store :=
  mkStore (users s) (alerts s) (f (watchlist s)) (referrals s) (tickets s).
Definition set_referrals (f : list Referral -> list Referral) (s : Store) : Store :=
  mkStore (users s) (alerts s) (watchlist s) (f (referrals s)) (tickets s).
Definition set_tickets (f : list Ticket -> list Ticket) (s : Store) : Store :=
  mkStore (users s) (alerts s) (watchlist s) (referrals s) (f (tickets s)).

(** [update(...).eq(...)]: every row the filter selects is rewritten. *)
Definition update_where {A} (p : A -> bool) (f : A -> A) (l : list A) : list A :=
  map (fun r => if p r then f r else r) l.

(** [delete().eq(...)]. *)
Definition delete_where {A} (p : A -> bool) (l : list A) : list A :=
  filter (fun r => negb (p r)) l.

Definition by_telegram_id (id : Z) (u : TelegramUser) : bool := (telegram_id u =? id)%Z.
Definition by_link_code (c : string) (u : TelegramUser) : bool := opt_is (link_code u) c.
Definition by_referral_code (c : string) (u : TelegramUser) : bool := opt_is (referral_code u) c.

Definition by_alert_id (id : nat) (a : PriceAlert) : bool := (alert_id a =? id)%nat.
Definition untriggered (a : PriceAlert) : bool := negb (triggered a).
Definition active_of (id : Z) (a : PriceAlert) : bool :=
  (alert_owner a =? id)%Z && negb (triggered a).

Definition watch_of (id : Z) (w : WatchEntry) : bool := (watch_owner w =? id)%Z.
Definition watch_pair (id : Z) (addr : string) (w : WatchEntry) : bool :=
  (watch_owner w =? id)%Z && (watch_address w =? addr).

(** The identifier the store gives a new alert row (the column default):
    one not used by any row of the table. *)
Definition fresh_alert_id (l : list PriceAlert) : nat :=
  S (list_max (map alert_id l)).

(** Insert into [telegram_users]; refused when the primary key or the
    UNIQUE referral code is already taken. *)
Definition insert_user (u : TelegramUser) (s : Store) : option Store :=
  if existsb (by_telegram_id (telegram_id u)) (users s)
     || existsb (fun r => match referral_code u with
                          | Some c => by_referral_code c r
                          | None => false
                          end) (users s)
  then None
  else Some (set_users (fun l => (l ++ [u])%list) s).

(** Insert into [telegram_referrals]; the referred participant is UNIQUE,
    a second edge for the same participant is refused. *)
Definition insert_referral (r : Referral) (s : Store) : Store :=
  if existsb (fun e => (referred_telegram_id e =? referred_telegram_id r)%Z) (referrals s)
  then s
  else set_referrals (fun l => (l ++ [r])%list) s.

(** [upsert] into [telegram_watchlist].  The call names no conflict
    target, so the conflict is resolved on the primary key [id], which the
    handler does not send: a row for a pair the table already holds breaks
    UNIQUE (telegram_id, wallet_address), the statement is refused and the
    table stays as it was; otherwise a row is added. *)
Definition upsert_watch (e : WatchEntry) (s : Store) : Store :=
  if existsb (watch_pair (watch_owner e) (watch_address e)) (watchlist s)
  then s
  else set_watchlist (fun l => (l ++ [e])%list) s.

(** The column [target_price DECIMAL(20, 10) NOT NULL]: a value is rounded
    to ten decimal places, ties away from zero, and refused when the
    rounded value needs more than ten digits before the point. *)
Definition decimal_scale : Z := (10 ^ 10)%Z.

(** The number of units of [1e-10] in the rounded value. *)
Definition decimal_units (q : Q) : Z :=
  let n := (Z.abs (Qnum q) * decimal_scale)%Z in
  let d := Z.pos (Qden q) in
  let u := ((2 * n + d) / (2 * d))%Z in
  if (Qnum q <? 0)%Z then (- u)%Z else u.

Definition fits_decimal (q : Q) : bool :=
  (Z.abs (decimal_units q) <? decimal_scale * decimal_scale)%Z.

(** The stored value, in lowest terms. *)
Definition store_decimal (q : Q) : Q :=
  Qred (Qmake (decimal_units q) (Z.to_pos decimal_scale)).

(** Insert into [telegram_price_alerts]: the identifier and the
    [triggered] flag take their column defaults; a target the column
    cannot hold makes the statement fail and leaves the table as it was. *)
Definition insert_alert (owner : Z) (kind : string) (target : Q) (s : Store) : Store :=
  if fits_decimal target
  then set_alerts (fun l =>
         (l ++ [mkAlert (fresh_alert_id l) owner kind (store_decimal target)
                        false None])%list) s
  else s.

End Db.

(** Characters that a Rocq string literal cannot hold directly. *)
Definition nl : string := String (ascii_of_nat 10) EmptyString.
Definition dq : string := String (ascii_of_nat 34) EmptyString.

(** A nullable value inside a template literal. *)
Definition show_opt (o : option string) : string :=
  match o with
  | Some s => s
  | None => "null"
  end.

(** [!x] on a nullable number: [null] and [0] are falsy. *)
Definition falsy_num (o : option Z) : bool :=
  match o with
  | None => true
  | Some z => (z =? 0)%Z
  end.

(** [!x] on a nullable string: [null] and the empty string are falsy. *)
Definition falsy_str (o : option string) : bool :=
  match o with
  | None => true
  | Some s => negb (Js.truthy s)
  end.

Definition Qge_bool (x y : Q) : bool := Qle_bool y x.
Definition Qgt_bool (x y : Q) : bool := negb (Qle_bool x y).

(* ================================================================== *)
(** ** [api/telegram/webhook.ts] *)
(* ================================================================== *)

Module Webhook.

Definition PROJECT_NAME : string := "My Project".
Definition PROJECT_URL : string := "https://yourproject.com".
Definition BOT_USERNAME : string := "YourBotUsername".

(** The part of a [TelegramUpdate] the handler reads. *)
Record Message := mkMessage {
  from_id : Z;
  from_username : option string;
  chat : Z;
  msg_text : option string
}.

Record Request := mkRequest {
  method : string;
  update_message : option Message
}.

Inductive Body : Type :=
| JsonOk
| JsonError (e : string).

Record Response := mkResponse { status : nat; body : Body }.

Section Handlers.

Variable cfg : Config.
Variable rt : Runtime.
Variable co : Collab.
(** The instant of the invocation and the hexadecimal rendering of
    [crypto.randomBytes(length)]. *)
Variable now : Z.
Variable randomBytesHex : nat -> string.

(** *** Utility functions *)

(** The [try]/[catch] around [fetch] swallows a transport failure. *)
Definition sendMessage (chatId : Z) (t : string) : M unit :=
  post (mkOut chatId t).

Definition generateCode (length : nat) : string :=
  Js.slice_to length (randomBytesHex length).

Definition e3 : Q := inject_Z 1000.
Definition e6 : Q := inject_Z 1000000.
Definition e9 : Q := inject_Z 1000000000.
Definition e18 : Q := inject_Z 1000000000000000000.

Definition formatNumber (num : Q) : string :=
  if Qge_bool num e9 then toFixed rt 2 (num / e9) ++ "B"
  else if Qge_bool num e6 then toFixed rt 2 (num / e6) ++ "M"
  else if Qge_bool num e3 then toFixed rt 2 (num / e3) ++ "K"
  else if Qge_bool num 1 then toFixed rt 2 num
  else toFixed rt 6 num.

Definition formatUSD (num : Q) : string :=
  if Qge_bool num e6 then "$" ++ toFixed rt 2 (num / e6) ++ "M"
  else if Qge_bool num e3 then "$" ++ toFixed rt 2 (num / e3) ++ "K"
  else "$" ++ toFixed rt 2 num.

Definition shortenAddress (addr : string) : string :=
  Js.slice_to 6 addr ++ "..." ++ Js.slice_last 4 addr.

(** *** User management *)

Definition set_username (n : option string) (u : TelegramUser) : TelegramUser :=
  mkUser (telegram_id u) (wallet_address u) n (link_code u) (link_code_expires u)
         (linked_at u) (created_at u) (referral_code u) (referred_by u)
         (notifications_enabled u).

Definition set_link (c : option string) (e : option Z) (u : TelegramUser) : TelegramUser :=
  mkUser (telegram_id u) (wallet_address u) (username u) c e
         (linked_at u) (created_at u) (referral_code u) (referred_by u)
         (notifications_enabled u).

Definition set_wallet (a : option string) (t : option Z) (u : TelegramUser) : TelegramUser :=
  mkUser (telegram_id u) a (username u) (link_code u) (link_code_expires u)
         t (created_at u) (referral_code u) (referred_by u)
         (notifications_enabled u).

Definition set_referred_by (r : option Z) (u : TelegramUser) : TelegramUser :=
  mkUser (telegram_id u) (wallet_address u) (username u) (link_code u)
         (link_code_expires u) (linked_at u) (created_at u) (referral_code u) r
         (notifications_enabled u).

Definition set_notifications (b : bool) (u : TelegramUser) : TelegramUser :=
  mkUser (telegram_id u) (wallet_address u) (username u) (link_code u)
         (link_code_expires u) (linked_at u) (created_at u) (referral_code u)
         (referred_by u) b.

Definition update_user (id : Z) (f : TelegramUser -> TelegramUser) : M unit :=
  exec (Db.set_users (Db.update_where (Db.by_telegram_id id) f)).

(** The row [getOrCreateUser] inserts for an unseen participant. *)
Definition new_user (telegramId : Z) (uname : option string) (referralCode : string)
  : TelegramUser :=
  mkUser telegramId None
         (match uname with Some n => Js.or_null n | None => None end)
         None None None now (Some referralCode) None true.

Definition username_changed (uname : option string) (existing : TelegramUser) : bool :=
  match uname with
  | Some n => Js.truthy n && negb (opt_is (username existing) n)
  | None => false
  end.

Definition getOrCreateUser (telegramId : Z) (uname : option string)
  : M (option TelegramUser) :=
  if negb (supabase cfg) then ret None
  else
    existing <- query (fun s => single (filter (Db.by_telegram_id telegramId) (users s))) ;;
    match existing with
    | Some e =>
        (if username_changed uname e
         then update_user telegramId (set_username uname)
         else ret tt) ;;;
        ret (Some e)
    | None =>
        let referralCode := Js.toUpperCase (generateCode 8) in
        let u := new_user telegramId uname referralCode in
        fun w => match Db.insert_user u (db w) with
                 | Some s' => Ok (Some u) (mkWorld s' (outbox w))
                 | None => Ok None w
                 end
    end.

(** *** Blockchain data *)

Record Balance := mkBalance { balance : string; raw : Z }.

Definition getTokenBalance (walletAddress : string) : Balance :=
  if negb (Js.truthy (TOKEN_ADDRESS cfg)) then mkBalance "0" 0
  else match rpcBalanceOf co (TOKEN_ADDRESS cfg) (Js.toLowerCase walletAddress) with
       | Some r => mkBalance (formatNumber (inject_Z r / e18)) r
       | None => mkBalance "0" 0
       end.

Definition getStakingData (walletAddress : string) : option (string * string) :=
  if negb (Js.truthy (STAKING_CONTRACT_ADDRESS cfg)) then None
  else
    let a := Js.toLowerCase walletAddress in
    let stakedBalance :=
      match rpcBalanceOf co (STAKING_CONTRACT_ADDRESS cfg) a with Some r => r | None => 0%Z end in
    let earnedRewards :=
      match rpcEarned co (STAKING_CONTRACT_ADDRESS cfg) a with Some r => r | None => 0%Z end in
    Some (formatNumber (inject_Z stakedBalance / e18),
          toFixed rt 4 (inject_Z earnedRewards / e6)).

Definition getTokenPrice : option PriceData :=
  if negb (Js.truthy (TOKEN_ADDRESS cfg)) then None else priceFeed co.

Definition getGasPrice : option string :=
  match rpcGasPrice co with
  | Some r => Some (toFixed rt 4 (inject_Z r / e9))
  | None => None
  end.

(** *** Command handlers *)

Definition handleStart (chatId : Z) (user : TelegramUser) (args : string) : M unit :=
  (if Js.truthy args && falsy_num (referred_by user) && supabase cfg then
     referrer <- query (fun s =>
       single (filter (Db.by_referral_code (Js.toUpperCase args)) (users s))) ;;
     match referrer with
     | Some r =>
         if negb (telegram_id r =? telegram_id user)%Z then
           update_user (telegram_id user) (set_referred_by (Some (telegram_id r))) ;;;
           exec (Db.insert_referral
                   (mkReferral (telegram_id r) (telegram_id user)
                               (Js.toUpperCase args) "completed" (Some now)))
         else ret tt
     | None => ret tt
     end
   else ret tt) ;;;
  let isLinked := negb (falsy_str (wallet_address user)) in
  let message := "Welcome to <b>" ++ PROJECT_NAME ++ " Bot</b>!" ++ nl ++ nl in
  let message :=
    if isLinked then
      message ++ "Wallet: <code>" ++ shortenAddress (show_opt (wallet_address user))
              ++ "</code>" ++ nl ++ nl
              ++ "/portfolio - Your balance" ++ nl
              ++ "/price - Token price" ++ nl
              ++ "/help - All commands"
    else
      message ++ "Use /link to connect your wallet" ++ nl
              ++ "/help - See all commands" in
  sendMessage chatId message.

Definition handleHelp (chatId : Z) : M unit :=
  let message :=
    "<b>" ++ PROJECT_NAME ++ " Bot Commands</b>" ++ nl ++ nl ++
    "<b>Account</b>" ++ nl ++
    "/link - Link wallet" ++ nl ++
    "/unlink - Unlink wallet" ++ nl ++
    "/notify - Toggle notifications" ++ nl ++ nl ++
    "<b>Portfolio</b>" ++ nl ++
    "/portfolio - Token balance" ++ nl ++
    (if Js.truthy (STAKING_CONTRACT_ADDRESS cfg)
     then "/staking - Staking status" ++ nl ++ nl else nl) ++
    "<b>Market</b>" ++ nl ++
    "/price - Token price" ++ nl ++
    "/gas - Gas price" ++ nl ++
    "/convert [amount] - To USD" ++ nl ++ nl ++
    "<b>Alerts</b>" ++ nl ++
    "/alert above/below [price]" ++ nl ++
    "/alerts - View alerts" ++ nl ++
    "/deletealert [#]" ++ nl ++ nl ++
    "<b>Watchlist</b>" ++ nl ++
    "/watch [address] [name]" ++ nl ++
    "/watchlist - View list" ++ nl ++
    "/unwatch [address]" ++ nl ++ nl ++
    "<b>Referrals</b>" ++ nl ++
    "/refer - Your link" ++ nl ++
    "/referrals - Your invites" ++ nl ++ nl ++
    "<b>Other</b>" ++ nl ++
    "/contract - Contract address" ++ nl ++
    "/faq - FAQ" ++ nl ++
    "/support [message]" in
  sendMessage chatId message.

Definition handleLink (chatId telegramId : Z) (user : TelegramUser) : M unit :=
  if negb (supabase cfg) then sendMessage chatId "Service unavailable."
  else if negb (falsy_str (wallet_address user)) then
    sendMessage chatId ("Wallet already linked:" ++ nl ++ "<code>"
                        ++ show_opt (wallet_address user) ++ "</code>" ++ nl ++ nl
                        ++ "Use /unlink first.")
  else
    let linkCode := generateCode 32 in
    update_user telegramId (set_link (Some linkCode) (Some (now + 15 * 60 * 1000)%Z)) ;;;
    sendMessage chatId ("<a href=" ++ dq ++ PROJECT_URL ++ "/link-telegram?code=" ++ linkCode
                        ++ dq ++ ">Click here to link your wallet</a>" ++ nl ++ nl
                        ++ "Expires in 15 minutes.").

Definition handleUnlink (chatId telegramId : Z) (user : TelegramUser) : M unit :=
  if negb (supabase cfg) || falsy_str (wallet_address user) then
    sendMessage chatId "No wallet linked."
  else
    update_user telegramId (set_wallet None None) ;;;
    sendMessage chatId "Wallet unlinked.".

Definition handleNotify (chatId telegramId : Z) (user : TelegramUser) : M unit :=
  if negb (supabase cfg) then ret tt
  else
    let newState := negb (notifications_enabled user) in
    update_user telegramId (set_notifications newState) ;;;
    sendMessage chatId (if newState then "Notifications enabled."
                        else "Notifications disabled.").

Definition handlePortfolio (chatId : Z) (user : TelegramUser) : M unit :=
  match wallet_address user with
  | Some w =>
      if Js.truthy w then
        let b := getTokenBalance w in
        let usdValue :=
          match getTokenPrice with
          | Some p =>
              if (0 <? raw b)%Z
              then " (" ++ formatUSD ((inject_Z (raw b) / e18) * price p) ++ ")"
              else ""
          | None => ""
          end in
        sendMessage chatId ("<b>Your Portfolio</b>" ++ nl ++ nl ++ "Balance: "
                            ++ balance b ++ usdValue)
      else sendMessage chatId "No wallet linked. Use /link first."
  | None => sendMessage chatId "No wallet linked. Use /link first."
  end.

Definition handleStaking (chatId : Z) (user : TelegramUser) : M unit :=
  if negb (Js.truthy (STAKING_CONTRACT_ADDRESS cfg)) then
    sendMessage chatId "Staking not configured."
  else if falsy_str (wallet_address user) then
    sendMessage chatId "No wallet linked. Use /link first."
  else
    match getStakingData (show_opt (wallet_address user)) with
    | None => sendMessage chatId "Failed to fetch staking data."
    | Some (staked, rewards) =>
        sendMessage chatId ("<b>Staking Status</b>" ++ nl ++ nl ++ "Staked: " ++ staked
                            ++ nl ++ "Rewards: " ++ rewards)
    end.

Definition handlePrice (chatId : Z) : M unit :=
  match getTokenPrice with
  | None => sendMessage chatId "Unable to fetch price."
  | Some p =>
      let changeEmoji := if Qge_bool (change24h p) 0 then "📈" else "📉" in
      let changeSign := if Qge_bool (change24h p) 0 then "+" else "" in
      sendMessage chatId
        ("<b>Token Price</b>" ++ nl ++ nl ++
         "Price: $" ++ formatNumber (price p) ++ nl ++
         changeEmoji ++ " 24h: " ++ changeSign ++ toFixed rt 2 (change24h p) ++ "%" ++ nl ++
         "Volume: " ++ formatUSD (volume24h p) ++ nl ++
         "MCap: " ++ formatUSD (marketCap p))
  end.

Definition handleGas (chatId : Z) : M unit :=
  sendMessage chatId
    (match getGasPrice with
     | Some gas => "Gas: " ++ gas ++ " Gwei"
     | None => "Unable to fetch gas."
     end).

Definition handleConvert (chatId : Z) (args : string) : M unit :=
  match parseFloat rt args with
  | None => sendMessage chatId "Usage: /convert [amount]"
  | Some amount =>
      if Qle_bool amount 0 then sendMessage chatId "Usage: /convert [amount]"
      else match getTokenPrice with
           | None => sendMessage chatId "Unable to fetch price."
           | Some p =>
               sendMessage chatId (formatNumber amount ++ " = "
                                   ++ formatUSD (amount * price p))
           end
  end.

Definition count_active (telegramId : Z) (s : Store) : nat :=
  List.length (filter (Db.active_of telegramId) (alerts s)).

(** The result of the insert is not read: the reply is sent whether or
    not the row went in. *)
Definition handleAlert (chatId telegramId : Z) (args : string) : M unit :=
  if negb (supabase cfg) then ret tt
  else
    let parts := Js.split_sp args in
    if (List.length parts <? 2)%nat then sendMessage chatId "Usage: /alert above 0.001"
    else
      let alertType := Js.toLowerCase (nth 0 parts "") in
      match parseFloat rt (nth 1 parts "") with
      | Some targetPrice =>
          if negb ((alertType =? "above") || (alertType =? "below")) then
            sendMessage chatId "Invalid. Use: /alert above [price]"
          else
            count <- query (count_active telegramId) ;;
            if (5 <=? count)%nat then sendMessage chatId "Max 5 alerts. Delete some first."
            else
              exec (Db.insert_alert telegramId alertType targetPrice) ;;;
              sendMessage chatId ("Alert set: " ++ alertType ++ " $"
                                  ++ numToString rt targetPrice)
      | None => sendMessage chatId "Invalid. Use: /alert above [price]"
      end.

Fixpoint alert_lines (i : Z) (l : list PriceAlert) : string :=
  match l with
  | [] => ""
  | a :: r =>
      numToString rt (inject_Z (i + 1)) ++ ". " ++ alert_type a ++ " $"
        ++ numToString rt (target_price a) ++ nl ++ alert_lines (i + 1) r
  end.

Definition handleAlerts (chatId telegramId : Z) : M unit :=
  if negb (supabase cfg) then ret tt
  else
    alerts <- query (fun s => filter (Db.active_of telegramId) (alerts s)) ;;
    match alerts with
    | [] => sendMessage chatId "No active alerts."
    | _ => sendMessage chatId ("<b>Your Alerts</b>" ++ nl ++ nl ++ alert_lines 0 alerts)
    end.

(** [parseInt(args) - 1] is [NaN] when the argument is no number; both
    range tests are then false and reading [alerts[NaN].id] throws. *)
Definition handleDeleteAlert (chatId telegramId : Z) (args : string) : M unit :=
  if negb (supabase cfg) then ret tt
  else
    alerts <- query (fun s => filter (Db.active_of telegramId) (alerts s)) ;;
    match parseInt rt args with
    | None => throw
    | Some n =>
        let index := (n - 1)%Z in
        if (index <? 0)%Z || (Z.of_nat (List.length alerts) <=? index)%Z then
          sendMessage chatId "Alert not found."
        else
          match nth_error alerts (Z.to_nat index) with
          | Some a =>
              exec (Db.set_alerts (Db.delete_where (Db.by_alert_id (alert_id a)))) ;;;
              sendMessage chatId "Alert deleted."
          | None => throw
          end
    end.

Definition count_watch (telegramId : Z) (s : Store) : nat :=
  List.length (filter (Db.watch_of telegramId) (watchlist s)).

(** The result of the upsert is not read either. *)
Definition handleWatch (chatId telegramId : Z) (args : string) : M unit :=
  if negb (supabase cfg) then ret tt
  else
    let parts := Js.split_sp args in
    let address := nth 0 parts "" in
    let nickname := Js.or_null (Js.join_sp (tl parts)) in
    if negb (Js.startsWith address "0x") || negb (String.length address =? 42)%nat then
      sendMessage chatId "Usage: /watch [address] [name]"
    else
      count <- query (count_watch telegramId) ;;
      if (10 <=? count)%nat then sendMessage chatId "Max 10 wallets."
      else
        exec (Db.upsert_watch (mkWatch telegramId (Js.toLowerCase address) nickname)) ;;;
        sendMessage chatId ("Watching: " ++ Js.or_else nickname (shortenAddress address)).

Fixpoint watch_lines (l : list WatchEntry) : string :=
  match l with
  | [] => ""
  | w :: r =>
      Js.or_else (nickname w) (shortenAddress (watch_address w)) ++ ": "
        ++ balance (getTokenBalance (watch_address w)) ++ nl ++ watch_lines r
  end.

Definition handleWatchlist (chatId telegramId : Z) : M unit :=
  if negb (supabase cfg) then ret tt
  else
    wallets <- query (fun s => filter (Db.watch_of telegramId) (watchlist s)) ;;
    match wallets with
    | [] => sendMessage chatId "Watchlist empty."
    | _ => sendMessage chatId ("<b>Watchlist</b>" ++ nl ++ nl ++ watch_lines wallets)
    end.

Definition handleUnwatch (chatId telegramId : Z) (args : string) : M unit :=
  if negb (supabase cfg) || negb (Js.startsWith args "0x") then
    sendMessage chatId "Usage: /unwatch [address]"
  else
    exec (Db.set_watchlist
            (Db.delete_where (Db.watch_pair telegramId (Js.toLowerCase args)))) ;;;
    sendMessage chatId "Removed.".

Definition handleRefer (chatId : Z) (user : TelegramUser) : M unit :=
  sendMessage chatId ("Your referral link:" ++ nl ++ nl ++ "https://t.me/" ++ BOT_USERNAME
                      ++ "?start=" ++ show_opt (referral_code user)).

Definition handleReferrals (chatId telegramId : Z) : M unit :=
  if negb (supabase cfg) then ret tt
  else
    count <- query (fun s =>
      List.length (filter (fun e => (referrer_telegram_id e =? telegramId)%Z) (referrals s))) ;;
    sendMessage chatId ("Total referrals: " ++ numToString rt (inject_Z (Z.of_nat count))).

Definition handleContract (chatId : Z) : M unit :=
  sendMessage chatId ("<b>Contract</b>" ++ nl ++ nl ++ "<code>" ++ TOKEN_ADDRESS cfg
                      ++ "</code>").

Definition handleFaq (chatId : Z) : M unit :=
  sendMessage chatId
    ("<b>FAQ</b>" ++ nl ++ nl ++
     "<b>How do I link my wallet?</b>" ++ nl ++
     "Use /link and follow the instructions." ++ nl ++ nl ++
     "<b>How do alerts work?</b>" ++ nl ++
     "Set with /alert above [price]. You'll be notified when triggered.").

Definition handleSupport (chatId telegramId : Z) (args : string) : M unit :=
  if negb (Js.truthy args) || (String.length args <? 5)%nat then
    sendMessage chatId "Usage: /support [your message]"
  else
    (if supabase cfg
     then exec (Db.set_tickets (fun l => (l ++ [mkTicket telegramId "Support" args])%list))
     else ret tt) ;;;
    sendMessage chatId "Support request submitted.".

(** *** Main handler *)

(** [const [command, ...argParts] = text.split(' ')], the joined
    arguments and the lower-cased command. *)
Definition parse_command (text : string) : string * string :=
  let parts := Js.split_sp text in
  let command := hd "" parts in
  let args := Js.join_sp (tl parts) in
  (Js.toLowerCase command, args).

Definition dispatch (chatId telegramId : Z) (user : TelegramUser) (text cmd args : string)
  : M unit :=
  if cmd =? "/start" then handleStart chatId user args
  else if cmd =? "/help" then handleHelp chatId
  else if cmd =? "/link" then handleLink chatId telegramId user
  else if cmd =? "/unlink" then handleUnlink chatId telegramId user
  else if cmd =? "/notify" then handleNotify chatId telegramId user
  else if (cmd =? "/portfolio") || (cmd =? "/balance") then handlePortfolio chatId user
  else if cmd =? "/staking" then handleStaking chatId user
  else if cmd =? "/price" then handlePrice chatId
  else if cmd =? "/gas" then handleGas chatId
  else if cmd =? "/convert" then handleConvert chatId args
  else if cmd =? "/alert" then handleAlert chatId telegramId args
  else if cmd =? "/alerts" then handleAlerts chatId telegramId
  else if cmd =? "/deletealert" then handleDeleteAlert chatId telegramId args
  else if cmd =? "/watch" then handleWatch chatId telegramId args
  else if cmd =? "/watchlist" then handleWatchlist chatId telegramId
  else if cmd =? "/unwatch" then handleUnwatch chatId telegramId args
  else if cmd =? "/refer" then handleRefer chatId user
  else if cmd =? "/referrals" then handleReferrals chatId telegramId
  else if cmd =? "/contract" then handleContract chatId
  else if cmd =? "/faq" then handleFaq chatId
  else if cmd =? "/support" then handleSupport chatId telegramId args
  else if Js.startsWith text "/" then sendMessage chatId "Unknown command. Use /help"
  else ret tt.

Definition ack : Response := mkResponse 200 JsonOk.

(** What the handler does with a message that carries text. *)
Definition on_text (m : Message) (rawText : string) : M Response :=
  let chatId := chat m in
  let telegramId := from_id m in
  let text := Js.trim rawText in
  user <- getOrCreateUser telegramId (from_username m) ;;
  match user with
  | None => sendMessage chatId "Service unavailable." ;;; ret ack
  | Some user =>
      let '(cmd, args) := parse_command text in
      dispatch chatId telegramId user text cmd args ;;; ret ack
  end.

Definition handler (req : Request) : M Response :=
  if negb (method req =? "POST") then ret (mkResponse 405 (JsonError "Method not allowed"))
  else if negb (Js.truthy (BOT_TOKEN cfg)) then
    ret (mkResponse 500 (JsonError "Bot not configured"))
  else
    try_catch
      (match update_message req with
       | Some m =>
           match msg_text m with
           | Some rawText => if Js.truthy rawText then on_text m rawText else ret ack
           | None => ret ack
           end
       | None => ret ack
       end)
      (ret ack).

End Handlers.
End Webhook.

(* ================================================================== *)
(** ** [api/telegram/verify-link.ts] *)
(* ================================================================== *)

Module VerifyLink.

(** The fields read from the request body; one that is absent is [None]. *)
Record Fields := mkFields {
  code : option string;
  walletAddress : option string;
  signature : option string
}.

(** [req.body] is [undefined] when the request carries no body. *)
Record Request := mkRequest {
  method : string;
  req_body : option Fields
}.

Inductive Body : Type :=
| JsonSuccess
| JsonError (e : string).

Record Response := mkResponse { status : nat; body : Body }.

Section Handler.

Variable cfg : Config.
Variable rt : Runtime.
Variable co : Collab.
Variable now : Z.

(** No [try]/[catch] here: a rejected [fetch] propagates. *)
Definition sendTelegramMessage (chatId : Z) (t : string) : M unit :=
  post (mkOut chatId t) ;;;
  (if transport co (mkOut chatId t) then ret tt else throw).

(** [user.link_code_expires && new Date(user.link_code_expires) < new Date()]. *)
Definition expired (user : TelegramUser) : bool :=
  match link_code_expires user with
  | Some e => (e <? now)%Z
  | None => false
  end.

Definition expectedMessage (c : string) : string :=
  "Link wallet to Telegram" ++ nl ++ nl ++ "Code: " ++ c.

(** The single update of a successful verification. *)
Definition bind_wallet (w : string) (u : TelegramUser) : TelegramUser :=
  mkUser (telegram_id u) (Some (Js.toLowerCase w)) (username u) None None
         (Some now) (created_at u) (referral_code u) (referred_by u)
         (notifications_enabled u).

Definition linked_text (w : string) : string :=
  "✅ Wallet linked successfully!" ++ nl ++ nl ++ "<code>" ++ w
  ++ "</code>" ++ nl ++ nl ++ "Use /portfolio to check your balance.".

(** The body of the [try] block. *)
Definition verify (c w sig : string) : M Response :=
  user <- query (fun s => single (filter (Db.by_link_code c) (users s))) ;;
  match user with
  | None => ret (mkResponse 404 (JsonError "Invalid or expired link code"))
  | Some user =>
      if expired user then ret (mkResponse 400 (JsonError "Link code expired"))
      else
        match verifyMessage rt (expectedMessage c) sig with
        | None => throw
        | Some recoveredAddress =>
            if negb (Js.toLowerCase recoveredAddress =? Js.toLowerCase w) then
              ret (mkResponse 400 (JsonError "Invalid signature"))
            else
              exec (Db.set_users
                      (Db.update_where (Db.by_telegram_id (telegram_id user))
                                       (bind_wallet w))) ;;;
              (if Js.truthy (BOT_TOKEN cfg) then
                 sendTelegramMessage (telegram_id user) (linked_text w)
               else ret tt) ;;;
              ret (mkResponse 200 JsonSuccess)
        end
  end.

(** The body is destructured before the [try]: on a request without a
    body the destructuring throws and nothing catches it. *)
Definition handler (req : Request) : M Response :=
  if negb (method req =? "POST") then ret (mkResponse 405 (JsonError "Method not allowed"))
  else if negb (supabase cfg) then
    ret (mkResponse 500 (JsonError "Database not configured"))
  else
    match req_body req with
    | None => throw
    | Some f =>
        match code f, walletAddress f, signature f with
        | Some c, Some w, Some sig =>
            if Js.truthy c && Js.truthy w && Js.truthy sig then
              try_catch (verify c w sig)
                        (ret (mkResponse 500 (JsonError "Verification failed")))
            else ret (mkResponse 400 (JsonError "Missing required fields"))
        | _, _, _ => ret (mkResponse 400 (JsonError "Missing required fields"))
        end
    end.

End Handler.
End VerifyLink.

(* ================================================================== *)
(** ** [api/cron/check-alerts.ts] *)
(* ================================================================== *)

Module CheckAlerts.

Record Request := mkRequest {
  method : string;
  authorization : option string
}.

Inductive Body : Type :=
| JsonError (e : string)
| JsonNoAlerts (p : Q)
| JsonSummary (p : Q) (checked triggered : nat).

Record Response := mkResponse { status : nat; body : Body }.

(** A row of the sweep's [select]: the alert with the owner's
    [notifications_enabled] joined in ([None] when no owner row is found). *)
Record AlertRow := mkRow {
  alert : PriceAlert;
  telegram_users : option bool
}.

Section Handler.

Variable cfg : Config.
Variable rt : Runtime.
Variable co : Collab.
Variable now : Z.

Definition sendTelegramMessage (chatId : Z) (t : string) : M unit :=
  post (mkOut chatId t) ;;;
  (if transport co (mkOut chatId t) then ret tt else throw).

Definition getCurrentPrice : option Q :=
  if negb (Js.truthy (TOKEN_ADDRESS cfg)) then None
  else match priceFeed co with
       | Some p => Some (price p)
       | None => None
       end.

Definition shouldTrigger (currentPrice : Q) (a : PriceAlert) : bool :=
  ((alert_type a =? "above") && Qge_bool currentPrice (target_price a))
  || ((alert_type a =? "below") && Qle_bool currentPrice (target_price a)).

Definition join_owner (s : Store) (a : PriceAlert) : AlertRow :=
  mkRow a (option_map notifications_enabled
                      (find (Db.by_telegram_id (alert_owner a)) (users s))).

(** [select('*, telegram_users(notifications_enabled)').eq('triggered', false)]. *)
Definition select_untriggered (s : Store) : list AlertRow :=
  map (join_owner s) (filter Db.untriggered (alerts s)).

Definition mark_triggered (a : PriceAlert) : PriceAlert :=
  mkAlert (alert_id a) (alert_owner a) (alert_type a) (target_price a) true (Some now).

(** [userSettings?.notifications_enabled !== false]. *)
Definition wants_notification (r : AlertRow) : bool :=
  match telegram_users r with
  | Some false => false
  | _ => true
  end.

Definition alert_text (currentPrice : Q) (a : PriceAlert) : string :=
  let emoji := if alert_type a =? "above" then "📈" else "📉" in
  emoji ++ " <b>Price Alert!</b>" ++ nl ++ nl ++ "Price is now " ++ alert_type a ++ " $"
        ++ numToString rt (target_price a) ++ nl ++ "Current: $"
        ++ toFixed rt 10 currentPrice.

(** One iteration of the [for] loop; [triggered] is the running counter. *)
Definition check_alert (currentPrice : Q) (r : AlertRow) (triggered : nat) : M nat :=
  if shouldTrigger currentPrice (alert r) then
    exec (Db.set_alerts
            (Db.update_where (Db.by_alert_id (alert_id (alert r))) mark_triggered)) ;;;
    (if wants_notification r then
       sendTelegramMessage (alert_owner (alert r)) (alert_text currentPrice (alert r)) ;;;
       ret (S triggered)
     else ret triggered)
  else ret triggered.

Fixpoint sweep (currentPrice : Q) (rows : list AlertRow) (triggered : nat) : M nat :=
  match rows with
  | [] => ret triggered
  | r :: rest =>
      t <- check_alert currentPrice r triggered ;;
      sweep currentPrice rest t
  end.

Definition bearer : string :=
  "Bearer " ++ match CRON_SECRET cfg with Some s => s | None => "undefined" end.

Definition handler (req : Request) : M Response :=
  if negb (method req =? "GET") && negb (opt_is (authorization req) bearer) then
    ret (mkResponse 401 (JsonError "Unauthorized"))
  else if negb (supabase cfg) || negb (Js.truthy (BOT_TOKEN cfg)) then
    ret (mkResponse 500 (JsonError "Not configured"))
  else
    try_catch
      (match getCurrentPrice with
       | None => ret (mkResponse 500 (JsonError "Failed to get price"))
       | Some currentPrice =>
           if Qeq_bool currentPrice 0 then
             ret (mkResponse 500 (JsonError "Failed to get price"))
           else
             alerts <- query select_untriggered ;;
             match alerts with
             | [] => ret (mkResponse 200 (JsonNoAlerts currentPrice))
             | _ =>
                 triggered <- sweep currentPrice alerts 0 ;;
                 ret (mkResponse 200
                        (JsonSummary currentPrice (List.length alerts) triggered))
             end
       end)
      (ret (mkResponse 500 (JsonError "Internal error"))).

End Handler.
End CheckAlerts.

(* ================================================================== *)
(** ** Specification-level definitions and sample data *)
(* ================================================================== *)

Module Sample.

Definition is_digit (c : ascii) : bool := (48 <=? Js.code c)%nat && (Js.code c <=? 57)%nat.

Fixpoint digits (s : string) (acc : Z) : option Z :=
  match s with
  | EmptyString => Some acc
  | String c r =>
      if is_digit c then digits r (10 * acc + Z.of_nat (Js.code c - 48)) else None
  end.

(** A decimal reader standing in for [parseInt] on digit strings. *)
Definition read_int (s : string) : option Z :=
  match s with
  | EmptyString => None
  | _ => digits s 0
  end.

(** A runtime for the examples: numbers are read from digit strings, and
    a signature recovers to its own text. *)
Definition rt : Runtime :=
  mkRuntime (fun s => option_map inject_Z (read_int s)) read_int
            (fun _ _ => "#") (fun _ => "#") (fun _ sig => Some sig).

Definition cfg : Config := mkConfig true "bot-token" "0xToken" "" (Some "secret").

(** Collaborators that answer: the transport delivers, the feed quotes 1. *)
Definition co : Collab :=
  mkCollab (fun _ => true) (Some (mkPrice 1 0 0 0)) (fun _ _ => None) (fun _ _ => None) None.

Definition user (id : Z) (refcode : string) : TelegramUser :=
  mkUser id None None None None None 0 (Some refcode) None true.

Definition alert (id : nat) (owner : Z) (kind : string) (target : Q) : PriceAlert :=
  mkAlert id owner kind target false None.

(** One participant with one untriggered [above 1] alert. *)
Definition one_alert : Store :=
  mkStore [user 42 "AAAA0001"] [alert 1 42 "above" 1] [] [] [].

Definition alert_of (owner : Z) (id : nat) : PriceAlert := alert id owner "below" 1.

(** Participant 42 holds five active alerts; participant 7 holds one. *)
Definition five_alerts : Store :=
  mkStore [user 42 "AAAA0001"; user 7 "AAAA0007"]
          (alert_of 7 10 :: map (alert_of 42) [1; 2; 3; 4; 5]%nat) [] [] [].

(** Forty-two characters: the prefix, thirty-nine zeros and a last digit. *)
Definition addr (d : string) : string :=
  "0x000000000000000000000000000000000000000" ++ d.

(** Participant 42 watches ten wallets. *)
Definition ten_watched : Store :=
  mkStore [user 42 "AAAA0001"] [] 
          (map (fun d => mkWatch 42 (addr d) None)
               ["0"; "1"; "2"; "3"; "4"; "5"; "6"; "7"; "8"; "9"])
          [] [].

(** Two participants, neither referred yet. *)
Definition two_users : Store :=
  mkStore [user 42 "AAAA0001"; user 7 "AAAA0007"] [] [] [] [].

(** Participant 42 asks to delete an alert, giving no number. *)
Definition delete_what : Webhook.Message :=
  Webhook.mkMessage 42 None 42 (Some "/deletealert soon").

(** Bytes whose first eight digits upper-case to participant 42's
    referral code. *)
Definition rnd_clash (_ : nat) : string := "aaaa0001aaaa0001".

(** Participant 42 asks for a new alert. *)
Definition ask_alert : Webhook.Message :=
  Webhook.mkMessage 42 None 42 (Some "/alert below 3").

(** A participant whose wallet is linked. *)
Definition linked : TelegramUser :=
  mkUser 7 (Some "0xabcdef") None None None (Some 500%Z) 0 (Some "AAAA0007") None true.
Definition linked_store : Store := mkStore [user 42 "AAAA0001"; linked] [] [] [] [].

(** The random bytes of the examples, in hexadecimal. *)
Definition rnd (_ : nat) : string :=
  "abcdef0123456789abcdef0123456789abcdef0123456789abcdef0123456789".

(** A chat message from participant 9, not yet in the store. *)
Definition noise : Webhook.Message := Webhook.mkMessage 9 (Some "bob") 9 (Some "hello").

(** A participant who was issued the link code [c0de], good until
    instant 1000. *)
Definition holder : TelegramUser :=
  mkUser 7 None None (Some "c0de") (Some 1000%Z) None 0 (Some "AAAA0007") None true.
Definition pending : Store := mkStore [holder; user 42 "AAAA0001"] [] [] [] [].

(** Participant 42 with notifications off and two satisfied alerts,
    participant 7 with one. *)
Definition muted : TelegramUser :=
  mkUser 42 None None None None None 0 (Some "AAAA0001") None false.
Definition three_alerts : Store :=
  mkStore [muted; user 7 "AAAA0007"]
          [alert 1 42 "above" 1; alert 2 7 "below" 1; alert 3 42 "above" (inject_Z 2)]
          [] [] [].

(** A transport that cannot reach participant 7. *)
Definition co_down7 : Collab :=
  mkCollab (fun o => negb (chat_id o =? 7)%Z) (Some (mkPrice 1 0 0 0))
           (fun _ _ => None) (fun _ _ => None) None.

Definition cron_get : CheckAlerts.Request := CheckAlerts.mkRequest "GET" None.

(** A transport that is down. *)
Definition co_down : Collab :=
  mkCollab (fun _ => false) (Some (mkPrice 1 0 0 0)) (fun _ _ => None) (fun _ _ => None) None.

(** A runtime whose [verifyMessage] throws. *)
Definition rt_throwing : Runtime :=
  mkRuntime (fun s => option_map inject_Z (read_int s)) read_int
            (fun _ _ => "#") (fun _ => "#") (fun _ _ => None).

(** Other random bytes, for a second issue. *)
Definition rnd2 (_ : nat) : string :=
  "0123456789abcdef0123456789abcdef0123456789abcdef0123456789abcdef".


End Sample.

Module Spec.

(** The notification of the sweep for a row. *)
Definition notice (rt : Runtime) (p : Q) (r : CheckAlerts.AlertRow) : Outbound :=
  mkOut (alert_owner (CheckAlerts.alert r)) (CheckAlerts.alert_text rt p (CheckAlerts.alert r)).

(** A row of the snapshot whose owner is notified by the sweep. *)
Definition notified (p : Q) (r : CheckAlerts.AlertRow) : bool :=
  CheckAlerts.shouldTrigger p (CheckAlerts.alert r) && CheckAlerts.wants_notification r.

(** A stored alert some satisfied row of the snapshot names by its id. *)
Definition fires (p : Q) (rows : list CheckAlerts.AlertRow) (a : PriceAlert) : bool :=
  existsb (fun r => CheckAlerts.shouldTrigger p (CheckAlerts.alert r)
                    && Db.by_alert_id (alert_id (CheckAlerts.alert r)) a) rows.

(** The stored table after the loop has run over [rows]: every row that
    a satisfied alert of the snapshot names is marked, whatever its flag. *)
Definition swept (now : Z) (p : Q) (rows : list CheckAlerts.AlertRow) (l : list PriceAlert)
  : list PriceAlert :=
  map (fun a => if fires p rows a then CheckAlerts.mark_triggered now a else a) l.



(** A well-formed link-verification request. *)
Definition link_request (c w sig : string) : VerifyLink.Request :=
  VerifyLink.mkRequest "POST" (Some (VerifyLink.mkFields (Some c) (Some w) (Some sig))).

(** What the sweep may do to a stored alert: leave it, or mark it. *)
Definition kept_or_marked (now : Z) (a a' : PriceAlert) : Prop :=
  a' = a \/ a' = CheckAlerts.mark_triggered now a.

(** A request the cron handler lets through: any GET, or the bearer. *)
Definition cron_admitted (cfg : Config) (req : CheckAlerts.Request) : Prop :=
  CheckAlerts.method req = "GET"
  \/ CheckAlerts.authorization req = Some (CheckAlerts.bearer cfg).

(** What link verification may do to a row of [telegram_users]: the
    identity columns stay. *)
Definition same_identity (x x' : TelegramUser) : Prop :=
  telegram_id x' = telegram_id x
  /\ username x' = username x
  /\ created_at x' = created_at x
  /\ referral_code x' = referral_code x
  /\ referred_by x' = referred_by x
  /\ notifications_enabled x' = notifications_enabled x.



(** The quota boundary as the specification words it: below the quota, a
    well-formed [/alert] request inserts a row. *)
Definition accepted_alert_inserts (cfg : Config) (rt : Runtime) : Prop :=
  forall chatId id args kind target s out,
    supabase cfg = true ->
    (2 <= List.length (Js.split_sp args))%nat ->
    Js.toLowerCase (nth 0 (Js.split_sp args) "") = kind ->
    kind = "above" \/ kind = "below" ->
    parseFloat rt (nth 1 (Js.split_sp args) "") = Some target ->
    (Webhook.count_active id s < 5)%nat ->
    List.length (alerts (db (world_of (Webhook.handleAlert cfg rt chatId id args
                                                           (mkWorld s out)))))
    = S (List.length (alerts s)).

(** *** The router's parse *)

(** The text up to its first space, the text after it, and whether there
    is one. *)
Fixpoint before_sp (s : string) : string :=
  match s with
  | EmptyString => EmptyString
  | String c r => if Js.is_sp c then EmptyString else String c (before_sp r)
  end.

Fixpoint after_sp (s : string) : string :=
  match s with
  | EmptyString => EmptyString
  | String c r => if Js.is_sp c then r else after_sp r
  end.

Fixpoint has_sp (s : string) : bool :=
  match s with
  | EmptyString => false
  | String c r => Js.is_sp c || has_sp r
  end.

(** The parse as the specification words it: the head token runs to the
    first white-space character, and the remainder is trimmed. *)
Fixpoint head_token (s : string) : string :=
  match s with
  | EmptyString => EmptyString
  | String c r => if Js.is_space c then EmptyString else String c (head_token r)
  end.

Fixpoint after_head (s : string) : string :=
  match s with
  | EmptyString => EmptyString
  | String c r => if Js.is_space c then s else after_head r
  end.

Definition parse_as_specified (text : string) : string * string :=
  (Js.toLowerCase (head_token text), Js.trim (after_head text)).

(** *** Referrals *)

(** The argument of [/start] is the participant's own referral code, as
    stored on their row; codes are stored upper-cased. *)
Definition own_code (user : TelegramUser) (args : string) (s : Store) : Prop :=
  (exists row, In row (users s) /\ telegram_id row = telegram_id user
               /\ referral_code row = Some args)
  /\ Js.toUpperCase args = args.

(** The participant already has a referrer. *)
Definition already_referred (user : TelegramUser) : Prop :=
  exists r, referred_by user = Some r /\ r <> 0%Z.

(** *** Whose rows a command touches *)

(** What a command of participant [id] may do to a row of
    [telegram_users]: the key stays, and a row of another participant
    stays as it is. *)
Definition own_row (id : Z) (x x' : TelegramUser) : Prop :=
  telegram_id x' = telegram_id x /\ (telegram_id x <> id -> x' = x).

(** A computation that rewrites [telegram_users] in place, and only the
    rows of participant [id]. *)
Definition touches_own (id : Z) {A : Type} (m : M A) : Prop :=
  forall w, Forall2 (own_row id) (users (db w)) (users (db (world_of (m w)))).

(** The command names of the switch. *)
Definition known_commands : list string :=
  ["/start"; "/help"; "/link"; "/unlink"; "/notify"; "/portfolio"; "/balance";
   "/staking"; "/price"; "/gas"; "/convert"; "/alert"; "/alerts"; "/deletealert";
   "/watch"; "/watchlist"; "/unwatch"; "/refer"; "/referrals"; "/contract"; "/faq";
   "/support"].

(** The edge [/start] records. *)
Definition edge (now : Z) (referrer referred : Z) (args : string) : Referral :=
  mkReferral referrer referred (Js.toUpperCase args) "completed" (Some now).

(** An alert found after a command: one that was there, as it was, or
    a new untriggered one. *)
Definition kept_or_new (before : list PriceAlert) (x : PriceAlert) : Prop :=
  In x before \/ (triggered x = false /\ triggered_at x = None).

(** A computation that never rewrites an alert. *)
Definition alerts_frame {A : Type} (m : M A) : Prop :=
  forall w x, In x (alerts (db (world_of (m w)))) -> kept_or_new (alerts (db w)) x.

(** *** The webhook on noise *)

(** Whether a text begins with the command prefix. *)
Definition first_is_slash (s : string) : bool :=
  match s with
  | EmptyString => false
  | String c _ => Ascii.eqb c "/"
  end.

Definition text_update (m : Webhook.Message) : Webhook.Request :=
  Webhook.mkRequest "POST" (Some m).

(** The webhook as the specification words it: a text that does not begin
    with the command prefix leaves the store and the outbox as they were. *)
Definition noise_is_silent (cfg : Config) (rt : Runtime) (co : Collab) (now : Z)
  (rnd : nat -> string) : Prop :=
  forall m rawText w,
    Webhook.msg_text m = Some rawText ->
    Js.startsWith rawText "/" = false ->
    world_of (Webhook.handler cfg rt co now rnd (text_update m) w) = w.

(** What identity resolution may do to [telegram_users]. *)
Definition resolved_users (now : Z) (id : Z) (uname : option string)
  (before after : list TelegramUser) : Prop :=
  after = before
  \/ after = Db.update_where (Db.by_telegram_id id) (Webhook.set_username uname) before
  \/ exists referralCode,
       after = (before ++ [Webhook.new_user now id uname referralCode])%list.

End Spec.

Unset Implicit Arguments.

(* ================================================================== *)
(** ** Properties of the alert sweep *)
(* ================================================================== *)

Lemma world_eta (w : World) : mkWorld (db w) (outbox w) = w.
Proof. destruct w; reflexivity. Qed.

Lemma store_eta (s : Store) :
  mkStore (users s) (alerts s) (watchlist s) (referrals s) (tickets s) = s.
Proof. destruct s; reflexivity. Qed.

Lemma set_alerts_id (f : list PriceAlert -> list PriceAlert) (s : Store) :
  f (alerts s) = alerts s -> Db.set_alerts f s = s.
Proof. intros H. unfold Db.set_alerts. rewrite H. apply store_eta. Qed.

Lemma set_alerts_compose (f g : list PriceAlert -> list PriceAlert) (s : Store) :
  Db.set_alerts g (Db.set_alerts f s) = Db.set_alerts (fun l => g (f l)) s.
Proof. reflexivity. Qed.

Lemma set_alerts_ext (f g : list PriceAlert -> list PriceAlert) (s : Store) :
  f (alerts s) = g (alerts s) -> Db.set_alerts f s = Db.set_alerts g s.
Proof. intros H. unfold Db.set_alerts. now rewrite H. Qed.

Section Sweep.

Variable rt : Runtime.
Variable co : Collab.
Variable now : Z.

Lemma mark_keeps_id (a : PriceAlert) (i : nat) :
  Db.by_alert_id i (CheckAlerts.mark_triggered now a) = Db.by_alert_id i a.
Proof. reflexivity. Qed.

Lemma mark_idempotent (a : PriceAlert) :
  CheckAlerts.mark_triggered now (CheckAlerts.mark_triggered now a)
  = CheckAlerts.mark_triggered now a.
Proof. reflexivity. Qed.

Lemma fires_mark p rows (a : PriceAlert) :
  Spec.fires p rows (CheckAlerts.mark_triggered now a) = Spec.fires p rows a.
Proof. reflexivity. Qed.

Lemma swept_nil p l : Spec.swept now p [] l = l.
Proof. unfold Spec.swept. simpl. apply map_id. Qed.

Lemma swept_cons_hit p r rows l :
  CheckAlerts.shouldTrigger p (CheckAlerts.alert r) = true ->
  Spec.swept now p rows
    (Db.update_where (Db.by_alert_id (alert_id (CheckAlerts.alert r)))
                     (CheckAlerts.mark_triggered now) l)
  = Spec.swept now p (r :: rows) l.
Proof.
  intros Hs. unfold Spec.swept, Db.update_where. rewrite map_map.
  apply map_ext. intros a. simpl. rewrite Hs. simpl.
  destruct (Db.by_alert_id (alert_id (CheckAlerts.alert r)) a); simpl.
  - rewrite fires_mark. now destruct (Spec.fires p rows a).
  - reflexivity.
Qed.

Lemma swept_cons_miss p r rows l :
  CheckAlerts.shouldTrigger p (CheckAlerts.alert r) = false ->
  Spec.swept now p rows l = Spec.swept now p (r :: rows) l.
Proof.
  intros Hs. unfold Spec.swept. apply map_ext. intros a. simpl. now rewrite Hs.
Qed.

Lemma sweep_run p rows :
  forall n w,
    (forall r, In r rows -> Spec.notified p r = true ->
               transport co (Spec.notice rt p r) = true) ->
    CheckAlerts.sweep rt co now p rows n w
    = Ok (n + List.length (filter (Spec.notified p) rows))%nat
         (mkWorld (Db.set_alerts (Spec.swept now p rows) (db w))
                  (outbox w ++ map (Spec.notice rt p) (filter (Spec.notified p) rows))).
Proof.
  induction rows as [|r rows IH]; intros n w Ht.
  - simpl. unfold ret. rewrite Nat.add_0_r, app_nil_r.
    rewrite set_alerts_id by apply swept_nil. now rewrite world_eta.
  - simpl. unfold bind at 1. unfold CheckAlerts.check_alert, Spec.notified.
    destruct (CheckAlerts.shouldTrigger p (CheckAlerts.alert r)) eqn:Hs; simpl.
    + destruct (CheckAlerts.wants_notification r) eqn:Hw; simpl.
      * unfold CheckAlerts.sendTelegramMessage, bind, exec, post. simpl.
        assert (Hd : transport co (Spec.notice rt p r) = true).
        { apply Ht; [now left|]. unfold Spec.notified. now rewrite Hs, Hw. }
        unfold Spec.notice in Hd. rewrite Hd. unfold ret.
        rewrite IH by (intros; apply Ht; [now right | assumption]). simpl.
        rewrite set_alerts_compose.
        rewrite (set_alerts_ext _ (Spec.swept now p (r :: rows)))
          by (apply swept_cons_hit; assumption).
        rewrite <- app_assoc. simpl. rewrite Nat.add_succ_r. reflexivity.
      * unfold bind, exec, ret. simpl.
        rewrite IH by (intros; apply Ht; [now right | assumption]). simpl.
        rewrite set_alerts_compose.
        rewrite (set_alerts_ext _ (Spec.swept now p (r :: rows)))
          by (apply swept_cons_hit; assumption).
        reflexivity.
    + unfold ret.
      rewrite IH by (intros; apply Ht; [now right | assumption]).
      rewrite (set_alerts_ext _ (Spec.swept now p (r :: rows)))
        by (apply swept_cons_miss; assumption).
      reflexivity.
Qed.



End Sweep.



(** What that run leaves: alerts 1 and 2 marked, alert 3 as it was, one
    notification attempted, and no count returned. *)
Example sweep_stops_at_rejection :
  map triggered (alerts (db (world_of (CheckAlerts.sweep Sample.rt Sample.co_down7 100 1
                        (CheckAlerts.select_untriggered Sample.three_alerts) 0
                        (mkWorld Sample.three_alerts []))))) = [true; true; false]
  /\ map chat_id (outbox (world_of (CheckAlerts.sweep Sample.rt Sample.co_down7 100 1
                        (CheckAlerts.select_untriggered Sample.three_alerts) 0
                        (mkWorld Sample.three_alerts [])))) = [7%Z]
  /\ value_of (CheckAlerts.sweep Sample.rt Sample.co_down7 100 1
                        (CheckAlerts.select_untriggered Sample.three_alerts) 0
                        (mkWorld Sample.three_alerts [])) = None.
Proof. repeat split. Qed.


(** C6. The trigger predicate is inclusive at the boundary: an [above]
    alert is satisfied exactly when the target is at most the price, a
    [below] alert exactly when the price is at most the target; with
    target 1 and price 1 both directions are satisfied. *)
Theorem shouldTrigger_inclusive
  (p t : Q) (i : nat) (o : Z) (tr : bool) (ts : option Z) :
  (CheckAlerts.shouldTrigger p (mkAlert i o "above" t tr ts) = true <-> (t <= p)%Q)
  /\ (CheckAlerts.shouldTrigger p (mkAlert i o "below" t tr ts) = true <-> (p <= t)%Q)
  /\ CheckAlerts.shouldTrigger 1 (mkAlert i o "above" 1 tr ts) = true
  /\ CheckAlerts.shouldTrigger 1 (mkAlert i o "below" 1 tr ts) = true.
Proof.
  unfold CheckAlerts.shouldTrigger, Qge_bool. simpl.
  repeat split; try reflexivity; intros H.
  - apply Qle_bool_iff. now rewrite orb_false_r in H.
  - rewrite orb_false_r. now apply Qle_bool_iff.
  - now apply Qle_bool_iff.
  - now apply Qle_bool_iff.
Qed.

(* ================================================================== *)
(** ** Properties of link verification *)
(* ================================================================== *)

Lemma filter_none {A} (p : A -> bool) (l : list A) :
  (forall x, In x l -> p x = false) -> filter p l = [].
Proof.
  induction l as [|x l IH]; intros H; simpl; [reflexivity|].
  rewrite (H x) by now left. apply IH. intros y Hy. apply H. now right.
Qed.

Lemma filter_single_in {A} (p : A -> bool) (l : list A) (u : A) :
  filter p l = [u] -> In u l /\ p u = true.
Proof.
  intros H. apply filter_In. rewrite H. now left.
Qed.

Lemma filter_single_unique {A} (p : A -> bool) (l : list A) (u x : A) :
  filter p l = [u] -> In x l -> p x = true -> x = u.
Proof.
  intros H Hx Hp.
  assert (Hin : In x (filter p l)) by (apply filter_In; now split).
  rewrite H in Hin. destruct Hin as [Hin|[]]. now symmetry.
Qed.

Section Verification.

Variable cfg : Config.
Variable rt : Runtime.
Variable co : Collab.

Lemma bound_row_holds_no_code now w c (u : TelegramUser) :
  Db.by_link_code c (VerifyLink.bind_wallet now w u) = false.
Proof. reflexivity. Qed.

(** Once the holder's rows are rewritten, no row holds the code. *)
Lemma code_cleared now w c (u : TelegramUser) (l : list TelegramUser) :
  filter (Db.by_link_code c) l = [u] ->
  filter (Db.by_link_code c)
         (Db.update_where (Db.by_telegram_id (telegram_id u)) (VerifyLink.bind_wallet now w) l)
  = [].
Proof.
  intros Hf. apply filter_none. intros x Hx.
  unfold Db.update_where in Hx. apply in_map_iff in Hx.
  destruct Hx as [y [Hy Hin]].
  destruct (Db.by_telegram_id (telegram_id u) y) eqn:Hid.
  - subst x. reflexivity.
  - subst x. destruct (Db.by_link_code c y) eqn:Hc; [|reflexivity].
    assert (Hy : y = u) by (eapply filter_single_unique; eassumption).
    rewrite Hy in Hid. unfold Db.by_telegram_id in Hid. now rewrite Z.eqb_refl in Hid.
Qed.

(** The handler on a well-formed request is the guarded [try] block. *)
Lemma handler_well_formed now c w sig (wd : World) :
  supabase cfg = true ->
  Js.truthy c = true -> Js.truthy w = true -> Js.truthy sig = true ->
  VerifyLink.handler cfg rt co now (Spec.link_request c w sig) wd
  = try_catch (VerifyLink.verify cfg rt co now c w sig)
              (ret (VerifyLink.mkResponse 500 (VerifyLink.JsonError "Verification failed")))
              wd.
Proof.
  intros Hs Hc Hw Hg. unfold VerifyLink.handler, Spec.link_request. simpl.
  now rewrite Hs, Hc, Hw, Hg.
Qed.

(** The [try] block once the holder is found, the code is in time and
    the signature recovers to an address. *)
Lemma verify_found now c w sig recovered (u : TelegramUser) (s : Store) out :
  filter (Db.by_link_code c) (users s) = [u] ->
  VerifyLink.expired now u = false ->
  verifyMessage rt (VerifyLink.expectedMessage c) sig = Some recovered ->
  VerifyLink.verify cfg rt co now c w sig (mkWorld s out)
  = if negb (Js.toLowerCase recovered =? Js.toLowerCase w)
    then Ok (VerifyLink.mkResponse 400 (VerifyLink.JsonError "Invalid signature"))
            (mkWorld s out)
    else
      let s' := Db.set_users (Db.update_where (Db.by_telegram_id (telegram_id u))
                                              (VerifyLink.bind_wallet now w)) s in
      let o := mkOut (telegram_id u) (VerifyLink.linked_text w) in
      if Js.truthy (BOT_TOKEN cfg) then
        if transport co o
        then Ok (VerifyLink.mkResponse 200 VerifyLink.JsonSuccess)
                (mkWorld s' (out ++ [o]))
        else Throw (mkWorld s' (out ++ [o]))
      else Ok (VerifyLink.mkResponse 200 VerifyLink.JsonSuccess) (mkWorld s' out).
Proof.
  intros Hf He Hv. unfold VerifyLink.verify, bind, query. simpl.
  rewrite Hf. simpl. rewrite He, Hv.
  destruct (Js.toLowerCase recovered =? Js.toLowerCase w); simpl; [|reflexivity].
  unfold exec, ret. simpl.
  destruct (Js.truthy (BOT_TOKEN cfg)); [|reflexivity].
  unfold VerifyLink.sendTelegramMessage, bind, post. simpl.
  now destruct (transport co _).
Qed.

End Verification.




(** C3. A link code whose stored expiry lies before the instant of the
    call is refused with 400 "Link code expired" whatever the signature,
    a correct one included; the store and the outbox come back as they
    were, so the holder's wallet stays as it was (unset when it was unset)
    and the code and its expiry stay on the row. *)
Theorem verify_expired_rejected
  (cfg : Config) (rt : Runtime) (co : Collab) (now e : Z)
  (c w sig : string) (u : TelegramUser) (s : Store) (out : list Outbound) :
  supabase cfg = true ->
  Js.truthy c = true -> Js.truthy w = true -> Js.truthy sig = true ->
  filter (Db.by_link_code c) (users s) = [u] ->
  link_code_expires u = Some e ->
  (e < now)%Z ->
  VerifyLink.handler cfg rt co now (Spec.link_request c w sig) (mkWorld s out)
  = Ok (VerifyLink.mkResponse 400 (VerifyLink.JsonError "Link code expired"))
       (mkWorld s out)
  /\ In u (users s) /\ link_code u = Some c /\ link_code_expires u = Some e.
Proof.
  intros Hs Hc Hw Hg Hf He Hlt.
  destruct (filter_single_in _ _ _ Hf) as [Hin Hcode].
  repeat split; try assumption.
  - rewrite handler_well_formed by assumption.
    unfold try_catch, VerifyLink.verify, bind, query. simpl. rewrite Hf. simpl.
    unfold VerifyLink.expired. rewrite He.
    apply Z.ltb_lt in Hlt. rewrite Hlt. reflexivity.
  - unfold Db.by_link_code, opt_is in Hcode.
    destruct (link_code u) as [x|]; [|discriminate].
    apply String.eqb_eq in Hcode. now subst.
Qed.

Lemma verify_expired_rejected_witness :
  VerifyLink.handler Sample.cfg Sample.rt Sample.co 1001
                     (Spec.link_request "c0de" "0xABCDEF" "0xabcdef")
                     (mkWorld Sample.pending [])
  = Ok (VerifyLink.mkResponse 400 (VerifyLink.JsonError "Link code expired"))
       (mkWorld Sample.pending [])
  /\ In Sample.holder (users Sample.pending)
  /\ link_code Sample.holder = Some "c0de"
  /\ link_code_expires Sample.holder = Some 1000%Z.
Proof.
  apply (verify_expired_rejected Sample.cfg Sample.rt Sample.co 1001 1000
           "c0de" "0xABCDEF" "0xabcdef" Sample.holder Sample.pending []);
    reflexivity.
Defined.



(* ================================================================== *)
(** ** Properties of the router *)
(* ================================================================== *)

Lemma is_sp_space (c : ascii) : Js.is_sp c = true -> c = " "%char.
Proof.
  unfold Js.is_sp, Js.code. intros H. apply Nat.eqb_eq in H.
  rewrite <- (ascii_nat_embedding c), H. reflexivity.
Qed.

Lemma split_sp_cons (s : string) : exists h t, Js.split_sp s = h :: t.
Proof.
  destruct s as [|c r]; simpl; [now eexists; eexists|].
  destruct (Js.is_sp c); [now eexists; eexists|].
  destruct (Js.split_sp r); now eexists; eexists.
Qed.

(** Joining what [split] cut gives the text back. *)
Lemma join_split (s : string) : Js.join_sp (Js.split_sp s) = s.
Proof.
  induction s as [|c r IH]; [reflexivity|].
  simpl. destruct (split_sp_cons r) as [h [t Hr]]. rewrite Hr in *.
  destruct (Js.is_sp c) eqn:Hc.
  - apply is_sp_space in Hc. subst c.
    change (Js.join_sp ("" :: h :: t)) with ("" ++ " " ++ Js.join_sp (h :: t)).
    rewrite IH. reflexivity.
  - destruct t as [|x t].
    + simpl in *. now rewrite IH.
    + change (Js.join_sp (String c h :: x :: t))
        with (String c (h ++ " " ++ Js.join_sp (x :: t))).
      change (Js.join_sp (h :: x :: t)) with (h ++ " " ++ Js.join_sp (x :: t)) in IH.
      now rewrite IH.
Qed.

(** The head of the split and what follows it. *)
Lemma split_sp_head (s : string) :
  Js.split_sp s
  = Spec.before_sp s :: (if Spec.has_sp s then Js.split_sp (Spec.after_sp s) else []).
Proof.
  induction s as [|c r IH]; [reflexivity|].
  simpl. destruct (Js.is_sp c); [reflexivity|].
  rewrite IH. simpl. reflexivity.
Qed.

Lemma after_sp_none (s : string) : Spec.has_sp s = false -> Spec.after_sp s = "".
Proof.
  induction s as [|c r IH]; [reflexivity|].
  simpl. destruct (Js.is_sp c); [discriminate|]. exact IH.
Qed.

Lemma before_sp_clean (s : string) : Spec.has_sp (Spec.before_sp s) = false.
Proof.
  induction s as [|c r IH]; [reflexivity|].
  simpl. destruct (Js.is_sp c) eqn:Hc; [reflexivity|]. simpl. now rewrite Hc.
Qed.

Lemma before_after_sp (s : string) :
  s = Spec.before_sp s ++ (if Spec.has_sp s then " " ++ Spec.after_sp s else "").
Proof.
  induction s as [|c r IH]; [reflexivity|].
  simpl. destruct (Js.is_sp c) eqn:Hc.
  - apply is_sp_space in Hc. now subst c.
  - simpl. f_equal. exact IH.
Qed.

(** C5 (amended). The router cuts the text at its first single space
    character: the part before it, lower-cased, is the command name, and
    everything after that one space is the argument string, passed on as
    it stands; a text without a space is all command, with the empty
    argument string. *)
Theorem parse_command_first_space (text : string) :
  Webhook.parse_command text = (Js.toLowerCase (Spec.before_sp text), Spec.after_sp text)
  /\ Spec.has_sp (Spec.before_sp text) = false
  /\ text = Spec.before_sp text
            ++ (if Spec.has_sp text then " " ++ Spec.after_sp text else "")
  /\ (Spec.has_sp text || (Spec.after_sp text =? "")) = true.
Proof.
  repeat split.
  - unfold Webhook.parse_command. rewrite split_sp_head. simpl.
    destruct (Spec.has_sp text) eqn:Hs.
    + now rewrite join_split.
    + now rewrite after_sp_none.
  - apply before_sp_clean.
  - apply before_after_sp.
  - destruct (Spec.has_sp text) eqn:Hs; [reflexivity|].
    now rewrite after_sp_none.
Qed.

(** C5 as stated fails. After two spaces the argument string keeps its
    leading space, where the specification trims it; and a tab does not
    end the command token. *)
Lemma parse_command_counterexample :
  Webhook.parse_command "/start  ABC" = ("/start", " ABC")
  /\ Spec.parse_as_specified "/start  ABC" = ("/start", "ABC")
  /\ Webhook.parse_command "/start  ABC" <> Spec.parse_as_specified "/start  ABC"
  /\ Webhook.parse_command ("/Alert" ++ String (ascii_of_nat 9) "above 1")
     = ("/alert" ++ String (ascii_of_nat 9) "above", "1")
  /\ Spec.parse_as_specified ("/Alert" ++ String (ascii_of_nat 9) "above 1")
     = ("/alert", "above 1").
Proof.
  repeat split; try reflexivity. vm_compute. discriminate.
Qed.

(** *** Noise *)

Lemma startsWith_slash (s : string) : Js.startsWith s "/" = Spec.first_is_slash s.
Proof.
  destruct s as [|c r]; [reflexivity|].
  unfold Js.startsWith, Spec.first_is_slash.
  change (String.prefix "/" (String c r))
    with (if ascii_dec "/" c then String.prefix "" r else false).
  destruct (ascii_dec "/" c) as [E|N].
  - subst c. now destruct r.
  - symmetry. apply Ascii.eqb_neq. congruence.
Qed.

Lemma lower_char_slash (c : ascii) : Ascii.eqb (Js.lower_char c) "/" = Ascii.eqb c "/".
Proof. destruct c as [[] [] [] [] [] [] [] []]; reflexivity. Qed.

Lemma command_not_slash (text : string) :
  Spec.first_is_slash text = false ->
  Spec.first_is_slash (Js.toLowerCase (Spec.before_sp text)) = false.
Proof.
  destruct text as [|c r]; [reflexivity|].
  simpl. intros H. destruct (Js.is_sp c); [reflexivity|].
  simpl. now rewrite lower_char_slash.
Qed.

Lemma eqb_slash_false (cmd rest : string) :
  Spec.first_is_slash cmd = false -> (cmd =? String "/" rest) = false.
Proof.
  destruct cmd as [|c r]; [reflexivity|]. simpl. intros H. now rewrite H.
Qed.

Section Router.

Variable cfg : Config.
Variable rt : Runtime.
Variable co : Collab.
Variable now : Z.
Variable rnd : nat -> string.

(** A command name without the prefix matches no case of the switch. *)
Lemma dispatch_noise chatId telegramId user text cmd args :
  Spec.first_is_slash cmd = false ->
  Spec.first_is_slash text = false ->
  Webhook.dispatch cfg rt co now rnd chatId telegramId user text cmd args = ret tt.
Proof.
  intros Hc Ht. unfold Webhook.dispatch.
  rewrite !eqb_slash_false by exact Hc. simpl.
  now rewrite startsWith_slash, Ht.
Qed.

(** Identity resolution never sends, returns, and touches only
    [telegram_users]; when it yields no identity it has written nothing. *)
Lemma getOrCreateUser_effect telegramId uname (w : World) :
  exists u w',
    Webhook.getOrCreateUser cfg now rnd telegramId uname w = Ok u w'
    /\ outbox w' = outbox w
    /\ alerts (db w') = alerts (db w)
    /\ watchlist (db w') = watchlist (db w)
    /\ referrals (db w') = referrals (db w)
    /\ tickets (db w') = tickets (db w)
    /\ Spec.resolved_users now telegramId uname (users (db w)) (users (db w'))
    /\ (u = None -> w' = w).
Proof.
  unfold Webhook.getOrCreateUser, Spec.resolved_users.
  destruct (supabase cfg); simpl.
  - unfold bind, query.
    destruct (single (filter (Db.by_telegram_id telegramId) (users (db w)))) as [e|].
    + destruct (Webhook.username_changed uname e).
      * eexists; eexists. split; [reflexivity|]. simpl.
        repeat (split; [reflexivity|]). split; [now right; left | discriminate].
      * eexists; eexists. split; [reflexivity|]. simpl.
        repeat (split; [reflexivity|]). split; [now left | discriminate].
    + unfold Db.insert_user.
      match goal with |- context [if ?b then None else _] => destruct b end.
      * eexists; eexists. split; [reflexivity|].
        repeat (split; [reflexivity|]). split; [now left | reflexivity].
      * eexists; eexists. split; [reflexivity|]. simpl.
        repeat (split; [reflexivity|]).
        split; [right; right; eexists; reflexivity | discriminate].
  - eexists; eexists. split; [reflexivity|].
    repeat (split; [reflexivity|]). split; [now left | reflexivity].
Qed.

End Router.

(** C4 (amended). For a message whose trimmed text does not begin with
    [/]. A request that is not a POST, a bot without its token, or an
    empty text is answered with the store and the outbox as they were.
    Otherwise the webhook resolves the sender's identity and dispatches no
    command. Resolution sends nothing and touches only [telegram_users]
    (it may insert the unseen participant's row or refresh a changed
    username). When it yields an identity the webhook sends nothing and
    writes nothing more; when it yields none the store is as it was and
    the webhook sends "Service unavailable.". The transport is
    acknowledged with 200 either way. *)
Theorem noise_resolves_identity_only
  (cfg : Config) (rt : Runtime) (co : Collab) (now : Z) (rnd : nat -> string)
  (req : Webhook.Request) (m : Webhook.Message) (rawText : string) (w : World) :
  Webhook.update_message req = Some m ->
  Webhook.msg_text m = Some rawText ->
  Js.startsWith (Js.trim rawText) "/" = false ->
  ((Webhook.method req <> "POST" \/ Js.truthy (BOT_TOKEN cfg) = false
    \/ Js.truthy rawText = false)
   /\ exists r, Webhook.handler cfg rt co now rnd req w = Ok r w)
  \/ (Webhook.method req = "POST" /\ Js.truthy (BOT_TOKEN cfg) = true
      /\ Js.truthy rawText = true
      /\ exists u w',
           Webhook.getOrCreateUser cfg now rnd (Webhook.from_id m)
                                   (Webhook.from_username m) w
           = Ok u w'
           /\ outbox w' = outbox w
           /\ alerts (db w') = alerts (db w)
           /\ watchlist (db w') = watchlist (db w)
           /\ referrals (db w') = referrals (db w)
           /\ tickets (db w') = tickets (db w)
           /\ Spec.resolved_users now (Webhook.from_id m) (Webhook.from_username m)
                                  (users (db w)) (users (db w'))
           /\ (u = None -> w' = w)
           /\ Webhook.handler cfg rt co now rnd req w
              = Ok Webhook.ack
                   (match u with
                    | Some _ => w'
                    | None => mkWorld (db w)
                                      (outbox w
                                       ++ [mkOut (Webhook.chat m) "Service unavailable."])
                    end)).
Proof.
  intros Hq Hm Hn. unfold Webhook.handler. rewrite Hq, Hm.
  destruct (Webhook.method req =? "POST") eqn:Hp; cbn [negb].
  2:{ left. split; [|eexists; reflexivity].
      left. intros E. rewrite E in Hp. discriminate Hp. }
  apply String.eqb_eq in Hp.
  destruct (Js.truthy (BOT_TOKEN cfg)) eqn:Hb; cbn [negb].
  2:{ left. split; [|eexists; reflexivity]. right. now left. }
  destruct (Js.truthy rawText) eqn:Hr.
  2:{ left. split; [|eexists; reflexivity]. right. now right. }
  right. repeat (split; [reflexivity || assumption|]).
  destruct (getOrCreateUser_effect cfg now rnd (Webhook.from_id m) (Webhook.from_username m) w)
    as [u [w' [Hg [Ho [Ha [Hw [Hf [Ht [Hu Hnone]]]]]]]]].
  exists u, w'. repeat (split; [assumption|]).
  unfold try_catch, Webhook.on_text, bind. rewrite Hg.
  destruct u as [usr|].
  - unfold Webhook.parse_command. rewrite split_sp_head. simpl.
    rewrite startsWith_slash in Hn.
    rewrite dispatch_noise by (try apply command_not_slash; exact Hn).
    reflexivity.
  - rewrite (Hnone eq_refl). reflexivity.
Qed.

Lemma noise_resolves_identity_only_witness :
  ((Webhook.method (Spec.text_update Sample.noise) <> "POST"
    \/ Js.truthy (BOT_TOKEN Sample.cfg) = false \/ Js.truthy "hello" = false)
   /\ exists r, Webhook.handler Sample.cfg Sample.rt Sample.co 5 Sample.rnd
                                (Spec.text_update Sample.noise)
                                (mkWorld Sample.one_alert [])
                = Ok r (mkWorld Sample.one_alert []))
  \/ (Webhook.method (Spec.text_update Sample.noise) = "POST"
      /\ Js.truthy (BOT_TOKEN Sample.cfg) = true
      /\ Js.truthy "hello" = true
      /\ exists u w',
           Webhook.getOrCreateUser Sample.cfg 5 Sample.rnd (Webhook.from_id Sample.noise)
                                   (Webhook.from_username Sample.noise)
                                   (mkWorld Sample.one_alert [])
           = Ok u w'
           /\ outbox w' = []
           /\ alerts (db w') = alerts Sample.one_alert
           /\ watchlist (db w') = watchlist Sample.one_alert
           /\ referrals (db w') = referrals Sample.one_alert
           /\ tickets (db w') = tickets Sample.one_alert
           /\ Spec.resolved_users 5 (Webhook.from_id Sample.noise)
                                  (Webhook.from_username Sample.noise)
                                  (users Sample.one_alert) (users (db w'))
           /\ (u = None -> w' = mkWorld Sample.one_alert [])
           /\ Webhook.handler Sample.cfg Sample.rt Sample.co 5 Sample.rnd
                              (Spec.text_update Sample.noise) (mkWorld Sample.one_alert [])
              = Ok Webhook.ack
                   (match u with
                    | Some _ => w'
                    | None => mkWorld Sample.one_alert
                                ([] ++ [mkOut (Webhook.chat Sample.noise)
                                              "Service unavailable."])
                    end)).
Proof.
  apply (noise_resolves_identity_only Sample.cfg Sample.rt Sample.co 5 Sample.rnd
           (Spec.text_update Sample.noise) Sample.noise "hello"
           (mkWorld Sample.one_alert []));
    reflexivity.
Defined.

(** C4 as stated fails. The text "hello" from a participant the store has
    not seen makes the webhook insert that participant's identity row; and
    with the store client not configured the same text is answered with
    "Service unavailable.". *)
Lemma noise_counterexample :
  users (db (world_of (Webhook.handler Sample.cfg Sample.rt Sample.co 5 Sample.rnd
                         (Spec.text_update Sample.noise) (mkWorld Sample.one_alert []))))
  = [Sample.user 42 "AAAA0001";
     mkUser 9 None (Some "bob") None None None 5 (Some "ABCDEF01") None true]
  /\ outbox (world_of (Webhook.handler (mkConfig false "bot-token" "" "" None)
                         Sample.rt Sample.co 5 Sample.rnd
                         (Spec.text_update Sample.noise) (mkWorld Sample.one_alert [])))
     = [mkOut 9 "Service unavailable."]
  /\ ~ Spec.noise_is_silent Sample.cfg Sample.rt Sample.co 5 Sample.rnd.
Proof.
  repeat split; try reflexivity.
  intros H.
  specialize (H Sample.noise "hello" (mkWorld Sample.one_alert []) eq_refl eq_refl).
  vm_compute in H. discriminate H.
Qed.

(* ================================================================== *)
(** ** Properties of the quota checks *)
(* ================================================================== *)

Lemma filter_filter_le {A} (p q : A -> bool) (l : list A) :
  (List.length (filter p (filter q l)) <= List.length (filter p l))%nat.
Proof.
  induction l as [|x l IH]; simpl; [lia|].
  destruct (q x), (p x) eqn:Hp; simpl; rewrite ?Hp; simpl; lia.
Qed.

(** Deleting a counted row lowers the count. *)
Lemma filter_filter_lt {A} (p q : A -> bool) (l : list A) (a : A) :
  In a l -> p a = true -> q a = false ->
  (List.length (filter p (filter q l)) < List.length (filter p l))%nat.
Proof.
  induction l as [|x l IH]; intros Hin Hp Hq; [destruct Hin|].
  destruct Hin as [E|Hin].
  - subst x. simpl. rewrite Hq, Hp. simpl.
    pose proof (filter_filter_le p q l). lia.
  - specialize (IH Hin Hp Hq). simpl.
    destruct (q x), (p x) eqn:Hpx; simpl; rewrite ?Hpx; simpl; lia.
Qed.

Lemma filter_map_length {A} (p : A -> bool) (f : A -> A) (l : list A) :
  (forall x, p (f x) = p x) ->
  List.length (filter p (map f l)) = List.length (filter p l).
Proof.
  intros H. induction l as [|x l IH]; simpl; [reflexivity|].
  rewrite H. destruct (p x); simpl; now rewrite IH.
Qed.

Section Quota.

Variable cfg : Config.
Variable rt : Runtime.
Hypothesis configured : supabase cfg = true.

(** A well-formed [/alert] request reaches the quota test. *)
Lemma handleAlert_counted chatId id args kind target (s : Store) out :
  (2 <= List.length (Js.split_sp args))%nat ->
  Js.toLowerCase (nth 0 (Js.split_sp args) "") = kind ->
  kind = "above" \/ kind = "below" ->
  parseFloat rt (nth 1 (Js.split_sp args) "") = Some target ->
  Webhook.handleAlert cfg rt chatId id args (mkWorld s out)
  = if (5 <=? Webhook.count_active id s)%nat
    then Ok tt (mkWorld s (out ++ [mkOut chatId "Max 5 alerts. Delete some first."]))
    else Ok tt (mkWorld
                  (Db.insert_alert id kind target s)
                  (out ++ [mkOut chatId ("Alert set: " ++ kind ++ " $"
                                         ++ numToString rt target)])).
Proof.
  intros Hl Hk Hv Hp. unfold Webhook.handleAlert. rewrite configured.
  cbv beta iota zeta. cbn [negb].
  apply Nat.ltb_ge in Hl. rewrite Hl, Hp, Hk.
  assert (Hin : negb ((kind =? "above") || (kind =? "below")) = false)
    by (destruct Hv as [E|E]; rewrite E; reflexivity).
  rewrite Hin. unfold bind at 1, query. cbv beta iota. cbn [db].
  destruct (5 <=? Webhook.count_active id s)%nat; reflexivity.
Qed.

(** [/deletealert k] with [k] in range removes the k-th active alert. *)
Lemma handleDeleteAlert_in_range chatId id dargs k (s : Store) out :
  parseInt rt dargs = Some k ->
  (1 <= k <= Z.of_nat (Webhook.count_active id s))%Z ->
  exists a,
    nth_error (filter (Db.active_of id) (alerts s)) (Z.to_nat (k - 1)) = Some a
    /\ Webhook.handleDeleteAlert cfg rt chatId id dargs (mkWorld s out)
       = Ok tt (mkWorld (Db.set_alerts (Db.delete_where (Db.by_alert_id (alert_id a))) s)
                        (out ++ [mkOut chatId "Alert deleted."])).
Proof.
  intros Hp Hk. unfold Webhook.count_active in Hk.
  destruct (nth_error (filter (Db.active_of id) (alerts s)) (Z.to_nat (k - 1)))
    as [a|] eqn:Hn.
  - exists a. split; [reflexivity|].
    unfold Webhook.handleDeleteAlert. rewrite configured. simpl.
    unfold bind, query. simpl. rewrite Hp.
    assert (H1 : (k - 1 <? 0)%Z = false) by (apply Z.ltb_ge; lia).
    assert (H2 : (Z.of_nat (List.length (filter (Db.active_of id) (alerts s)))
                  <=? k - 1)%Z = false) by (apply Z.leb_gt; lia).
    rewrite H1, H2, Hn. reflexivity.
  - apply nth_error_None in Hn. lia.
Qed.

Lemma count_after_delete id a (s : Store) :
  In a (filter (Db.active_of id) (alerts s)) ->
  (Webhook.count_active id (Db.set_alerts (Db.delete_where (Db.by_alert_id (alert_id a))) s)
   < Webhook.count_active id s)%nat.
Proof.
  intros Hin. apply filter_In in Hin. destruct Hin as [Hin Hact].
  unfold Webhook.count_active, Db.delete_where. simpl.
  apply filter_filter_lt with (a := a); try assumption.
  unfold Db.by_alert_id. now rewrite Nat.eqb_refl.
Qed.

End Quota.

(** C7 (amended). A participant with exactly five active alerts: a
    well-formed [/alert] request is answered
    "Max 5 alerts. Delete some first." and writes nothing. After [/deletealert k] with [k] between 1 and 5 has
    removed one of the five, the count is below five and the same
    [/alert] request, when its target is one the DECIMAL(20, 10) column
    holds, inserts one untriggered row for the participant, with the
    target rounded to ten decimal places, and is answered
    "Alert set: ...". *)
Theorem alert_quota_boundary
  (cfg : Config) (rt : Runtime) (chatId id : Z) (args dargs kind : string)
  (target : Q) (k : Z) (s : Store) (out : list Outbound) :
  supabase cfg = true ->
  (2 <= List.length (Js.split_sp args))%nat ->
  Js.toLowerCase (nth 0 (Js.split_sp args) "") = kind ->
  kind = "above" \/ kind = "below" ->
  parseFloat rt (nth 1 (Js.split_sp args) "") = Some target ->
  Db.fits_decimal target = true ->
  Webhook.count_active id s = 5%nat ->
  parseInt rt dargs = Some k ->
  (1 <= k <= 5)%Z ->
  Webhook.handleAlert cfg rt chatId id args (mkWorld s out)
  = Ok tt (mkWorld s (out ++ [mkOut chatId "Max 5 alerts. Delete some first."]))
  /\ exists a s1 s2,
       In a (filter (Db.active_of id) (alerts s))
       /\ s1 = Db.set_alerts (Db.delete_where (Db.by_alert_id (alert_id a))) s
       /\ (forall o, Webhook.handleDeleteAlert cfg rt chatId id dargs (mkWorld s o)
                     = Ok tt (mkWorld s1 (o ++ [mkOut chatId "Alert deleted."])))
       /\ (Webhook.count_active id s1 < 5)%nat
       /\ alerts s2
          = (alerts s1 ++ [mkAlert (Db.fresh_alert_id (alerts s1)) id kind
                                   (Db.store_decimal target) false None])%list
       /\ (forall o, Webhook.handleAlert cfg rt chatId id args (mkWorld s1 o)
                     = Ok tt (mkWorld s2 (o ++ [mkOut chatId
                                                  ("Alert set: " ++ kind ++ " $"
                                                   ++ numToString rt target)])))
       /\ Webhook.count_active id s2 = S (Webhook.count_active id s1).
Proof.
  intros Hs Hl Hk Hv Hp Hf Hc Hi Hr. split.
  - rewrite (handleAlert_counted cfg rt Hs chatId id args kind target s out Hl Hk Hv Hp).
    now rewrite Hc.
  - assert (Hr' : (1 <= k <= Z.of_nat (Webhook.count_active id s))%Z) by (rewrite Hc; lia).
    destruct (handleDeleteAlert_in_range cfg rt Hs chatId id dargs k s out Hi Hr')
      as [a [Hn _]].
    assert (Hin : In a (filter (Db.active_of id) (alerts s)))
      by (eapply nth_error_In; exact Hn).
    pose proof (count_after_delete id a s Hin) as Hlt. rewrite Hc in Hlt.
    exists a.
    exists (Db.set_alerts (Db.delete_where (Db.by_alert_id (alert_id a))) s).
    eexists. split; [exact Hin|]. split; [reflexivity|]. split.
    { intros o.
      destruct (handleDeleteAlert_in_range cfg rt Hs chatId id dargs k s o Hi Hr')
        as [a' [Hn' Hd]].
      rewrite Hn in Hn'. injection Hn' as <-. exact Hd. }
    split; [exact Hlt|]. split; [|split].
    2:{ intros o.
        rewrite (handleAlert_counted cfg rt Hs chatId id args kind target _ o Hl Hk Hv Hp).
        apply Nat.leb_gt in Hlt. rewrite Hlt. reflexivity. }
    + unfold Db.insert_alert. rewrite Hf. reflexivity.
    + unfold Db.insert_alert. rewrite Hf.
      unfold Webhook.count_active. simpl. rewrite filter_app, length_app. simpl.
      unfold Db.active_of at 2. simpl. rewrite Z.eqb_refl. simpl. lia.
Qed.

Lemma alert_quota_boundary_witness :
  Webhook.handleAlert Sample.cfg Sample.rt 42 42 "above 3" (mkWorld Sample.five_alerts [])
  = Ok tt (mkWorld Sample.five_alerts [mkOut 42 "Max 5 alerts. Delete some first."])
  /\ exists a s1 s2,
       In a (filter (Db.active_of 42) (alerts Sample.five_alerts))
       /\ s1 = Db.set_alerts (Db.delete_where (Db.by_alert_id (alert_id a)))
                             Sample.five_alerts
       /\ (forall o, Webhook.handleDeleteAlert Sample.cfg Sample.rt 42 42 "2"
                                               (mkWorld Sample.five_alerts o)
                     = Ok tt (mkWorld s1 (o ++ [mkOut 42 "Alert deleted."])))
       /\ (Webhook.count_active 42 s1 < 5)%nat
       /\ alerts s2
          = (alerts s1 ++ [mkAlert (Db.fresh_alert_id (alerts s1)) 42 "above"
                                   (Db.store_decimal (inject_Z 3)) false None])%list
       /\ (forall o, Webhook.handleAlert Sample.cfg Sample.rt 42 42 "above 3" (mkWorld s1 o)
                     = Ok tt (mkWorld s2 (o ++ [mkOut 42
                                                  ("Alert set: " ++ "above" ++ " $"
                                                   ++ numToString Sample.rt (inject_Z 3))])))
       /\ Webhook.count_active 42 s2 = S (Webhook.count_active 42 s1).
Proof.
  apply (alert_quota_boundary Sample.cfg Sample.rt 42 42 "above 3" "2" "above"
           (inject_Z 3) 2 Sample.five_alerts []);
    try reflexivity.
  - now left.
  - lia.
Defined.

(** C7 as stated fails. Participant 42 holds five active alerts and
    deletes the second, which leaves four. The well-formed request
    [/alert above 100000000000] is then answered "Alert set: ...", but
    the target needs eleven digits before the point, the column refuses
    the row, the handler does not read the refusal, and the table holds
    what it held. *)
Lemma alert_quota_boundary_counterexample :
  Webhook.count_active 42 Sample.five_alerts = 5%nat
  /\ Webhook.count_active 42
       (db (world_of (Webhook.handleDeleteAlert Sample.cfg Sample.rt 42 42 "2"
                                       (mkWorld Sample.five_alerts [])))) = 4%nat
  /\ Db.fits_decimal (inject_Z 100000000000) = false
  /\ Webhook.handleAlert Sample.cfg Sample.rt 42 42 "above 100000000000"
       (mkWorld
          (db (world_of (Webhook.handleDeleteAlert Sample.cfg Sample.rt 42 42 "2"
                                       (mkWorld Sample.five_alerts [])))) [])
     = Ok tt
          (mkWorld
             (db (world_of (Webhook.handleDeleteAlert Sample.cfg Sample.rt 42 42 "2"
                                       (mkWorld Sample.five_alerts []))))
             [mkOut 42 ("Alert set: above $"
                        ++ numToString Sample.rt (inject_Z 100000000000))])
  /\ ~ Spec.accepted_alert_inserts Sample.cfg Sample.rt.
Proof.
  repeat split; try reflexivity.
  intros H.
  specialize (H 42%Z 42%Z "above 100000000000" "above" (inject_Z 100000000000)
                (db (world_of (Webhook.handleDeleteAlert Sample.cfg Sample.rt 42 42 "2"
                                       (mkWorld Sample.five_alerts [])))) []
                eq_refl).
  vm_compute in H.
  assert (E : 5%nat = 6%nat); [|discriminate E].
  apply H; first [reflexivity | now left | repeat constructor].
Qed.

(** The column rounds what it stores to ten decimal places, ties away
    from zero, and holds magnitudes below ten to the tenth. *)
Example store_decimal_rounds :
  Db.store_decimal (25 # 100000000000) = (3 # 10000000000)%Q
  /\ Db.store_decimal (- 25 # 100000000000) = (- 3 # 10000000000)%Q
  /\ Db.store_decimal (24 # 100000000000) = (1 # 5000000000)%Q
  /\ Db.store_decimal (inject_Z 3) = inject_Z 3
  /\ Db.fits_decimal (inject_Z 9999999999) = true
  /\ Db.fits_decimal (inject_Z 10000000000) = false
  /\ Db.fits_decimal (99999999999999999999 # 10000000000) = true
  /\ Db.fits_decimal (199999999999999999999 # 20000000000) = false.
Proof. vm_compute. repeat split. Qed.



(** The address of the example is already on the list. *)
Example watched_already :
  existsb (Db.watch_pair 42 (Js.toLowerCase (Sample.addr "3")))
          (watchlist Sample.ten_watched) = true.
Proof. reflexivity. Qed.

(* ================================================================== *)
(** ** Properties of referrals *)
(* ================================================================== *)

Lemma single_some {A} (l : list A) (x : A) : single l = Some x -> l = [x].
Proof.
  destruct l as [|y [|z l]]; simpl; intros H; try discriminate.
  now injection H as ->.
Qed.

Lemma upper_char_idempotent (c : ascii) : Js.upper_char (Js.upper_char c) = Js.upper_char c.
Proof. destruct c as [[] [] [] [] [] [] [] []]; reflexivity. Qed.

(** A generated referral code is its own upper-case form. *)
Lemma toUpperCase_idempotent (s : string) :
  Js.toUpperCase (Js.toUpperCase s) = Js.toUpperCase s.
Proof.
  induction s as [|c r IH]; [reflexivity|].
  unfold Js.toUpperCase in *. simpl. now rewrite upper_char_idempotent, IH.
Qed.

(** C9. [/start] with the participant's own referral code creates no
    referral edge and leaves the referrer reference as it was, and
    [/start] from a participant who already has a referrer creates no edge
    whatever code it carries: in both cases the handler only sends the
    welcome and the store comes back unchanged. *)
Theorem start_referral_guards
  (cfg : Config) (now chatId : Z) (user : TelegramUser) (args : string)
  (s : Store) (out : list Outbound) :
  Spec.own_code user args s \/ Spec.already_referred user ->
  exists t,
    Webhook.handleStart cfg now chatId user args (mkWorld s out)
    = Ok tt (mkWorld s (out ++ [mkOut chatId t])).
Proof.
  intros H. unfold Webhook.handleStart.
  match goal with
  | |- context [bind ?g _] =>
      assert (Hg : g (mkWorld s out) = Ok tt (mkWorld s out))
  end.
  { destruct H as [[[row [Hin [Hid Hcode]]] Hup] | [r [Hr Hnz]]].
    - destruct (Js.truthy args && falsy_num (referred_by user) && supabase cfg);
        [|reflexivity].
      unfold bind, query. simpl. rewrite Hup.
      destruct (single (filter (Db.by_referral_code args) (users s))) as [r0|] eqn:Hq;
        [|reflexivity].
      apply single_some in Hq.
      assert (Hrow : row = r0).
      { eapply filter_single_unique; [exact Hq | exact Hin |].
        unfold Db.by_referral_code, opt_is. rewrite Hcode. apply String.eqb_refl. }
      subst r0. rewrite Hid, Z.eqb_refl. reflexivity.
    - rewrite Hr. unfold falsy_num. apply Z.eqb_neq in Hnz. rewrite Hnz.
      rewrite andb_false_r. reflexivity. }
  eexists. unfold bind at 1. rewrite Hg. reflexivity.
Qed.

Lemma start_referral_guards_witness :
  (exists t,
     Webhook.handleStart Sample.cfg 5 42 (Sample.user 42 "AAAA0001") "AAAA0001"
                         (mkWorld Sample.two_users [])
     = Ok tt (mkWorld Sample.two_users ([] ++ [mkOut 42 t])))
  /\ (exists t,
     Webhook.handleStart Sample.cfg 5 42
                         (Webhook.set_referred_by (Some 7%Z) (Sample.user 42 "AAAA0001"))
                         "AAAA0007" (mkWorld Sample.two_users [])
     = Ok tt (mkWorld Sample.two_users ([] ++ [mkOut 42 t]))).
Proof.
  split.
  - apply (start_referral_guards Sample.cfg 5 42 (Sample.user 42 "AAAA0001") "AAAA0001"
             Sample.two_users []).
    left. split; [|reflexivity].
    exists (Sample.user 42 "AAAA0001"). repeat split. now left.
  - apply (start_referral_guards Sample.cfg 5 42
             (Webhook.set_referred_by (Some 7%Z) (Sample.user 42 "AAAA0001")) "AAAA0007"
             Sample.two_users []).
    right. exists 7%Z. split; [reflexivity | discriminate].
Defined.

(** The guards are what stops the edge: another participant's code, from
    a participant without a referrer, records the referrer and the edge. *)
Example start_referral_recorded :
  db (world_of (Webhook.handleStart Sample.cfg 5 42 (Sample.user 42 "AAAA0001") "aaaa0007"
                                    (mkWorld Sample.two_users [])))
  = mkStore [Webhook.set_referred_by (Some 7%Z) (Sample.user 42 "AAAA0001");
             Sample.user 7 "AAAA0007"]
            [] [] [mkReferral 7 42 "AAAA0007" "completed" (Some 5%Z)] [].
Proof. reflexivity. Qed.

(** The row [getOrCreateUser] creates carries an upper-cased code. *)
Lemma created_code_upper
  (cfg : Config) (now : Z) (rnd : nat -> string) (id : Z) (uname : option string)
  (w w' : World) (u : TelegramUser) :
  single (filter (Db.by_telegram_id id) (users (db w))) = None ->
  Webhook.getOrCreateUser cfg now rnd id uname w = Ok (Some u) w' ->
  exists c, referral_code u = Some c /\ Js.toUpperCase c = c.
Proof.
  intros Hn. unfold Webhook.getOrCreateUser.
  destruct (supabase cfg); simpl; [|discriminate].
  unfold bind, query. rewrite Hn.
  destruct (Db.insert_user _ (db w)); [|discriminate].
  intros H. injection H as <- _.
  eexists. split; [reflexivity|]. apply toUpperCase_idempotent.
Qed.

(** [/link] issues a code: the first 32 hexadecimal digits, good for
    fifteen minutes. *)
Example link_code_issued :
  users (db (world_of (Webhook.handleLink Sample.cfg 100 Sample.rnd 7 7
                                          (Sample.user 7 "AAAA0007")
                                          (mkWorld Sample.two_users []))))
  = [Sample.user 42 "AAAA0001";
     mkUser 7 None None (Some "abcdef0123456789abcdef0123456789") (Some 900100%Z) None 0
            (Some "AAAA0007") None true].
Proof. reflexivity. Qed.

(* ================================================================== *)
(** ** More on the alert sweep *)
(* ================================================================== *)

Lemma Forall2_kept (now : Z) (l : list PriceAlert) :
  Forall2 (Spec.kept_or_marked now) l l.
Proof. induction l; constructor; [now left | assumption]. Qed.

Lemma Forall2_marked (now : Z) (p : PriceAlert -> bool) (l : list PriceAlert) :
  Forall2 (Spec.kept_or_marked now) l
          (Db.update_where p (CheckAlerts.mark_triggered now) l).
Proof.
  induction l as [|a l IH]; simpl; constructor; [|exact IH].
  destruct (p a); [now right | now left].
Qed.

Lemma Forall2_kept_trans (now : Z) (l1 l2 l3 : list PriceAlert) :
  Forall2 (Spec.kept_or_marked now) l1 l2 ->
  Forall2 (Spec.kept_or_marked now) l2 l3 ->
  Forall2 (Spec.kept_or_marked now) l1 l3.
Proof.
  intros H. revert l3. induction H as [|a b l1 l2 Hab _ IH]; intros l3 H23.
  - inversion H23. constructor.
  - inversion H23 as [|b' c l2' l3' Hbc Hrest]; subst. constructor; [|now apply IH].
    destruct Hab as [-> | ->]; destruct Hbc as [-> | ->];
      [now left | now right | now right | now right].
Qed.

Section SweepFrame.

Variable cfg : Config.
Variable rt : Runtime.
Variable co : Collab.
Variable now : Z.

(** Where one iteration can leave the world. *)
Lemma check_alert_world p r n (w : World) :
  let w' := world_of (CheckAlerts.check_alert rt co now p r n w) in
  (db w' = db w
   \/ db w' = Db.set_alerts
                (Db.update_where (Db.by_alert_id (alert_id (CheckAlerts.alert r)))
                                 (CheckAlerts.mark_triggered now)) (db w)).
Proof.
  unfold CheckAlerts.check_alert.
  destruct (CheckAlerts.shouldTrigger p (CheckAlerts.alert r)); [|now left].
  right. unfold bind, exec. simpl.
  destruct (CheckAlerts.wants_notification r); [|reflexivity].
  unfold CheckAlerts.sendTelegramMessage, bind, post. simpl.
  now destruct (transport co _).
Qed.

Lemma check_alert_frame p r n (w : World) :
  let w' := world_of (CheckAlerts.check_alert rt co now p r n w) in
  Forall2 (Spec.kept_or_marked now) (alerts (db w)) (alerts (db w'))
  /\ users (db w') = users (db w)
  /\ watchlist (db w') = watchlist (db w)
  /\ referrals (db w') = referrals (db w)
  /\ tickets (db w') = tickets (db w).
Proof.
  intros w'. destruct (check_alert_world p r n w) as [H|H]; fold w' in H; rewrite H.
  - repeat split. apply Forall2_kept.
  - repeat split. apply Forall2_marked.
Qed.

Lemma sweep_frame p rows :
  forall n (w : World),
    let w' := world_of (CheckAlerts.sweep rt co now p rows n w) in
    Forall2 (Spec.kept_or_marked now) (alerts (db w)) (alerts (db w'))
    /\ users (db w') = users (db w)
    /\ watchlist (db w') = watchlist (db w)
    /\ referrals (db w') = referrals (db w)
    /\ tickets (db w') = tickets (db w).
Proof.
  induction rows as [|r rows IH]; intros n w; simpl.
  - repeat split. apply Forall2_kept.
  - pose proof (check_alert_frame p r n w) as Hc. simpl in Hc.
    unfold bind. destruct (CheckAlerts.check_alert rt co now p r n w) as [t w1|w1];
      simpl in *.
    + specialize (IH t w1). simpl in IH.
      destruct Hc as [A [B [C [D E]]]]. destruct IH as [A' [B' [C' [D' E']]]].
      repeat split; try congruence.
      eapply Forall2_kept_trans; eassumption.
    + exact Hc.
Qed.

(** The handler never throws, and what it does to the store it does in
    the loop. *)
Lemma handler_cases (req : CheckAlerts.Request) (w : World) :
  (exists r, CheckAlerts.handler cfg rt co now req w = Ok r w
             /\ CheckAlerts.status r <> 200%nat)
  \/ (exists p, CheckAlerts.getCurrentPrice cfg co = Some p
                /\ Qeq_bool p 0 = false
                /\ CheckAlerts.select_untriggered (db w) = []
                /\ CheckAlerts.handler cfg rt co now req w
                   = Ok (CheckAlerts.mkResponse 200 (CheckAlerts.JsonNoAlerts p)) w)
  \/ (exists p, CheckAlerts.getCurrentPrice cfg co = Some p
                /\ Qeq_bool p 0 = false
                /\ CheckAlerts.select_untriggered (db w) <> []
                /\ CheckAlerts.handler cfg rt co now req w
                   = match CheckAlerts.sweep rt co now p
                                             (CheckAlerts.select_untriggered (db w)) 0 w with
                     | Ok t w' =>
                         Ok (CheckAlerts.mkResponse 200
                               (CheckAlerts.JsonSummary p
                                  (List.length (CheckAlerts.select_untriggered (db w))) t))
                            w'
                     | Throw w' =>
                         Ok (CheckAlerts.mkResponse 500 (CheckAlerts.JsonError "Internal error"))
                            w'
                     end).
Proof.
  unfold CheckAlerts.handler.
  destruct (negb (CheckAlerts.method req =? "GET")
            && negb (opt_is (CheckAlerts.authorization req) (CheckAlerts.bearer cfg))).
  { left. eexists. split; [reflexivity|]. simpl. lia. }
  destruct (negb (supabase cfg) || negb (Js.truthy (BOT_TOKEN cfg))).
  { left. eexists. split; [reflexivity|]. simpl. lia. }
  unfold try_catch.
  destruct (CheckAlerts.getCurrentPrice cfg co) as [p|].
  2:{ left. eexists. split; [reflexivity|]. simpl. lia. }
  destruct (Qeq_bool p 0) eqn:Hz.
  { left. eexists. split; [reflexivity|]. simpl. lia. }
  unfold bind, query. cbv beta iota.
  destruct (CheckAlerts.select_untriggered (db w)) as [|r0 rows] eqn:Hr.
  - right. left. exists p. repeat split; try assumption.
  - right. right. exists p. split; [reflexivity|]. split; [exact Hz|].
    split; [discriminate|].
    destruct (CheckAlerts.sweep rt co now p (r0 :: rows) 0 w); reflexivity.
Qed.

End SweepFrame.

Section SweepHandler.

Variable cfg : Config.
Variable rt : Runtime.
Variable co : Collab.
Variable now : Z.

Lemma admitted_passes (req : CheckAlerts.Request) :
  Spec.cron_admitted cfg req ->
  negb (CheckAlerts.method req =? "GET")
  && negb (opt_is (CheckAlerts.authorization req) (CheckAlerts.bearer cfg)) = false.
Proof.
  intros [H|H].
  - rewrite H. reflexivity.
  - rewrite H. simpl. rewrite String.eqb_refl. apply andb_false_r.
Qed.

Lemma refused_fails (req : CheckAlerts.Request) :
  ~ Spec.cron_admitted cfg req ->
  negb (CheckAlerts.method req =? "GET")
  && negb (opt_is (CheckAlerts.authorization req) (CheckAlerts.bearer cfg)) = true.
Proof.
  intros H. unfold Spec.cron_admitted in H.
  destruct (CheckAlerts.method req =? "GET") eqn:Hm.
  - exfalso. apply H. left. now apply String.eqb_eq.
  - simpl. destruct (CheckAlerts.authorization req) as [a|] eqn:Ha; [|reflexivity].
    simpl. destruct (a =? CheckAlerts.bearer cfg) eqn:Hb; [|reflexivity].
    exfalso. apply H. right. apply String.eqb_eq in Hb. now subst.
Qed.

(** An admitted request with the store, the bot and a price goes on to
    load the rows and run the loop. *)
Lemma handler_sweeps (req : CheckAlerts.Request) (w : World) p r0 rows :
  Spec.cron_admitted cfg req ->
  supabase cfg = true -> Js.truthy (BOT_TOKEN cfg) = true ->
  CheckAlerts.getCurrentPrice cfg co = Some p -> Qeq_bool p 0 = false ->
  CheckAlerts.select_untriggered (db w) = r0 :: rows ->
  CheckAlerts.handler cfg rt co now req w
  = match CheckAlerts.sweep rt co now p (r0 :: rows) 0 w with
    | Ok t w' =>
        Ok (CheckAlerts.mkResponse 200
              (CheckAlerts.JsonSummary p (List.length (r0 :: rows)) t)) w'
    | Throw w' =>
        Ok (CheckAlerts.mkResponse 500 (CheckAlerts.JsonError "Internal error")) w'
    end.
Proof.
  intros Ha Hs Hb Hp Hz Hr. unfold CheckAlerts.handler.
  rewrite (admitted_passes req Ha), Hs, Hb. cbn [negb orb].
  unfold try_catch. rewrite Hp, Hz. unfold bind, query. cbv beta iota. rewrite Hr.
  destruct (CheckAlerts.sweep rt co now p (r0 :: rows) 0 w); reflexivity.
Qed.

Lemma sweep_app p rows1 rows2 :
  forall n (w : World),
    CheckAlerts.sweep rt co now p (rows1 ++ rows2) n w
    = match CheckAlerts.sweep rt co now p rows1 n w with
      | Ok t w1 => CheckAlerts.sweep rt co now p rows2 t w1
      | Throw w1 => Throw w1
      end.
Proof.
  induction rows1 as [|r rows1 IH]; intros n w; [reflexivity|].
  simpl. unfold bind.
  destruct (CheckAlerts.check_alert rt co now p r n w) as [t w1|w1]; [apply IH | reflexivity].
Qed.

Lemma swept_snoc p r rows (l : list PriceAlert) :
  CheckAlerts.shouldTrigger p (CheckAlerts.alert r) = true ->
  Db.update_where (Db.by_alert_id (alert_id (CheckAlerts.alert r)))
                  (CheckAlerts.mark_triggered now) (Spec.swept now p rows l)
  = Spec.swept now p (rows ++ [r]) l.
Proof.
  intros Hs. unfold Spec.swept, Db.update_where. rewrite map_map.
  apply map_ext. intros a. unfold Spec.fires. rewrite existsb_app. simpl.
  rewrite Hs. simpl. rewrite orb_false_r.
  fold (Spec.fires p rows a).
  destruct (Spec.fires p rows a); simpl.
  - now destruct (Db.by_alert_id (alert_id (CheckAlerts.alert r))
                                 (CheckAlerts.mark_triggered now a)).
  - reflexivity.
Qed.

(** A loop over rows none of which is satisfied does nothing. *)
Lemma sweep_idle p rows :
  (forall r, In r rows -> CheckAlerts.shouldTrigger p (CheckAlerts.alert r) = false) ->
  forall n (w : World), CheckAlerts.sweep rt co now p rows n w = Ok n w.
Proof.
  induction rows as [|r rows IH]; intros H n w; [reflexivity|].
  simpl. unfold bind, CheckAlerts.check_alert.
  rewrite (H r) by now left. unfold ret. apply IH.
  intros r' Hr'. apply H. now right.
Qed.

(** What is still untriggered after the loop was not satisfied. *)
Lemma swept_leaves_unsatisfied p (s : Store) (a' : PriceAlert) :
  In a' (Spec.swept now p (CheckAlerts.select_untriggered s) (alerts s)) ->
  triggered a' = false ->
  CheckAlerts.shouldTrigger p a' = false.
Proof.
  intros Hin Hu. unfold Spec.swept in Hin. apply in_map_iff in Hin.
  destruct Hin as [a [Ha Hin]].
  destruct (Spec.fires p (CheckAlerts.select_untriggered s) a) eqn:Hf.
  - subst a'. discriminate Hu.
  - subst a'.
    destruct (CheckAlerts.shouldTrigger p a) eqn:Hs; [|reflexivity].
    exfalso. apply not_true_iff_false in Hf. apply Hf.
    unfold Spec.fires. apply existsb_exists.
    exists (CheckAlerts.join_owner s a). split.
    + unfold CheckAlerts.select_untriggered. apply in_map. apply filter_In.
      split; [exact Hin|]. unfold Db.untriggered. now rewrite Hu.
    + simpl. rewrite Hs. unfold Db.by_alert_id. now rewrite Nat.eqb_refl.
Qed.

End SweepHandler.

(** X1. Whatever the request and whatever the transport does, the cron
    handler only ever marks alerts: row by row the stored table is the old
    one with each alert either kept or marked triggered at the instant of
    the run (none is inserted, deleted, re-targeted or un-triggered), and
    the other four tables are untouched. *)
Theorem sweep_only_marks
  (cfg : Config) (rt : Runtime) (co : Collab) (now : Z)
  (req : CheckAlerts.Request) (w : World) :
  Forall2 (Spec.kept_or_marked now)
          (alerts (db w))
          (alerts (db (world_of (CheckAlerts.handler cfg rt co now req w))))
  /\ map alert_id (alerts (db (world_of (CheckAlerts.handler cfg rt co now req w))))
     = map alert_id (alerts (db w))
  /\ users (db (world_of (CheckAlerts.handler cfg rt co now req w))) = users (db w)
  /\ watchlist (db (world_of (CheckAlerts.handler cfg rt co now req w))) = watchlist (db w)
  /\ referrals (db (world_of (CheckAlerts.handler cfg rt co now req w))) = referrals (db w)
  /\ tickets (db (world_of (CheckAlerts.handler cfg rt co now req w))) = tickets (db w).
Proof.
  assert (H :
    Forall2 (Spec.kept_or_marked now)
            (alerts (db w))
            (alerts (db (world_of (CheckAlerts.handler cfg rt co now req w))))
    /\ users (db (world_of (CheckAlerts.handler cfg rt co now req w))) = users (db w)
    /\ watchlist (db (world_of (CheckAlerts.handler cfg rt co now req w))) = watchlist (db w)
    /\ referrals (db (world_of (CheckAlerts.handler cfg rt co now req w))) = referrals (db w)
    /\ tickets (db (world_of (CheckAlerts.handler cfg rt co now req w))) = tickets (db w)).
  { destruct (handler_cases cfg rt co now req w)
      as [[r [H _]] | [[p [_ [_ [_ H]]]] | [p [_ [_ [_ H]]]]]]; rewrite H.
    - repeat split. apply Forall2_kept.
    - repeat split. apply Forall2_kept.
    - pose proof (sweep_frame rt co now p (CheckAlerts.select_untriggered (db w)) 0 w)
        as Hf. simpl in Hf.
      destruct (CheckAlerts.sweep rt co now p (CheckAlerts.select_untriggered (db w)) 0 w);
        exact Hf. }
  destruct H as [A [B [C [D E]]]]. repeat split; try assumption.
  clear - A. induction A as [|a a' l l' Haa _ IH]; [reflexivity|].
  simpl. rewrite IH. now destruct Haa as [-> | ->].
Qed.

(** X2. Without a usable price (the token address is unset, the feed has
    no pair, or the price is zero) the cron handler reports failure and
    changes nothing; an admitted request on a configured deployment gets
    500 "Failed to get price". *)
Theorem sweep_needs_price
  (cfg : Config) (rt : Runtime) (co : Collab) (now : Z)
  (req : CheckAlerts.Request) (w : World) :
  (CheckAlerts.getCurrentPrice cfg co = None
   \/ exists p, CheckAlerts.getCurrentPrice cfg co = Some p /\ Qeq_bool p 0 = true) ->
  exists r,
    CheckAlerts.handler cfg rt co now req w = Ok r w
    /\ CheckAlerts.status r <> 200%nat
    /\ (Spec.cron_admitted cfg req -> supabase cfg = true ->
        Js.truthy (BOT_TOKEN cfg) = true ->
        r = CheckAlerts.mkResponse 500 (CheckAlerts.JsonError "Failed to get price")).
Proof.
  intros Hp. unfold CheckAlerts.handler.
  destruct (negb (CheckAlerts.method req =? "GET")
            && negb (opt_is (CheckAlerts.authorization req) (CheckAlerts.bearer cfg)))
    eqn:Ha.
  { eexists. split; [reflexivity|]. split; [simpl; lia|].
    intros Had. rewrite (admitted_passes cfg req Had) in Ha. discriminate. }
  destruct (negb (supabase cfg) || negb (Js.truthy (BOT_TOKEN cfg))) eqn:Hc.
  { eexists. split; [reflexivity|]. split; [simpl; lia|].
    intros _ Hs Hb. rewrite Hs, Hb in Hc. discriminate. }
  unfold try_catch.
  destruct Hp as [Hp | [p [Hp Hz]]]; rewrite Hp; [|rewrite Hz];
    (eexists; split; [reflexivity|]; split; [simpl; lia | reflexivity]).
Qed.

Lemma sweep_needs_price_witness :
  exists r,
    CheckAlerts.handler (mkConfig true "bot-token" "" "" None) Sample.rt Sample.co 100
                        Sample.cron_get (mkWorld Sample.three_alerts [])
    = Ok r (mkWorld Sample.three_alerts [])
    /\ CheckAlerts.status r <> 200%nat
    /\ (Spec.cron_admitted (mkConfig true "bot-token" "" "" None) Sample.cron_get ->
        supabase (mkConfig true "bot-token" "" "" None) = true ->
        Js.truthy (BOT_TOKEN (mkConfig true "bot-token" "" "" None)) = true ->
        r = CheckAlerts.mkResponse 500 (CheckAlerts.JsonError "Failed to get price")).
Proof.
  apply (sweep_needs_price (mkConfig true "bot-token" "" "" None) Sample.rt Sample.co 100
           Sample.cron_get (mkWorld Sample.three_alerts [])).
  left. reflexivity.
Defined.

(** X3. The cron handler answers 401 "Unauthorized", changing nothing,
    exactly when the request is neither a GET nor carries the bearer
    header: every GET is let through without any header. *)
Theorem cron_authorization
  (cfg : Config) (rt : Runtime) (co : Collab) (now : Z)
  (req : CheckAlerts.Request) (w : World) :
  CheckAlerts.handler cfg rt co now req w
  = Ok (CheckAlerts.mkResponse 401 (CheckAlerts.JsonError "Unauthorized")) w
  <-> ~ Spec.cron_admitted cfg req.
Proof.
  split.
  - intros H Ha.
    destruct (handler_cases cfg rt co now req w)
      as [[r [Hr _]] | [[p [_ [_ [_ Hr]]]] | [p [_ [_ [_ Hr]]]]]].
    + unfold CheckAlerts.handler in H.
      rewrite (admitted_passes cfg req Ha) in H.
      destruct (negb (supabase cfg) || negb (Js.truthy (BOT_TOKEN cfg)));
        [discriminate|].
      unfold try_catch in H.
      destruct (CheckAlerts.getCurrentPrice cfg co) as [p|]; [|discriminate].
      destruct (Qeq_bool p 0); [discriminate|].
      unfold bind, query in H. cbv beta iota in H.
      destruct (CheckAlerts.select_untriggered (db w)); [discriminate|].
      destruct (CheckAlerts.sweep rt co now p (a :: l) 0 w); discriminate.
    + rewrite Hr in H. discriminate.
    + rewrite Hr in H.
      destruct (CheckAlerts.sweep rt co now p (CheckAlerts.select_untriggered (db w)) 0 w);
        discriminate.
  - intros H. unfold CheckAlerts.handler. now rewrite (refused_fails cfg req H).
Qed.

(** X4. An admitted run with a price, a non-empty load and a reachable
    transport answers 200 with [checked] the number of rows loaded and
    [triggered] the number of notifications sent, which leaves out the
    satisfied alerts of owners with notifications off; those alerts are
    marked all the same. *)
Theorem sweep_summary_counts
  (cfg : Config) (rt : Runtime) (co : Collab) (now : Z)
  (req : CheckAlerts.Request) (w : World) (p : Q) :
  Spec.cron_admitted cfg req ->
  supabase cfg = true -> Js.truthy (BOT_TOKEN cfg) = true ->
  CheckAlerts.getCurrentPrice cfg co = Some p -> Qeq_bool p 0 = false ->
  CheckAlerts.select_untriggered (db w) <> [] ->
  (forall r, In r (CheckAlerts.select_untriggered (db w)) -> Spec.notified p r = true ->
             transport co (Spec.notice rt p r) = true) ->
  CheckAlerts.handler cfg rt co now req w
  = Ok (CheckAlerts.mkResponse 200
          (CheckAlerts.JsonSummary p
             (List.length (CheckAlerts.select_untriggered (db w)))
             (List.length (filter (Spec.notified p) (CheckAlerts.select_untriggered (db w))))))
       (mkWorld (Db.set_alerts (Spec.swept now p (CheckAlerts.select_untriggered (db w)))
                               (db w))
                (outbox w ++ map (Spec.notice rt p)
                                 (filter (Spec.notified p)
                                         (CheckAlerts.select_untriggered (db w))))).
Proof.
  intros Ha Hs Hb Hp Hz Hne Ht.
  destruct (CheckAlerts.select_untriggered (db w)) as [|r0 rows] eqn:Hr; [congruence|].
  rewrite (handler_sweeps cfg rt co now req w p r0 rows Ha Hs Hb Hp Hz Hr).
  rewrite (sweep_run rt co now p (r0 :: rows) 0 w Ht). reflexivity.
Qed.

Lemma sweep_summary_counts_witness :
  CheckAlerts.handler Sample.cfg Sample.rt Sample.co 100 Sample.cron_get
                      (mkWorld Sample.three_alerts [])
  = Ok (CheckAlerts.mkResponse 200
          (CheckAlerts.JsonSummary 1
             (List.length (CheckAlerts.select_untriggered Sample.three_alerts))
             (List.length (filter (Spec.notified 1)
                                  (CheckAlerts.select_untriggered Sample.three_alerts)))))
       (mkWorld (Db.set_alerts
                   (Spec.swept 100 1 (CheckAlerts.select_untriggered Sample.three_alerts))
                   Sample.three_alerts)
                ([] ++ map (Spec.notice Sample.rt 1)
                           (filter (Spec.notified 1)
                                   (CheckAlerts.select_untriggered Sample.three_alerts)))).
Proof.
  apply (sweep_summary_counts Sample.cfg Sample.rt Sample.co 100 Sample.cron_get
           (mkWorld Sample.three_alerts []) 1);
    try reflexivity.
  - now left.
  - discriminate.
Defined.

(** The run of the example: three rows checked, one notification, two
    alerts marked (the muted owner's satisfied alert among them). *)
Example sweep_summary_example :
  CheckAlerts.handler Sample.cfg Sample.rt Sample.co 100 Sample.cron_get
                      (mkWorld Sample.three_alerts [])
  = Ok (CheckAlerts.mkResponse 200 (CheckAlerts.JsonSummary 1 3 1))
       (mkWorld (mkStore (users Sample.three_alerts)
                         [mkAlert 1 42 "above" 1 true (Some 100%Z);
                          mkAlert 2 7 "below" 1 true (Some 100%Z);
                          Sample.alert 3 42 "above" (inject_Z 2)] [] [] [])
                [Spec.notice Sample.rt 1
                   (CheckAlerts.mkRow (Sample.alert 2 7 "below" 1) (Some true))]).
Proof. reflexivity. Qed.

(** X5. When the transport fails on a notification the run stops there:
    the handler answers 500 "Internal error"; the alert whose
    notification failed is already marked, as are the satisfied alerts
    before it; the notification was handed to the transport; and the rows
    after it are not processed in this run. *)
Theorem sweep_aborts_on_transport_failure
  (cfg : Config) (rt : Runtime) (co : Collab) (now : Z)
  (req : CheckAlerts.Request) (w : World) (p : Q)
  (pre rest : list CheckAlerts.AlertRow) (r : CheckAlerts.AlertRow) :
  Spec.cron_admitted cfg req ->
  supabase cfg = true -> Js.truthy (BOT_TOKEN cfg) = true ->
  CheckAlerts.getCurrentPrice cfg co = Some p -> Qeq_bool p 0 = false ->
  CheckAlerts.select_untriggered (db w) = (pre ++ r :: rest)%list ->
  (forall x, In x pre -> Spec.notified p x = true ->
             transport co (Spec.notice rt p x) = true) ->
  Spec.notified p r = true ->
  transport co (Spec.notice rt p r) = false ->
  CheckAlerts.handler cfg rt co now req w
  = Ok (CheckAlerts.mkResponse 500 (CheckAlerts.JsonError "Internal error"))
       (mkWorld (Db.set_alerts (Spec.swept now p (pre ++ [r])) (db w))
                (outbox w ++ map (Spec.notice rt p) (filter (Spec.notified p) pre)
                          ++ [Spec.notice rt p r])).
Proof.
  intros Ha Hs Hb Hp Hz Hr Ht Hn Hf.
  assert (Hc : exists r0 rows, (pre ++ r :: rest)%list = r0 :: rows)
    by (destruct pre; simpl; eauto).
  destruct Hc as [r0 [rows Hc]]. rewrite Hc in Hr.
  rewrite (handler_sweeps cfg rt co now req w p r0 rows Ha Hs Hb Hp Hz Hr).
  rewrite <- Hc. rewrite sweep_app. rewrite (sweep_run rt co now p pre 0 w Ht).
  simpl. unfold bind at 1. unfold CheckAlerts.check_alert.
  unfold Spec.notified in Hn. apply andb_prop in Hn. destruct Hn as [Hsat Hw].
  rewrite Hsat, Hw. unfold bind, exec, CheckAlerts.sendTelegramMessage, bind, post. simpl.
  unfold Spec.notice in Hf. rewrite Hf. unfold throw.
  rewrite set_alerts_compose.
  rewrite (set_alerts_ext _ (Spec.swept now p (pre ++ [r])))
    by (apply swept_snoc; exact Hsat).
  now rewrite <- app_assoc.
Qed.

Lemma sweep_aborts_on_transport_failure_witness :
  CheckAlerts.handler Sample.cfg Sample.rt Sample.co_down7 100 Sample.cron_get
                      (mkWorld Sample.three_alerts [])
  = Ok (CheckAlerts.mkResponse 500 (CheckAlerts.JsonError "Internal error"))
       (mkWorld (Db.set_alerts
                   (Spec.swept 100 1
                      ([CheckAlerts.mkRow (Sample.alert 1 42 "above" 1) (Some false)]
                       ++ [CheckAlerts.mkRow (Sample.alert 2 7 "below" 1) (Some true)]))
                   Sample.three_alerts)
                ([] ++ map (Spec.notice Sample.rt 1)
                           (filter (Spec.notified 1)
                              [CheckAlerts.mkRow (Sample.alert 1 42 "above" 1) (Some false)])
                    ++ [Spec.notice Sample.rt 1
                          (CheckAlerts.mkRow (Sample.alert 2 7 "below" 1) (Some true))])).
Proof.
  apply (sweep_aborts_on_transport_failure Sample.cfg Sample.rt Sample.co_down7 100
           Sample.cron_get (mkWorld Sample.three_alerts []) 1
           [CheckAlerts.mkRow (Sample.alert 1 42 "above" 1) (Some false)]
           [CheckAlerts.mkRow (Sample.alert 3 42 "above" (inject_Z 2)) (Some false)]
           (CheckAlerts.mkRow (Sample.alert 2 7 "below" 1) (Some true)));
    try reflexivity.
  - now left.
  - intros x [<-|[]] H. discriminate H.
Defined.

(** X6. After a run that went through, a run that loads its rows afresh
    at the same price finds no satisfied alert: every alert still
    untriggered fails the predicate, so the second loop sends nothing and
    leaves the store as it is. *)
Theorem sweep_then_idle
  (rt : Runtime) (co : Collab) (now now' : Z) (p : Q) (n : nat) (w : World) :
  (forall r, In r (CheckAlerts.select_untriggered (db w)) -> Spec.notified p r = true ->
             transport co (Spec.notice rt p r) = true) ->
  exists t w',
    CheckAlerts.sweep rt co now p (CheckAlerts.select_untriggered (db w)) 0 w = Ok t w'
    /\ (forall r, In r (CheckAlerts.select_untriggered (db w')) ->
                  CheckAlerts.shouldTrigger p (CheckAlerts.alert r) = false)
    /\ CheckAlerts.sweep rt co now' p (CheckAlerts.select_untriggered (db w')) n w'
       = Ok n w'.
Proof.
  intros Ht. eexists. eexists. split; [apply sweep_run; exact Ht|].
  match goal with |- (forall r, In r ?rows -> _) /\ _ =>
    assert (Hidle : forall r, In r rows ->
                      CheckAlerts.shouldTrigger p (CheckAlerts.alert r) = false)
  end.
  { intros r Hr. unfold CheckAlerts.select_untriggered in Hr.
    apply in_map_iff in Hr. destruct Hr as [a [<- Ha]].
    apply filter_In in Ha. destruct Ha as [Ha Hu]. simpl in Ha.
    apply (swept_leaves_unsatisfied now p (db w) a Ha).
    unfold Db.untriggered in Hu. now destruct (triggered a). }
  split; [exact Hidle|]. apply sweep_idle. exact Hidle.
Qed.

Lemma sweep_then_idle_witness :
  exists t w',
    CheckAlerts.sweep Sample.rt Sample.co 100 1
                      (CheckAlerts.select_untriggered (db (mkWorld Sample.three_alerts [])))
                      0 (mkWorld Sample.three_alerts [])
    = Ok t w'
    /\ (forall r, In r (CheckAlerts.select_untriggered (db w')) ->
                  CheckAlerts.shouldTrigger 1 (CheckAlerts.alert r) = false)
    /\ CheckAlerts.sweep Sample.rt Sample.co 200 1
                         (CheckAlerts.select_untriggered (db w')) 0 w'
       = Ok 0%nat w'.
Proof.
  apply (sweep_then_idle Sample.rt Sample.co 100 200 1 0 (mkWorld Sample.three_alerts [])).
  intros r _ _. reflexivity.
Defined.

(* ================================================================== *)
(** ** More on link verification *)
(* ================================================================== *)

Section VerifyCases.

Variable cfg : Config.
Variable rt : Runtime.
Variable co : Collab.
Variable now : Z.

(** Every way the [try] block can end. *)
Lemma verify_cases c wa sig (w : World) :
  (exists r, VerifyLink.verify cfg rt co now c wa sig w = Ok r w
             /\ VerifyLink.status r <> 200%nat)
  \/ (VerifyLink.verify cfg rt co now c wa sig w = Throw w
      /\ verifyMessage rt (VerifyLink.expectedMessage c) sig = None)
  \/ (exists u recovered w',
        filter (Db.by_link_code c) (users (db w)) = [u]
        /\ VerifyLink.expired now u = false
        /\ verifyMessage rt (VerifyLink.expectedMessage c) sig = Some recovered
        /\ Js.toLowerCase recovered = Js.toLowerCase wa
        /\ db w' = Db.set_users (Db.update_where (Db.by_telegram_id (telegram_id u))
                                                 (VerifyLink.bind_wallet now wa)) (db w)
        /\ (VerifyLink.verify cfg rt co now c wa sig w
            = Ok (VerifyLink.mkResponse 200 VerifyLink.JsonSuccess) w'
            \/ VerifyLink.verify cfg rt co now c wa sig w = Throw w')).
Proof.
  unfold VerifyLink.verify, bind, query.
  destruct (filter (Db.by_link_code c) (users (db w))) as [|u [|u2 l]] eqn:Hf; simpl.
  - left. eexists. split; [reflexivity|]. simpl. lia.
  - destruct (VerifyLink.expired now u) eqn:He.
    { left. eexists. split; [reflexivity|]. simpl. lia. }
    destruct (verifyMessage rt (VerifyLink.expectedMessage c) sig) as [recovered|] eqn:Hv.
    2:{ right. left. split; reflexivity. }
    destruct (Js.toLowerCase recovered =? Js.toLowerCase wa) eqn:Hm; simpl.
    2:{ left. eexists. split; [reflexivity|]. simpl. lia. }
    right. right. apply String.eqb_eq in Hm.
    unfold exec, ret. simpl.
    destruct (Js.truthy (BOT_TOKEN cfg)).
    + unfold VerifyLink.sendTelegramMessage, bind, post. simpl.
      destruct (transport co _);
        (exists u, recovered; eexists;
         split; [first [reflexivity | eassumption]|];
         split; [first [reflexivity | eassumption]|];
         split; [first [reflexivity | eassumption]|];
         split; [exact Hm|];
         split; [|first [left; reflexivity | right; reflexivity]]; reflexivity).
    + exists u, recovered. eexists.
      split; [first [reflexivity | eassumption]|].
      split; [first [reflexivity | eassumption]|].
      split; [first [reflexivity | eassumption]|].
      split; [exact Hm|]. split; [|left; reflexivity]. reflexivity.
  - left. eexists. split; [reflexivity|]. simpl. lia.
Qed.

(** The handler outside the [try] block: it refuses and changes nothing,
    or throws on the body that is not there, or enters the [try]. *)
Lemma handler_shape (req : VerifyLink.Request) (w : World) :
  (exists r, VerifyLink.handler cfg rt co now req w = Ok r w
             /\ VerifyLink.status r <> 200%nat
             /\ (VerifyLink.method req <> "POST" \/ supabase cfg = false
                 \/ VerifyLink.req_body req <> None))
  \/ (VerifyLink.handler cfg rt co now req w = Throw w
      /\ VerifyLink.method req = "POST" /\ supabase cfg = true
      /\ VerifyLink.req_body req = None)
  \/ (exists f c wa sig,
        VerifyLink.req_body req = Some f
        /\ VerifyLink.code f = Some c /\ VerifyLink.walletAddress f = Some wa
        /\ VerifyLink.signature f = Some sig
        /\ VerifyLink.handler cfg rt co now req w
           = try_catch (VerifyLink.verify cfg rt co now c wa sig)
               (ret (VerifyLink.mkResponse 500 (VerifyLink.JsonError "Verification failed")))
               w).
Proof.
  unfold VerifyLink.handler.
  destruct (VerifyLink.method req =? "POST") eqn:Hm; cbn [negb].
  2:{ left. eexists. split; [reflexivity|]. split; [simpl; lia|].
      left. intros E. rewrite E in Hm. discriminate Hm. }
  apply String.eqb_eq in Hm.
  destruct (supabase cfg) eqn:Hs; cbn [negb].
  2:{ left. eexists. split; [reflexivity|]. split; [simpl; lia|]. right. now left. }
  destruct (VerifyLink.req_body req) as [f|] eqn:Hb.
  2:{ right. left. repeat split. exact Hm. }
  assert (Hnb : VerifyLink.method req <> "POST" \/ true = false \/ Some f <> None)
    by (right; right; discriminate).
  destruct (VerifyLink.code f) as [c|] eqn:Hc;
    [|left; eexists; split; [reflexivity|]; split; [simpl; lia | exact Hnb]].
  destruct (VerifyLink.walletAddress f) as [wa|] eqn:Hw;
    [|left; eexists; split; [reflexivity|]; split; [simpl; lia | exact Hnb]].
  destruct (VerifyLink.signature f) as [sig|] eqn:Hg;
    [|left; eexists; split; [reflexivity|]; split; [simpl; lia | exact Hnb]].
  destruct (Js.truthy c && Js.truthy wa && Js.truthy sig).
  - right. right. exists f, c, wa, sig. repeat split; assumption.
  - left. eexists. split; [reflexivity|]. split; [simpl; lia | exact Hnb].
Qed.

Lemma bind_wallet_identity wa (x : TelegramUser) :
  Spec.same_identity x (VerifyLink.bind_wallet now wa x).
Proof. repeat split. Qed.

Lemma same_identity_refl (x : TelegramUser) : Spec.same_identity x x.
Proof. repeat split. Qed.

Lemma Forall2_identity_refl (l : list TelegramUser) : Forall2 Spec.same_identity l l.
Proof. induction l; constructor; [apply same_identity_refl | assumption]. Qed.

Lemma Forall2_identity_bound p wa (l : list TelegramUser) :
  Forall2 Spec.same_identity l (Db.update_where p (VerifyLink.bind_wallet now wa) l).
Proof.
  induction l as [|x l IH]; simpl; constructor; [|exact IH].
  destruct (p x); [apply bind_wallet_identity | apply same_identity_refl].
Qed.

End VerifyCases.

(** X7. The link-verification handler throws in one case only: a POST,
    with the store configured, that carries no body; the destructuring of
    the body, which precedes the [try], throws and nothing has been
    written or sent. On every other request it answers, and it writes
    only on one path: exactly one row holds the code, the code is not
    expired, and the signature recovers to the claimed address up to case.
    Its one write is then the binding update on that holder; every other
    outcome leaves store and outbox as they were, with a status other
    than 200. *)
Theorem verify_writes_only_when_proved
  (cfg : Config) (rt : Runtime) (co : Collab) (now : Z)
  (req : VerifyLink.Request) (w : World) :
  (VerifyLink.handler cfg rt co now req w = Throw w
   /\ VerifyLink.method req = "POST" /\ supabase cfg = true
   /\ VerifyLink.req_body req = None)
  \/ ((VerifyLink.method req <> "POST" \/ supabase cfg = false
       \/ VerifyLink.req_body req <> None)
      /\ exists r w',
           VerifyLink.handler cfg rt co now req w = Ok r w'
           /\ ((w' = w /\ VerifyLink.status r <> 200%nat)
               \/ exists f c wa sig u recovered,
                    VerifyLink.req_body req = Some f
                    /\ VerifyLink.code f = Some c
                    /\ VerifyLink.walletAddress f = Some wa
                    /\ VerifyLink.signature f = Some sig
                    /\ filter (Db.by_link_code c) (users (db w)) = [u]
                    /\ VerifyLink.expired now u = false
                    /\ verifyMessage rt (VerifyLink.expectedMessage c) sig = Some recovered
                    /\ Js.toLowerCase recovered = Js.toLowerCase wa
                    /\ db w' = Db.set_users
                                 (Db.update_where (Db.by_telegram_id (telegram_id u))
                                                  (VerifyLink.bind_wallet now wa)) (db w))).
Proof.
  destruct (handler_shape cfg rt co now req w)
    as [[r [H [Hs Hn]]] | [[H [Hm [Hc Hb]]] | [f [c [wa [sig [Hb [Hc [Hw [Hg H]]]]]]]]]].
  - right. split; [exact Hn|]. exists r, w. split; [exact H|]. left. now split.
  - left. repeat split; assumption.
  - right. split; [right; right; rewrite Hb; discriminate|].
    rewrite H. unfold try_catch.
    destruct (verify_cases cfg rt co now c wa sig w)
      as [[r [Hv Hs]] | [[Hv _] | [u [recovered [w' [Hf [He [Hm [Hl [Hd Hv]]]]]]]]]].
    + rewrite Hv. exists r, w. split; [reflexivity|]. left. now split.
    + rewrite Hv. eexists. exists w. split; [reflexivity|]. left. split; [reflexivity|].
      simpl. lia.
    + destruct Hv as [Hv|Hv]; rewrite Hv; eexists; exists w';
        (split; [reflexivity|]); right;
        exists f, c, wa, sig, u, recovered; repeat split; assumption.
Qed.

(** X8. Link verification never touches an identity column: row by row,
    [telegram_users] keeps its ids, usernames, creation times, referral
    codes, referrers and notification preferences, and the other four
    tables are untouched, whatever the request. *)
Theorem verify_keeps_identities
  (cfg : Config) (rt : Runtime) (co : Collab) (now : Z)
  (req : VerifyLink.Request) (w : World) :
  Forall2 Spec.same_identity
          (users (db w))
          (users (db (world_of (VerifyLink.handler cfg rt co now req w))))
  /\ alerts (db (world_of (VerifyLink.handler cfg rt co now req w))) = alerts (db w)
  /\ watchlist (db (world_of (VerifyLink.handler cfg rt co now req w))) = watchlist (db w)
  /\ referrals (db (world_of (VerifyLink.handler cfg rt co now req w))) = referrals (db w)
  /\ tickets (db (world_of (VerifyLink.handler cfg rt co now req w))) = tickets (db w).
Proof.
  assert (H : db (world_of (VerifyLink.handler cfg rt co now req w)) = db w
              \/ exists p wa,
                   db (world_of (VerifyLink.handler cfg rt co now req w))
                   = Db.set_users (Db.update_where p (VerifyLink.bind_wallet now wa)) (db w)).
  { destruct (handler_shape cfg rt co now req w)
      as [[r [H _]] | [[H _] | [f [c [wa [sig [Hb [Hc [Hw [Hg H]]]]]]]]]];
      rewrite H; [now left | now left |].
    unfold try_catch.
    destruct (verify_cases cfg rt co now c wa sig w)
      as [[r [Hv Hs]] | [[Hv _] | [u [recovered [w' [Hf [He [Hm [Hl [Hd Hv]]]]]]]]]].
    - rewrite Hv. now left.
    - rewrite Hv. now left.
    - right. exists (Db.by_telegram_id (telegram_id u)), wa.
      destruct Hv as [Hv|Hv]; rewrite Hv; exact Hd. }
  destruct H as [H | [p [wa H]]]; rewrite H.
  - repeat split. apply Forall2_identity_refl.
  - repeat split. apply Forall2_identity_bound.
Qed.

(** X9. When [verifyMessage] throws on the signature (the holder found
    and the code in time), the handler answers 500 "Verification failed"
    and neither binds the wallet nor clears the code. *)
Theorem verify_malformed_signature
  (cfg : Config) (rt : Runtime) (co : Collab) (now : Z)
  (c wa sig : string) (u : TelegramUser) (w : World) :
  supabase cfg = true ->
  Js.truthy c = true -> Js.truthy wa = true -> Js.truthy sig = true ->
  filter (Db.by_link_code c) (users (db w)) = [u] ->
  VerifyLink.expired now u = false ->
  verifyMessage rt (VerifyLink.expectedMessage c) sig = None ->
  VerifyLink.handler cfg rt co now (Spec.link_request c wa sig) w
  = Ok (VerifyLink.mkResponse 500 (VerifyLink.JsonError "Verification failed")) w.
Proof.
  intros Hs Hc Hw Hg Hf He Hv.
  rewrite handler_well_formed by assumption.
  unfold try_catch, VerifyLink.verify, bind, query. rewrite Hf. simpl.
  rewrite He, Hv. reflexivity.
Qed.

Lemma verify_malformed_signature_witness :
  VerifyLink.handler Sample.cfg Sample.rt_throwing Sample.co 500
                     (Spec.link_request "c0de" "0xABCDEF" "garbage")
                     (mkWorld Sample.pending [])
  = Ok (VerifyLink.mkResponse 500 (VerifyLink.JsonError "Verification failed"))
       (mkWorld Sample.pending []).
Proof.
  apply (verify_malformed_signature Sample.cfg Sample.rt_throwing Sample.co 500
           "c0de" "0xABCDEF" "garbage" Sample.holder (mkWorld Sample.pending []));
    reflexivity.
Defined.

(** X10. When the proof is good but the Telegram confirmation cannot be
    delivered, the caller is told 500 "Verification failed" although the
    wallet is bound and the code consumed: the binding update stands, the
    confirmation was handed to the transport, and repeating the request
    answers 404. *)
Theorem verify_bound_despite_transport_failure
  (cfg : Config) (rt : Runtime) (co : Collab) (now : Z)
  (c wa sig recovered : string) (u : TelegramUser) (s : Store) (out : list Outbound) :
  supabase cfg = true ->
  Js.truthy c = true -> Js.truthy wa = true -> Js.truthy sig = true ->
  filter (Db.by_link_code c) (users s) = [u] ->
  VerifyLink.expired now u = false ->
  verifyMessage rt (VerifyLink.expectedMessage c) sig = Some recovered ->
  Js.toLowerCase recovered = Js.toLowerCase wa ->
  Js.truthy (BOT_TOKEN cfg) = true ->
  transport co (mkOut (telegram_id u) (VerifyLink.linked_text wa)) = false ->
  VerifyLink.handler cfg rt co now (Spec.link_request c wa sig) (mkWorld s out)
  = Ok (VerifyLink.mkResponse 500 (VerifyLink.JsonError "Verification failed"))
       (mkWorld (Db.set_users (Db.update_where (Db.by_telegram_id (telegram_id u))
                                               (VerifyLink.bind_wallet now wa)) s)
                (out ++ [mkOut (telegram_id u) (VerifyLink.linked_text wa)]))
  /\ forall now',
       VerifyLink.handler cfg rt co now' (Spec.link_request c wa sig)
         (mkWorld (Db.set_users (Db.update_where (Db.by_telegram_id (telegram_id u))
                                                 (VerifyLink.bind_wallet now wa)) s)
                  (out ++ [mkOut (telegram_id u) (VerifyLink.linked_text wa)]))
       = Ok (VerifyLink.mkResponse 404 (VerifyLink.JsonError "Invalid or expired link code"))
            (mkWorld (Db.set_users (Db.update_where (Db.by_telegram_id (telegram_id u))
                                                    (VerifyLink.bind_wallet now wa)) s)
                     (out ++ [mkOut (telegram_id u) (VerifyLink.linked_text wa)])).
Proof.
  intros Hs Hc Hw Hg Hf He Hv Hm Hb Ht. split.
  - rewrite handler_well_formed by assumption. unfold try_catch.
    erewrite verify_found by eassumption.
    rewrite Hm, String.eqb_refl. simpl. rewrite Hb, Ht. reflexivity.
  - intros now'. rewrite handler_well_formed by assumption.
    unfold try_catch, VerifyLink.verify, bind, query. simpl.
    rewrite (code_cleared now wa c u (users s) Hf). reflexivity.
Qed.

Lemma verify_bound_despite_transport_failure_witness :
  VerifyLink.handler Sample.cfg Sample.rt Sample.co_down 500
                     (Spec.link_request "c0de" "0xABCDEF" "0xabcdef")
                     (mkWorld Sample.pending [])
  = Ok (VerifyLink.mkResponse 500 (VerifyLink.JsonError "Verification failed"))
       (mkWorld (Db.set_users
                   (Db.update_where (Db.by_telegram_id (telegram_id Sample.holder))
                                    (VerifyLink.bind_wallet 500 "0xABCDEF")) Sample.pending)
                ([] ++ [mkOut (telegram_id Sample.holder) (VerifyLink.linked_text "0xABCDEF")]))
  /\ forall now',
       VerifyLink.handler Sample.cfg Sample.rt Sample.co_down now'
         (Spec.link_request "c0de" "0xABCDEF" "0xabcdef")
         (mkWorld (Db.set_users
                     (Db.update_where (Db.by_telegram_id (telegram_id Sample.holder))
                                      (VerifyLink.bind_wallet 500 "0xABCDEF")) Sample.pending)
                  ([] ++ [mkOut (telegram_id Sample.holder)
                                (VerifyLink.linked_text "0xABCDEF")]))
       = Ok (VerifyLink.mkResponse 404 (VerifyLink.JsonError "Invalid or expired link code"))
            (mkWorld (Db.set_users
                        (Db.update_where (Db.by_telegram_id (telegram_id Sample.holder))
                                         (VerifyLink.bind_wallet 500 "0xABCDEF"))
                        Sample.pending)
                     ([] ++ [mkOut (telegram_id Sample.holder)
                                   (VerifyLink.linked_text "0xABCDEF")])).
Proof.
  apply (verify_bound_despite_transport_failure Sample.cfg Sample.rt Sample.co_down 500
           "c0de" "0xABCDEF" "0xabcdef" "0xabcdef" Sample.holder Sample.pending []);
    reflexivity.
Defined.

(** X11. A code that no row holds, or that more than one row holds, is
    answered 404 "Invalid or expired link code" with nothing changed and
    nothing sent, whatever the signature. *)
Theorem verify_unknown_or_ambiguous_code
  (cfg : Config) (rt : Runtime) (co : Collab) (now : Z)
  (c wa sig : string) (w : World) :
  supabase cfg = true ->
  Js.truthy c = true -> Js.truthy wa = true -> Js.truthy sig = true ->
  List.length (filter (Db.by_link_code c) (users (db w))) <> 1%nat ->
  VerifyLink.handler cfg rt co now (Spec.link_request c wa sig) w
  = Ok (VerifyLink.mkResponse 404 (VerifyLink.JsonError "Invalid or expired link code")) w.
Proof.
  intros Hs Hc Hw Hg Hl.
  rewrite handler_well_formed by assumption.
  unfold try_catch, VerifyLink.verify, bind, query.
  destruct (filter (Db.by_link_code c) (users (db w))) as [|u [|u2 l]];
    simpl in *; try reflexivity.
  now contradiction Hl.
Qed.

Lemma verify_unknown_or_ambiguous_code_witness :
  VerifyLink.handler Sample.cfg Sample.rt Sample.co 500
                     (Spec.link_request "other" "0xABCDEF" "0xabcdef")
                     (mkWorld Sample.pending [])
  = Ok (VerifyLink.mkResponse 404 (VerifyLink.JsonError "Invalid or expired link code"))
       (mkWorld Sample.pending []).
Proof.
  apply (verify_unknown_or_ambiguous_code Sample.cfg Sample.rt Sample.co 500
           "other" "0xABCDEF" "0xabcdef" (mkWorld Sample.pending []));
    try reflexivity.
  simpl. discriminate.
Defined.

(* ================================================================== *)
(** ** Issuing a link code and verifying it *)
(* ================================================================== *)

(** [/link] for a participant without a wallet writes the code and its
    expiry on the participant's rows and sends the link. *)
Lemma handleLink_issues
  (cfg : Config) (now : Z) (rnd : nat -> string) (chatId id : Z)
  (user : TelegramUser) (s : Store) (out : list Outbound) :
  supabase cfg = true ->
  falsy_str (wallet_address user) = true ->
  exists t,
    Webhook.handleLink cfg now rnd chatId id user (mkWorld s out)
    = Ok tt (mkWorld
               (Db.set_users
                  (Db.update_where (Db.by_telegram_id id)
                     (Webhook.set_link (Some (Webhook.generateCode rnd 32))
                                       (Some (now + 900000)%Z))) s)
               (out ++ [mkOut chatId t])).
Proof.
  intros Hs Hw. unfold Webhook.handleLink. rewrite Hs, Hw. cbn [negb].
  eexists. reflexivity.
Qed.

(** After the issue the participant's row is the one holder of the code,
    provided no other participant's row held it. *)
Lemma issued_holder (id : Z) (c : string) (e : option Z) (u0 : TelegramUser)
  (l : list TelegramUser) :
  filter (Db.by_telegram_id id) l = [u0] ->
  (forall x, In x l -> Db.by_telegram_id id x = false -> Db.by_link_code c x = false) ->
  filter (Db.by_link_code c)
         (Db.update_where (Db.by_telegram_id id) (Webhook.set_link (Some c) e) l)
  = [Webhook.set_link (Some c) e u0].
Proof.
  intros Hf Ho.
  assert (H : filter (Db.by_link_code c)
                     (Db.update_where (Db.by_telegram_id id) (Webhook.set_link (Some c) e) l)
              = map (Webhook.set_link (Some c) e) (filter (Db.by_telegram_id id) l)).
  { clear Hf. induction l as [|x l IH]; [reflexivity|].
    simpl. destruct (Db.by_telegram_id id x) eqn:Hx.
    - unfold Db.by_link_code at 1. simpl. rewrite String.eqb_refl. simpl.
      f_equal. apply IH. intros y Hy. apply Ho. now right.
    - rewrite (Ho x) by first [now left | exact Hx].
      apply IH. intros y Hy. apply Ho. now right. }
  rewrite H, Hf. reflexivity.
Qed.

(** X12. Issue, then verify in time. After [/link] has issued a code to a
    participant without a wallet (one row, and no other participant's row
    holding the same code), a verification request with that code, made no
    later than fifteen minutes after the issue and signed for the claimed
    address, whose confirmation the transport accepts, answers 200, binds
    the lower-cased address on the participant's row and leaves no row
    holding the code. *)
Theorem link_then_verify
  (cfg : Config) (rt : Runtime) (co : Collab) (now now' : Z) (rnd : nat -> string)
  (chatId id : Z) (user u0 : TelegramUser) (wa sig recovered : string)
  (s : Store) (out : list Outbound) :
  supabase cfg = true ->
  falsy_str (wallet_address user) = true ->
  filter (Db.by_telegram_id id) (users s) = [u0] ->
  (forall x, In x (users s) -> Db.by_telegram_id id x = false ->
             Db.by_link_code (Webhook.generateCode rnd 32) x = false) ->
  Js.truthy (Webhook.generateCode rnd 32) = true ->
  Js.truthy wa = true -> Js.truthy sig = true ->
  (now' <= now + 900000)%Z ->
  verifyMessage rt (VerifyLink.expectedMessage (Webhook.generateCode rnd 32)) sig
  = Some recovered ->
  Js.toLowerCase recovered = Js.toLowerCase wa ->
  transport co (mkOut (telegram_id u0) (VerifyLink.linked_text wa)) = true ->
  exists w1 w2,
    Webhook.handleLink cfg now rnd chatId id user (mkWorld s out) = Ok tt w1
    /\ VerifyLink.handler cfg rt co now'
         (Spec.link_request (Webhook.generateCode rnd 32) wa sig) w1
       = Ok (VerifyLink.mkResponse 200 VerifyLink.JsonSuccess) w2
    /\ In (VerifyLink.bind_wallet now' wa u0) (users (db w2))
    /\ wallet_address (VerifyLink.bind_wallet now' wa u0) = Some (Js.toLowerCase wa)
    /\ filter (Db.by_link_code (Webhook.generateCode rnd 32)) (users (db w2)) = [].
Proof.
  intros Hs Hw Hf Ho Hc Hwa Hg Hle Hv Hm Ht.
  destruct (handleLink_issues cfg now rnd chatId id user s out Hs Hw) as [t Hl].
  pose proof (issued_holder id (Webhook.generateCode rnd 32) (Some (now + 900000)%Z)
                u0 (users s) Hf Ho) as Hh.
  eexists. eexists. split; [exact Hl|].
  assert (He : VerifyLink.expired now'
                 (Webhook.set_link (Some (Webhook.generateCode rnd 32))
                                   (Some (now + 900000)%Z) u0) = false)
    by (unfold VerifyLink.expired; simpl; apply Z.ltb_ge; lia).
  assert (Hrun :
    VerifyLink.handler cfg rt co now'
      (Spec.link_request (Webhook.generateCode rnd 32) wa sig)
      (mkWorld
         (Db.set_users
            (Db.update_where (Db.by_telegram_id id)
               (Webhook.set_link (Some (Webhook.generateCode rnd 32))
                                 (Some (now + 900000)%Z))) s)
         (out ++ [mkOut chatId t]))
    = Ok (VerifyLink.mkResponse 200 VerifyLink.JsonSuccess)
         (mkWorld
            (Db.set_users
               (Db.update_where (Db.by_telegram_id (telegram_id u0))
                                (VerifyLink.bind_wallet now' wa))
               (Db.set_users
                  (Db.update_where (Db.by_telegram_id id)
                     (Webhook.set_link (Some (Webhook.generateCode rnd 32))
                                       (Some (now + 900000)%Z))) s))
            (if Js.truthy (BOT_TOKEN cfg)
             then (out ++ [mkOut chatId t])
                  ++ [mkOut (telegram_id u0) (VerifyLink.linked_text wa)]
             else out ++ [mkOut chatId t]))).
  { rewrite handler_well_formed by assumption. unfold try_catch.
    erewrite verify_found; [| exact Hh | exact He | exact Hv].
    rewrite Hm, String.eqb_refl. simpl. rewrite Ht.
    now destruct (Js.truthy (BOT_TOKEN cfg)). }
  split; [exact Hrun|]. simpl. split; [|split; [reflexivity|]].
  - unfold Db.update_where at 1. apply in_map_iff.
    exists (Webhook.set_link (Some (Webhook.generateCode rnd 32)) (Some (now + 900000)%Z) u0).
    split.
    + simpl. unfold Db.by_telegram_id. now rewrite Z.eqb_refl.
    + destruct (filter_single_in _ _ _ Hh) as [Hin _]. exact Hin.
  - apply (code_cleared now' wa (Webhook.generateCode rnd 32)
             (Webhook.set_link (Some (Webhook.generateCode rnd 32))
                               (Some (now + 900000)%Z) u0)).
    exact Hh.
Qed.

Lemma link_then_verify_witness :
  exists w1 w2,
    Webhook.handleLink Sample.cfg 100 Sample.rnd 7 7 (Sample.user 7 "AAAA0007")
                       (mkWorld Sample.two_users [])
    = Ok tt w1
    /\ VerifyLink.handler Sample.cfg Sample.rt Sample.co 900100
         (Spec.link_request (Webhook.generateCode Sample.rnd 32) "0xABCDEF" "0xabcdef") w1
       = Ok (VerifyLink.mkResponse 200 VerifyLink.JsonSuccess) w2
    /\ In (VerifyLink.bind_wallet 900100 "0xABCDEF" (Sample.user 7 "AAAA0007"))
          (users (db w2))
    /\ wallet_address (VerifyLink.bind_wallet 900100 "0xABCDEF" (Sample.user 7 "AAAA0007"))
       = Some (Js.toLowerCase "0xABCDEF")
    /\ filter (Db.by_link_code (Webhook.generateCode Sample.rnd 32)) (users (db w2)) = [].
Proof.
  apply (link_then_verify Sample.cfg Sample.rt Sample.co 100 900100 Sample.rnd 7 7
           (Sample.user 7 "AAAA0007") (Sample.user 7 "AAAA0007")
           "0xABCDEF" "0xabcdef" "0xabcdef" Sample.two_users []);
    try reflexivity.
  intros x [<-|[<-|[]]] H; first [discriminate H | reflexivity].
Defined.

(** X13. Issue, then verify too late. A request with the issued code made
    more than fifteen minutes after the issue is answered 400 "Link code
    expired"; the code stays on the row and no wallet is bound. *)
Theorem link_then_verify_late
  (cfg : Config) (rt : Runtime) (co : Collab) (now now' : Z) (rnd : nat -> string)
  (chatId id : Z) (user u0 : TelegramUser) (wa sig : string)
  (s : Store) (out : list Outbound) :
  supabase cfg = true ->
  falsy_str (wallet_address user) = true ->
  filter (Db.by_telegram_id id) (users s) = [u0] ->
  (forall x, In x (users s) -> Db.by_telegram_id id x = false ->
             Db.by_link_code (Webhook.generateCode rnd 32) x = false) ->
  Js.truthy (Webhook.generateCode rnd 32) = true ->
  Js.truthy wa = true -> Js.truthy sig = true ->
  (now + 900000 < now')%Z ->
  exists w1,
    Webhook.handleLink cfg now rnd chatId id user (mkWorld s out) = Ok tt w1
    /\ VerifyLink.handler cfg rt co now'
         (Spec.link_request (Webhook.generateCode rnd 32) wa sig) w1
       = Ok (VerifyLink.mkResponse 400 (VerifyLink.JsonError "Link code expired")) w1
    /\ filter (Db.by_link_code (Webhook.generateCode rnd 32)) (users (db w1))
       = [Webhook.set_link (Some (Webhook.generateCode rnd 32)) (Some (now + 900000)%Z) u0].
Proof.
  intros Hs Hw Hf Ho Hc Hwa Hg Hlt.
  destruct (handleLink_issues cfg now rnd chatId id user s out Hs Hw) as [t Hl].
  pose proof (issued_holder id (Webhook.generateCode rnd 32) (Some (now + 900000)%Z)
                u0 (users s) Hf Ho) as Hh.
  eexists. split; [exact Hl|]. split; [|exact Hh].
  rewrite handler_well_formed by assumption.
  unfold try_catch, VerifyLink.verify, bind, query. simpl. rewrite Hh. simpl.
  unfold VerifyLink.expired. simpl.
  apply Z.ltb_lt in Hlt. rewrite Hlt. reflexivity.
Qed.

Lemma link_then_verify_late_witness :
  exists w1,
    Webhook.handleLink Sample.cfg 100 Sample.rnd 7 7 (Sample.user 7 "AAAA0007")
                       (mkWorld Sample.two_users [])
    = Ok tt w1
    /\ VerifyLink.handler Sample.cfg Sample.rt Sample.co 900101
         (Spec.link_request (Webhook.generateCode Sample.rnd 32) "0xABCDEF" "0xabcdef") w1
       = Ok (VerifyLink.mkResponse 400 (VerifyLink.JsonError "Link code expired")) w1
    /\ filter (Db.by_link_code (Webhook.generateCode Sample.rnd 32)) (users (db w1))
       = [Webhook.set_link (Some (Webhook.generateCode Sample.rnd 32))
                           (Some (100 + 900000)%Z) (Sample.user 7 "AAAA0007")].
Proof.
  apply (link_then_verify_late Sample.cfg Sample.rt Sample.co 100 900101 Sample.rnd 7 7
           (Sample.user 7 "AAAA0007") (Sample.user 7 "AAAA0007")
           "0xABCDEF" "0xabcdef" Sample.two_users []);
    try reflexivity.
  intros x [<-|[<-|[]]] H; first [discriminate H | reflexivity].
Defined.

(** X14. Issuing again invalidates the earlier code. After a second
    [/link] has written a different code on the participant's rows, a
    verification request with the first code is answered 404 (no other
    participant's row holding it), however good its signature. *)
Theorem relink_invalidates_old_code
  (cfg : Config) (rt : Runtime) (co : Collab) (now1 now2 now' : Z)
  (rnd1 rnd2 : nat -> string) (chatId id : Z) (user : TelegramUser) (wa sig : string)
  (s : Store) (out : list Outbound) :
  supabase cfg = true ->
  falsy_str (wallet_address user) = true ->
  (forall x, In x (users s) -> Db.by_telegram_id id x = false ->
             Db.by_link_code (Webhook.generateCode rnd1 32) x = false) ->
  Webhook.generateCode rnd1 32 <> Webhook.generateCode rnd2 32 ->
  Js.truthy (Webhook.generateCode rnd1 32) = true ->
  Js.truthy wa = true -> Js.truthy sig = true ->
  exists w1 w2,
    Webhook.handleLink cfg now1 rnd1 chatId id user (mkWorld s out) = Ok tt w1
    /\ Webhook.handleLink cfg now2 rnd2 chatId id user w1 = Ok tt w2
    /\ VerifyLink.handler cfg rt co now'
         (Spec.link_request (Webhook.generateCode rnd1 32) wa sig) w2
       = Ok (VerifyLink.mkResponse 404 (VerifyLink.JsonError "Invalid or expired link code"))
            w2.
Proof.
  intros Hs Hw Ho Hne Hc Hwa Hg.
  destruct (handleLink_issues cfg now1 rnd1 chatId id user s out Hs Hw) as [t1 Hl1].
  destruct (handleLink_issues cfg now2 rnd2 chatId id user
              (Db.set_users
                 (Db.update_where (Db.by_telegram_id id)
                    (Webhook.set_link (Some (Webhook.generateCode rnd1 32))
                                      (Some (now1 + 900000)%Z))) s)
              (out ++ [mkOut chatId t1]) Hs Hw) as [t2 Hl2].
  eexists. eexists. split; [exact Hl1|]. split; [exact Hl2|].
  rewrite handler_well_formed by assumption.
  unfold try_catch, VerifyLink.verify, bind, query. simpl.
  rewrite filter_none; [reflexivity|].
  intros x Hx. unfold Db.update_where in Hx.
  apply in_map_iff in Hx. destruct Hx as [y [<- Hy]].
  apply in_map_iff in Hy. destruct Hy as [z [<- Hz]].
  destruct (Db.by_telegram_id id z) eqn:Hid.
  - assert (Hid' : Db.by_telegram_id id
                     (Webhook.set_link (Some (Webhook.generateCode rnd1 32))
                                       (Some (now1 + 900000)%Z) z) = true) by exact Hid.
    rewrite Hid'. unfold Db.by_link_code. simpl.
    apply String.eqb_neq. congruence.
  - rewrite Hid. now apply Ho.
Qed.

Lemma relink_invalidates_old_code_witness :
  exists w1 w2,
    Webhook.handleLink Sample.cfg 100 Sample.rnd 7 7 (Sample.user 7 "AAAA0007")
                       (mkWorld Sample.two_users [])
    = Ok tt w1
    /\ Webhook.handleLink Sample.cfg 200 Sample.rnd2 7 7 (Sample.user 7 "AAAA0007") w1
       = Ok tt w2
    /\ VerifyLink.handler Sample.cfg Sample.rt Sample.co 300
         (Spec.link_request (Webhook.generateCode Sample.rnd 32) "0xABCDEF" "0xabcdef") w2
       = Ok (VerifyLink.mkResponse 404 (VerifyLink.JsonError "Invalid or expired link code"))
            w2.
Proof.
  apply (relink_invalidates_old_code Sample.cfg Sample.rt Sample.co 100 200 300
           Sample.rnd Sample.rnd2 7 7 (Sample.user 7 "AAAA0007") "0xABCDEF" "0xabcdef"
           Sample.two_users []);
    try reflexivity.
  - intros x [<-|[<-|[]]] H; first [discriminate H | reflexivity].
  - discriminate.
Defined.

(* ================================================================== *)
(** ** More on the webhook *)
(* ================================================================== *)

Section WebhookShape.

Variable cfg : Config.
Variable rt : Runtime.
Variable co : Collab.
Variable now : Z.
Variable rnd : nat -> string.

(** The handler on a POST that carries text, for a configured bot. *)
Lemma handler_on_text (m : Webhook.Message) (rawText : string) (w : World) :
  Js.truthy (BOT_TOKEN cfg) = true ->
  Webhook.msg_text m = Some rawText ->
  Js.truthy rawText = true ->
  Webhook.handler cfg rt co now rnd (Spec.text_update m) w
  = match Webhook.getOrCreateUser cfg now rnd (Webhook.from_id m)
                                  (Webhook.from_username m) w with
    | Ok (Some u) w1 =>
        match Webhook.dispatch cfg rt co now rnd (Webhook.chat m) (Webhook.from_id m) u
                               (Js.trim rawText)
                               (fst (Webhook.parse_command (Js.trim rawText)))
                               (snd (Webhook.parse_command (Js.trim rawText))) w1 with
        | Ok _ w2 => Ok Webhook.ack w2
        | Throw w2 => Ok Webhook.ack w2
        end
    | Ok None w1 =>
        Ok Webhook.ack
           (mkWorld (db w1) (outbox w1 ++ [mkOut (Webhook.chat m) "Service unavailable."]))
    | Throw w1 => Ok Webhook.ack w1
    end.
Proof.
  intros Hb Hm Hr. unfold Webhook.handler, Spec.text_update.
  cbn [Webhook.method Webhook.update_message]. rewrite Hb, Hm, Hr.
  cbn [String.eqb Ascii.eqb Bool.eqb negb].
  unfold try_catch, Webhook.on_text, bind at 1.
  destruct (Webhook.getOrCreateUser cfg now rnd (Webhook.from_id m)
                                    (Webhook.from_username m) w) as [[u|] w1|w1];
    try reflexivity.
  destruct (Webhook.parse_command (Js.trim rawText)) as [cmd args].
  cbn [fst snd]. unfold bind.
  destruct (Webhook.dispatch cfg rt co now rnd (Webhook.chat m) (Webhook.from_id m) u
                             (Js.trim rawText) cmd args w1); reflexivity.
Qed.

(** Identity resolution for a participant the store knows under the same
    username reads and returns the row. *)
Lemma getOrCreateUser_known id uname (e : TelegramUser) (w : World) :
  supabase cfg = true ->
  single (filter (Db.by_telegram_id id) (users (db w))) = Some e ->
  Webhook.username_changed uname e = false ->
  Webhook.getOrCreateUser cfg now rnd id uname w = Ok (Some e) w.
Proof.
  intros Hs He Hu. unfold Webhook.getOrCreateUser. rewrite Hs. cbn [negb].
  unfold bind at 1, query. rewrite He. unfold bind, ret. now rewrite Hu.
Qed.

End WebhookShape.

(** X15. A POST to a configured bot is always acknowledged with 200
    [{ok: true}]: no message text, no command and no fault inside a
    command handler makes the webhook answer anything else or throw. *)
Theorem webhook_always_acknowledges
  (cfg : Config) (rt : Runtime) (co : Collab) (now : Z) (rnd : nat -> string)
  (req : Webhook.Request) (w : World) :
  Webhook.method req = "POST" ->
  Js.truthy (BOT_TOKEN cfg) = true ->
  exists w', Webhook.handler cfg rt co now rnd req w = Ok Webhook.ack w'.
Proof.
  intros Hm Hb. unfold Webhook.handler. rewrite Hm, Hb. simpl. unfold try_catch.
  destruct (Webhook.update_message req) as [m|]; [|eexists; reflexivity].
  destruct (Webhook.msg_text m) as [rawText|]; [|eexists; reflexivity].
  destruct (Js.truthy rawText); [|eexists; reflexivity].
  unfold Webhook.on_text, bind.
  destruct (Webhook.getOrCreateUser cfg now rnd (Webhook.from_id m)
                                    (Webhook.from_username m) w) as [[u|] w1|w1];
    try (eexists; reflexivity).
  destruct (Webhook.parse_command (Js.trim rawText)) as [cmd args].
  destruct (Webhook.dispatch cfg rt co now rnd (Webhook.chat m) (Webhook.from_id m) u
                             (Js.trim rawText) cmd args w1);
    eexists; reflexivity.
Qed.

Lemma webhook_always_acknowledges_witness :
  exists w',
    Webhook.handler Sample.cfg Sample.rt Sample.co 5 Sample.rnd
                    (Spec.text_update Sample.delete_what) (mkWorld Sample.five_alerts [])
    = Ok Webhook.ack w'.
Proof.
  apply (webhook_always_acknowledges Sample.cfg Sample.rt Sample.co 5 Sample.rnd
           (Spec.text_update Sample.delete_what) (mkWorld Sample.five_alerts []));
    reflexivity.
Defined.

(** X16. [/deletealert] with an argument that is no number gets no reply
    at all: the index is [NaN], both range tests pass it, reading the
    alert throws, and the webhook swallows the fault. For a known
    participant whose username is unchanged the update leaves store and
    outbox exactly as they were. *)
Theorem deletealert_without_number_is_silent
  (cfg : Config) (rt : Runtime) (co : Collab) (now : Z) (rnd : nat -> string)
  (m : Webhook.Message) (rawText a : string) (e : TelegramUser) (w : World) :
  Js.truthy (BOT_TOKEN cfg) = true ->
  supabase cfg = true ->
  Webhook.msg_text m = Some rawText ->
  Js.truthy rawText = true ->
  single (filter (Db.by_telegram_id (Webhook.from_id m)) (users (db w))) = Some e ->
  Webhook.username_changed (Webhook.from_username m) e = false ->
  Webhook.parse_command (Js.trim rawText) = ("/deletealert", a) ->
  parseInt rt a = None ->
  Webhook.handler cfg rt co now rnd (Spec.text_update m) w = Ok Webhook.ack w.
Proof.
  intros Hb Hs Hm Hr He Hu Hp Hi.
  rewrite (handler_on_text cfg rt co now rnd m rawText w Hb Hm Hr).
  rewrite (getOrCreateUser_known cfg now rnd _ _ e w Hs He Hu).
  rewrite Hp. cbn [fst snd]. unfold Webhook.dispatch.
  cbn [String.eqb Ascii.eqb Bool.eqb orb].
  unfold Webhook.handleDeleteAlert. rewrite Hs. cbn [negb].
  unfold bind, query. rewrite Hi. reflexivity.
Qed.

Lemma deletealert_without_number_is_silent_witness :
  Webhook.handler Sample.cfg Sample.rt Sample.co 5 Sample.rnd
                  (Spec.text_update Sample.delete_what) (mkWorld Sample.five_alerts [])
  = Ok Webhook.ack (mkWorld Sample.five_alerts []).
Proof.
  apply (deletealert_without_number_is_silent Sample.cfg Sample.rt Sample.co 5 Sample.rnd
           Sample.delete_what "/deletealert soon" "soon" (Sample.user 42 "AAAA0001")
           (mkWorld Sample.five_alerts []));
    reflexivity.
Defined.

(** X17. [/deletealert k] with [k] below 1 or above the number of the
    participant's active alerts is answered "Alert not found." and
    deletes nothing. *)
Theorem deletealert_out_of_range
  (cfg : Config) (rt : Runtime) (chatId id : Z) (dargs : string) (k : Z)
  (s : Store) (out : list Outbound) :
  supabase cfg = true ->
  parseInt rt dargs = Some k ->
  (k < 1 \/ Z.of_nat (Webhook.count_active id s) < k)%Z ->
  Webhook.handleDeleteAlert cfg rt chatId id dargs (mkWorld s out)
  = Ok tt (mkWorld s (out ++ [mkOut chatId "Alert not found."])).
Proof.
  intros Hs Hp Hk. unfold Webhook.handleDeleteAlert. rewrite Hs. cbn [negb].
  unfold bind at 1, query. cbv beta iota. cbn [db]. rewrite Hp.
  unfold Webhook.count_active in Hk.
  assert (Hc : ((k - 1 <? 0)%Z
                || (Z.of_nat (List.length (filter (Db.active_of id) (alerts s)))
                    <=? k - 1)%Z) = true).
  { apply orb_true_iff. destruct Hk as [Hk|Hk].
    - left. apply Z.ltb_lt. lia.
    - right. apply Z.leb_le. lia. }
  rewrite Hc. reflexivity.
Qed.

Lemma deletealert_out_of_range_witness :
  Webhook.handleDeleteAlert Sample.cfg Sample.rt 42 42 "6" (mkWorld Sample.five_alerts [])
  = Ok tt (mkWorld Sample.five_alerts ([] ++ [mkOut 42 "Alert not found."])).
Proof.
  apply (deletealert_out_of_range Sample.cfg Sample.rt 42 42 "6" 6 Sample.five_alerts []);
    try reflexivity.
  right. reflexivity.
Defined.

Lemma filter_all {A} (p : A -> bool) (l : list A) :
  (forall x, In x l -> p x = true) -> filter p l = l.
Proof.
  induction l as [|x l IH]; intros H; simpl; [reflexivity|].
  rewrite (H x) by now left. f_equal. apply IH. intros y Hy. apply H. now right.
Qed.

(** Removing the one row that carries a key, counted under [p]. *)
Lemma remove_keyed_count {A} (f : A -> nat) (p : A -> bool) (l : list A) (a : A) :
  NoDup (map f l) -> In a l -> p a = true ->
  S (List.length (filter p (filter (fun x => negb (f x =? f a)%nat) l)))
  = List.length (filter p l).
Proof.
  induction l as [|y l IH]; intros Hn Hin Hp; [destruct Hin|].
  simpl in Hn. apply NoDup_cons_iff in Hn. destruct Hn as [Hy Hn].
  destruct Hin as [->|Hin].
  - simpl. rewrite Nat.eqb_refl, Hp. simpl. f_equal. f_equal. f_equal.
    apply filter_all. intros x Hx. apply negb_true_iff. apply Nat.eqb_neq.
    intros E. apply Hy. rewrite <- E. now apply in_map.
  - simpl. assert (Hne : (f y =? f a)%nat = false).
    { apply Nat.eqb_neq. intros E. apply Hy. rewrite E. now apply in_map. }
    rewrite Hne. simpl. destruct (p y); simpl; rewrite <- (IH Hn Hin Hp); reflexivity.
Qed.

Lemma NoDup_map_filter {A} (f : A -> nat) (q : A -> bool) (l : list A) :
  NoDup (map f l) -> NoDup (map f (filter q l)).
Proof.
  induction l as [|y l IH]; intros Hn; simpl; [constructor|].
  simpl in Hn. apply NoDup_cons_iff in Hn. destruct Hn as [Hy Hn].
  destruct (q y); [|now apply IH].
  simpl. constructor; [|now apply IH].
  intros Hin. apply Hy. apply in_map_iff in Hin. destruct Hin as [x [E Hx]].
  apply filter_In in Hx. rewrite <- E. apply in_map. tauto.
Qed.

Lemma keyed_unique {A} (f : A -> nat) (l : list A) (a x : A) :
  NoDup (map f l) -> In a l -> In x l -> f x = f a -> x = a.
Proof.
  induction l as [|y l IH]; intros Hn Ha Hx E; [destruct Ha|].
  simpl in Hn. apply NoDup_cons_iff in Hn. destruct Hn as [Hy Hn].
  destruct Ha as [->|Ha], Hx as [->|Hx]; try reflexivity.
  - exfalso. apply Hy. rewrite <- E. now apply in_map.
  - exfalso. apply Hy. rewrite E. now apply in_map.
  - now apply IH.
Qed.

(** X18. With distinct alert ids, [/deletealert k] for [k] in range
    removes exactly the participant's k-th active alert: that row is gone,
    every other row of the table stays, the table is one row shorter, the
    participant's active count drops by one, and the ids stay distinct. *)
Theorem deletealert_removes_exactly_one
  (cfg : Config) (rt : Runtime) (chatId id : Z) (dargs : string) (k : Z)
  (s : Store) (out : list Outbound) :
  supabase cfg = true ->
  parseInt rt dargs = Some k ->
  (1 <= k <= Z.of_nat (Webhook.count_active id s))%Z ->
  NoDup (map alert_id (alerts s)) ->
  exists a s1,
    nth_error (filter (Db.active_of id) (alerts s)) (Z.to_nat (k - 1)) = Some a
    /\ Webhook.handleDeleteAlert cfg rt chatId id dargs (mkWorld s out)
       = Ok tt (mkWorld s1 (out ++ [mkOut chatId "Alert deleted."]))
    /\ (forall x, In x (alerts s1) <-> In x (alerts s) /\ x <> a)
    /\ S (List.length (alerts s1)) = List.length (alerts s)
    /\ S (Webhook.count_active id s1) = Webhook.count_active id s
    /\ NoDup (map alert_id (alerts s1))
    /\ users s1 = users s /\ watchlist s1 = watchlist s.
Proof.
  intros Hs Hp Hk Hn.
  destruct (handleDeleteAlert_in_range cfg rt Hs chatId id dargs k s out Hp Hk)
    as [a [Hnth Hd]].
  exists a. eexists. split; [exact Hnth|]. split; [exact Hd|].
  assert (Hin : In a (filter (Db.active_of id) (alerts s)))
    by (eapply nth_error_In; exact Hnth).
  apply filter_In in Hin. destruct Hin as [Hin Hact].
  simpl. unfold Db.delete_where, Db.by_alert_id. repeat split.
  - apply filter_In in H. tauto.
  - intros E. subst x. apply filter_In in H. destruct H as [_ H].
    now rewrite Nat.eqb_refl in H.
  - intros [Hx Hne]. apply filter_In. split; [exact Hx|].
    apply negb_true_iff. apply Nat.eqb_neq. intros E. apply Hne.
    now apply (keyed_unique alert_id (alerts s) a x Hn Hin Hx).
  - rewrite <- (filter_all (fun _ => true)
                  (filter (fun r => negb (alert_id r =? alert_id a)%nat) (alerts s)))
      by reflexivity.
    rewrite (remove_keyed_count alert_id (fun _ => true) (alerts s) a Hn Hin eq_refl).
    f_equal. apply filter_all. reflexivity.
  - unfold Webhook.count_active. simpl.
    apply (remove_keyed_count alert_id (Db.active_of id) (alerts s) a Hn Hin Hact).
  - now apply NoDup_map_filter.
Qed.

Lemma deletealert_removes_exactly_one_witness :
  exists a s1,
    nth_error (filter (Db.active_of 42) (alerts Sample.five_alerts)) (Z.to_nat (2 - 1))
    = Some a
    /\ Webhook.handleDeleteAlert Sample.cfg Sample.rt 42 42 "2"
                                 (mkWorld Sample.five_alerts [])
       = Ok tt (mkWorld s1 ([] ++ [mkOut 42 "Alert deleted."]))
    /\ (forall x, In x (alerts s1) <-> In x (alerts Sample.five_alerts) /\ x <> a)
    /\ S (List.length (alerts s1)) = List.length (alerts Sample.five_alerts)
    /\ S (Webhook.count_active 42 s1) = Webhook.count_active 42 Sample.five_alerts
    /\ NoDup (map alert_id (alerts s1))
    /\ users s1 = users Sample.five_alerts /\ watchlist s1 = watchlist Sample.five_alerts.
Proof.
  apply (deletealert_removes_exactly_one Sample.cfg Sample.rt 42 42 "2" 2
           Sample.five_alerts []);
    try reflexivity.
  - simpl. lia.
  - simpl. repeat constructor; simpl; intuition discriminate.
Defined.

Section QuotaInvariants.

Variable cfg : Config.
Variable rt : Runtime.

(** All that [/alert] can do to the store. *)
Lemma handleAlert_cases chatId id args (s : Store) out :
  db (world_of (Webhook.handleAlert cfg rt chatId id args (mkWorld s out))) = s
  \/ ((Webhook.count_active id s < 5)%nat
      /\ exists kind target,
           (kind = "above" \/ kind = "below")
           /\ db (world_of (Webhook.handleAlert cfg rt chatId id args (mkWorld s out)))
              = Db.set_alerts
                  (fun l => (l ++ [mkAlert (Db.fresh_alert_id l) id kind target
                                           false None])%list) s).
Proof.
  unfold Webhook.handleAlert.
  destruct (negb (supabase cfg)); [now left|].
  cbv beta iota zeta.
  destruct (List.length (Js.split_sp args) <? 2)%nat; [now left|].
  destruct (parseFloat rt (nth 1 (Js.split_sp args) "")) as [target|]; [|now left].
  destruct ((Js.toLowerCase (nth 0 (Js.split_sp args) "") =? "above")
            || (Js.toLowerCase (nth 0 (Js.split_sp args) "") =? "below")) eqn:Hk;
    cbn [negb]; [|now left].
  unfold bind, query. cbv beta iota. cbn [db].
  destruct (5 <=? Webhook.count_active id s)%nat eqn:Hc; [now left|].
  unfold Db.insert_alert.
  destruct (Db.fits_decimal target); [|now left].
  right. split; [now apply Nat.leb_gt|].
  exists (Js.toLowerCase (nth 0 (Js.split_sp args) "")), (Db.store_decimal target).
  split; [|reflexivity].
  apply orb_true_iff in Hk. destruct Hk as [Hk|Hk]; apply String.eqb_eq in Hk; tauto.
Qed.

(** All that [/watch] can do to the store. *)
Lemma handleWatch_cases chatId id args (s : Store) out :
  db (world_of (Webhook.handleWatch cfg chatId id args (mkWorld s out))) = s
  \/ ((Webhook.count_watch id s < 10)%nat
      /\ Js.startsWith (nth 0 (Js.split_sp args) "") "0x" = true
      /\ String.length (nth 0 (Js.split_sp args) "") = 42%nat
      /\ db (world_of (Webhook.handleWatch cfg chatId id args (mkWorld s out)))
         = Db.upsert_watch
             (mkWatch id (Js.toLowerCase (nth 0 (Js.split_sp args) ""))
                      (Js.or_null (Js.join_sp (tl (Js.split_sp args))))) s).
Proof.
  unfold Webhook.handleWatch.
  destruct (negb (supabase cfg)); [now left|].
  cbv beta iota zeta.
  destruct (Js.startsWith (nth 0 (Js.split_sp args) "") "0x") eqn:Hp; cbn [negb orb];
    [|now left].
  destruct (String.length (nth 0 (Js.split_sp args) "") =? 42)%nat eqn:Hl; cbn [negb];
    [|now left].
  unfold bind, query. cbv beta iota. cbn [db].
  destruct (10 <=? Webhook.count_watch id s)%nat eqn:Hc; [now left|].
  right. split; [now apply Nat.leb_gt|]. split; [reflexivity|].
  split; [now apply Nat.eqb_eq|]. reflexivity.
Qed.

End QuotaInvariants.

Lemma filter_map_fixed {A} (p : A -> bool) (g : A -> A) (l : list A) :
  (forall x, p x = true -> g x = x) ->
  (forall x, p x = false -> p (g x) = false) ->
  filter p (map g l) = filter p l.
Proof.
  intros H1 H2. induction l as [|x l IH]; [reflexivity|].
  simpl. destruct (p x) eqn:Hx.
  - rewrite (H1 x Hx), Hx. now rewrite IH.
  - now rewrite (H2 x Hx).
Qed.

(** The entries of the other participants. *)
Lemma upsert_keeps_others id (e : WatchEntry) (s : Store) :
  watch_owner e = id ->
  filter (fun x => negb (Db.watch_of id x)) (watchlist (Db.upsert_watch e s))
  = filter (fun x => negb (Db.watch_of id x)) (watchlist s).
Proof.
  intros Ho. unfold Db.upsert_watch.
  destruct (existsb (Db.watch_pair (watch_owner e) (watch_address e)) (watchlist s)).
  - reflexivity.
  - simpl. rewrite filter_app. simpl.
    unfold Db.watch_of at 2. rewrite Ho, Z.eqb_refl. simpl. apply app_nil_r.
Qed.

Lemma upsert_count id (e : WatchEntry) (s : Store) :
  watch_owner e = id ->
  (Webhook.count_watch id (Db.upsert_watch e s) <= S (Webhook.count_watch id s))%nat.
Proof.
  intros Ho. unfold Db.upsert_watch, Webhook.count_watch.
  destruct (existsb (Db.watch_pair (watch_owner e) (watch_address e)) (watchlist s)).
  - lia.
  - simpl. rewrite filter_app, length_app. simpl.
    destruct (Db.watch_of id e); simpl; lia.
Qed.

(** X19. [/alert] keeps the quota and the table's shape. Whatever the
    argument string, the handler either leaves the store alone or appends
    one untriggered alert of kind [above] or [below] for the sender, and
    only when the sender had fewer than five active alerts: a participant
    at or below five stays at or below five, and every other
    participant's active count is unchanged. *)
Theorem alert_never_exceeds_quota
  (cfg : Config) (rt : Runtime) (chatId id : Z) (args : string)
  (s : Store) (out : list Outbound) :
  (Webhook.count_active id s <= 5)%nat ->
  (Webhook.count_active id
     (db (world_of (Webhook.handleAlert cfg rt chatId id args (mkWorld s out)))) <= 5)%nat
  /\ (forall id', id' <> id ->
        Webhook.count_active id'
          (db (world_of (Webhook.handleAlert cfg rt chatId id args (mkWorld s out))))
        = Webhook.count_active id' s)
  /\ (alerts (db (world_of (Webhook.handleAlert cfg rt chatId id args (mkWorld s out))))
      = alerts s
      \/ exists kind target,
           (kind = "above" \/ kind = "below")
           /\ alerts (db (world_of (Webhook.handleAlert cfg rt chatId id args
                                                        (mkWorld s out))))
              = (alerts s ++ [mkAlert (Db.fresh_alert_id (alerts s)) id kind target
                                      false None])%list).
Proof.
  intros Hle.
  destruct (handleAlert_cases cfg rt chatId id args s out)
    as [H | [Hlt [kind [target [Hk H]]]]]; rewrite H.
  - repeat split; [exact Hle | now left].
  - unfold Webhook.count_active. simpl. repeat split.
    + rewrite filter_app, length_app. simpl.
      unfold Db.active_of at 2. simpl. rewrite Z.eqb_refl. simpl.
      unfold Webhook.count_active in Hlt. lia.
    + intros id' Hne. rewrite filter_app, length_app. simpl.
      unfold Db.active_of at 2. simpl.
      assert (E : (id =? id')%Z = false) by (apply Z.eqb_neq; congruence).
      rewrite E. simpl. lia.
    + right. exists kind, target. now split.
Qed.

Lemma alert_never_exceeds_quota_witness :
  (Webhook.count_active 42
     (db (world_of (Webhook.handleAlert Sample.cfg Sample.rt 42 42 "below 3"
                                        (mkWorld Sample.five_alerts [])))) <= 5)%nat
  /\ (forall id', id' <> 42%Z ->
        Webhook.count_active id'
          (db (world_of (Webhook.handleAlert Sample.cfg Sample.rt 42 42 "below 3"
                                             (mkWorld Sample.five_alerts []))))
        = Webhook.count_active id' Sample.five_alerts)
  /\ (alerts (db (world_of (Webhook.handleAlert Sample.cfg Sample.rt 42 42 "below 3"
                                                (mkWorld Sample.five_alerts []))))
      = alerts Sample.five_alerts
      \/ exists kind target,
           (kind = "above" \/ kind = "below")
           /\ alerts (db (world_of (Webhook.handleAlert Sample.cfg Sample.rt 42 42 "below 3"
                                                        (mkWorld Sample.five_alerts []))))
              = (alerts Sample.five_alerts
                 ++ [mkAlert (Db.fresh_alert_id (alerts Sample.five_alerts)) 42 kind target
                             false None])%list).
Proof.
  apply (alert_never_exceeds_quota Sample.cfg Sample.rt 42 42 "below 3"
           Sample.five_alerts []).
  vm_compute. lia.
Defined.

(** X20. [/watch] keeps the quota. Whatever the argument string, a
    participant with at most ten watchlist entries has at most ten
    afterwards, the entries of every other participant are untouched, and
    nothing is written unless the address starts with [0x] and has 42
    characters. *)
Theorem watch_never_exceeds_quota
  (cfg : Config) (chatId id : Z) (args : string) (s : Store) (out : list Outbound) :
  (Webhook.count_watch id s <= 10)%nat ->
  (Webhook.count_watch id
     (db (world_of (Webhook.handleWatch cfg chatId id args (mkWorld s out)))) <= 10)%nat
  /\ filter (fun x => negb (Db.watch_of id x))
            (watchlist (db (world_of (Webhook.handleWatch cfg chatId id args
                                                          (mkWorld s out)))))
     = filter (fun x => negb (Db.watch_of id x)) (watchlist s)
  /\ (db (world_of (Webhook.handleWatch cfg chatId id args (mkWorld s out))) = s
      \/ (Js.startsWith (nth 0 (Js.split_sp args) "") "0x" = true
          /\ String.length (nth 0 (Js.split_sp args) "") = 42%nat)).
Proof.
  intros Hle.
  destruct (handleWatch_cases cfg chatId id args s out)
    as [H | [Hlt [Hp [Hl H]]]]; rewrite H.
  - repeat split; [exact Hle | now left].
  - repeat split.
    + pose proof (upsert_count id
                    (mkWatch id (Js.toLowerCase (nth 0 (Js.split_sp args) ""))
                             (Js.or_null (Js.join_sp (tl (Js.split_sp args))))) s eq_refl).
      lia.
    + now apply upsert_keeps_others.
    + right. now split.
Qed.

Lemma watch_never_exceeds_quota_witness :
  (Webhook.count_watch 42
     (db (world_of (Webhook.handleWatch Sample.cfg 42 42 (Sample.addr "a")
                                        (mkWorld Sample.ten_watched [])))) <= 10)%nat
  /\ filter (fun x => negb (Db.watch_of 42 x))
            (watchlist (db (world_of (Webhook.handleWatch Sample.cfg 42 42 (Sample.addr "a")
                                                          (mkWorld Sample.ten_watched [])))))
     = filter (fun x => negb (Db.watch_of 42 x)) (watchlist Sample.ten_watched)
  /\ (db (world_of (Webhook.handleWatch Sample.cfg 42 42 (Sample.addr "a")
                                        (mkWorld Sample.ten_watched [])))
      = Sample.ten_watched
      \/ (Js.startsWith (nth 0 (Js.split_sp (Sample.addr "a")) "") "0x" = true
          /\ String.length (nth 0 (Js.split_sp (Sample.addr "a")) "") = 42%nat)).
Proof.
  apply (watch_never_exceeds_quota Sample.cfg 42 42 (Sample.addr "a") Sample.ten_watched []).
  vm_compute. lia.
Defined.

Lemma existsb_filter_negb {A} (p : A -> bool) (l : list A) :
  existsb p (filter (fun x => negb (p x)) l) = false.
Proof.
  induction l as [|x l IH]; [reflexivity|].
  simpl. destruct (p x) eqn:Hx; simpl; [exact IH | now rewrite Hx].
Qed.

Lemma watch_pair_self id addr nick :
  Db.watch_pair id addr (mkWatch id addr nick) = true.
Proof. unfold Db.watch_pair. simpl. now rewrite Z.eqb_refl, String.eqb_refl. Qed.

(** What the upsert leaves once the pair is deleted again. *)
Lemma delete_after_upsert id addr nick (s : Store) :
  Db.delete_where (Db.watch_pair id addr)
                  (watchlist (Db.upsert_watch (mkWatch id addr nick) s))
  = Db.delete_where (Db.watch_pair id addr) (watchlist s).
Proof.
  unfold Db.upsert_watch, Db.delete_where. simpl.
  destruct (existsb (Db.watch_pair id addr) (watchlist s)); simpl.
  - reflexivity.
  - rewrite filter_app. simpl. rewrite watch_pair_self. simpl. apply app_nil_r.
Qed.

Lemma upsert_present id addr nick (s : Store) :
  existsb (Db.watch_pair id addr) (watchlist (Db.upsert_watch (mkWatch id addr nick) s))
  = true.
Proof.
  unfold Db.upsert_watch. simpl.
  destruct (existsb (Db.watch_pair id addr) (watchlist s)) eqn:He; simpl.
  - exact He.
  - rewrite existsb_app. simpl. rewrite watch_pair_self. apply orb_true_r.
Qed.

(** X21. Watch, then unwatch. Below the quota, [/watch] with a
    well-formed address puts the lower-cased address on the sender's
    list; a following [/unwatch] with the same address in any letter case
    takes it off again, and the list is then the original one without
    that address (the original list itself when the address was new). *)
Theorem watch_then_unwatch
  (cfg : Config) (chatId id : Z) (args uargs : string) (s : Store) (out : list Outbound) :
  supabase cfg = true ->
  Js.startsWith (nth 0 (Js.split_sp args) "") "0x" = true ->
  String.length (nth 0 (Js.split_sp args) "") = 42%nat ->
  (Webhook.count_watch id s < 10)%nat ->
  Js.startsWith uargs "0x" = true ->
  Js.toLowerCase uargs = Js.toLowerCase (nth 0 (Js.split_sp args) "") ->
  exists t s1,
    Webhook.handleWatch cfg chatId id args (mkWorld s out)
    = Ok tt (mkWorld s1 (out ++ [mkOut chatId t]))
    /\ existsb (Db.watch_pair id (Js.toLowerCase (nth 0 (Js.split_sp args) "")))
               (watchlist s1) = true
    /\ (forall o,
         Webhook.handleUnwatch cfg chatId id uargs (mkWorld s1 o)
         = Ok tt (mkWorld
                    (Db.set_watchlist
                       (fun _ => Db.delete_where
                                   (Db.watch_pair id
                                      (Js.toLowerCase (nth 0 (Js.split_sp args) "")))
                                   (watchlist s)) s1)
                    (o ++ [mkOut chatId "Removed."])))
    /\ existsb (Db.watch_pair id (Js.toLowerCase (nth 0 (Js.split_sp args) "")))
               (Db.delete_where
                  (Db.watch_pair id (Js.toLowerCase (nth 0 (Js.split_sp args) "")))
                  (watchlist s)) = false
    /\ (existsb (Db.watch_pair id (Js.toLowerCase (nth 0 (Js.split_sp args) "")))
                (watchlist s) = false ->
        Db.delete_where (Db.watch_pair id (Js.toLowerCase (nth 0 (Js.split_sp args) "")))
                        (watchlist s)
        = watchlist s).
Proof.
  intros Hs Hp Hl Hc Hu He.
  eexists. eexists. split.
  { unfold Webhook.handleWatch. rewrite Hs. cbv beta iota zeta. cbn [negb].
    rewrite Hp, Hl. cbn [negb orb Nat.eqb]. unfold bind at 1, query.
    cbv beta iota. cbn [db]. apply Nat.leb_gt in Hc. rewrite Hc.
    unfold bind, exec, Webhook.sendMessage, post. cbn [db outbox]. reflexivity. }
  split; [apply upsert_present|]. split; [|split].
  - intros o. unfold Webhook.handleUnwatch. rewrite Hs, Hu. cbn [negb orb].
    unfold bind, exec, Webhook.sendMessage, post. cbn [db outbox]. rewrite He.
    unfold Db.set_watchlist. cbn [users alerts watchlist referrals tickets].
    now rewrite delete_after_upsert.
  - apply existsb_filter_negb.
  - intros Hn. unfold Db.delete_where. apply filter_all. intros x Hx.
    apply negb_true_iff.
    destruct (Db.watch_pair id (Js.toLowerCase (nth 0 (Js.split_sp args) "")) x) eqn:Hw;
      [|reflexivity].
    apply not_true_iff_false in Hn. exfalso. apply Hn.
    apply existsb_exists. now exists x.
Qed.

Lemma watch_then_unwatch_witness :
  exists t s1,
    Webhook.handleWatch Sample.cfg 7 7 (String.append (Sample.addr "A") " whale")
                        (mkWorld Sample.ten_watched [])
    = Ok tt (mkWorld s1 ([] ++ [mkOut 7 t]))
    /\ existsb (Db.watch_pair 7
                  (Js.toLowerCase
                     (nth 0 (Js.split_sp (String.append (Sample.addr "A") " whale")) "")))
               (watchlist s1) = true
    /\ (forall o,
         Webhook.handleUnwatch Sample.cfg 7 7 (Sample.addr "a") (mkWorld s1 o)
         = Ok tt (mkWorld
                    (Db.set_watchlist
                       (fun _ => Db.delete_where
                                   (Db.watch_pair 7
                                      (Js.toLowerCase
                                         (nth 0 (Js.split_sp
                                                   (String.append (Sample.addr "A") " whale"))
                                              "")))
                                   (watchlist Sample.ten_watched)) s1)
                    (o ++ [mkOut 7 "Removed."])))
    /\ existsb (Db.watch_pair 7
                  (Js.toLowerCase
                     (nth 0 (Js.split_sp (String.append (Sample.addr "A") " whale")) "")))
               (Db.delete_where
                  (Db.watch_pair 7
                     (Js.toLowerCase
                        (nth 0 (Js.split_sp (String.append (Sample.addr "A") " whale")) "")))
                  (watchlist Sample.ten_watched)) = false
    /\ (existsb (Db.watch_pair 7
                   (Js.toLowerCase
                      (nth 0 (Js.split_sp (String.append (Sample.addr "A") " whale")) "")))
                (watchlist Sample.ten_watched) = false ->
        Db.delete_where
          (Db.watch_pair 7
             (Js.toLowerCase
                (nth 0 (Js.split_sp (String.append (Sample.addr "A") " whale")) "")))
          (watchlist Sample.ten_watched)
        = watchlist Sample.ten_watched).
Proof.
  apply (watch_then_unwatch Sample.cfg 7 7 (String.append (Sample.addr "A") " whale")
           (Sample.addr "a") Sample.ten_watched []);
    try reflexivity.
  vm_compute. lia.
Defined.

(* ================================================================== *)
(** ** Identity resolution *)
(* ================================================================== *)

Lemma filter_update_same {A} (p : A -> bool) (f : A -> A) (l : list A) :
  (forall x, p (f x) = p x) ->
  filter p (Db.update_where p f l) = map f (filter p l).
Proof.
  intros H. induction l as [|x l IH]; [reflexivity|].
  simpl. destruct (p x) eqn:Hx.
  - rewrite H, Hx. simpl. now rewrite IH.
  - rewrite Hx. exact IH.
Qed.

Lemma existsb_false_filter {A} (p : A -> bool) (l : list A) :
  existsb p l = false -> filter p l = [].
Proof.
  intros H. apply filter_none. intros x Hx.
  destruct (p x) eqn:Hp; [|reflexivity].
  assert (existsb p l = true) by (apply existsb_exists; now exists x). congruence.
Qed.

Lemma refreshed_username_settled uname (e : TelegramUser) :
  Webhook.username_changed uname e = true ->
  Webhook.username_changed uname (Webhook.set_username uname e) = false.
Proof.
  unfold Webhook.username_changed. destruct uname as [n|]; [|discriminate].
  intros _. simpl. rewrite String.eqb_refl. apply andb_false_r.
Qed.

Lemma new_user_settled now id uname code :
  Webhook.username_changed uname (Webhook.new_user now id uname code) = false.
Proof.
  unfold Webhook.username_changed, Webhook.new_user. destruct uname as [n|]; [|reflexivity].
  simpl. unfold Js.or_null. destruct (Js.truthy n); [|reflexivity].
  simpl. rewrite String.eqb_refl. reflexivity.
Qed.

(** X22. Identity resolution settles after one call. Once
    [getOrCreateUser] has returned an identity (found, found and
    refreshed, or newly inserted), calling it again for the same
    participant and username finds exactly one row with that id, returns
    it, and writes nothing. *)
Theorem getOrCreateUser_settles
  (cfg : Config) (now now2 : Z) (rnd rnd2 : nat -> string) (id : Z)
  (uname : option string) (w w1 : World) (u : TelegramUser) :
  Webhook.getOrCreateUser cfg now rnd id uname w = Ok (Some u) w1 ->
  exists u',
    Webhook.getOrCreateUser cfg now2 rnd2 id uname w1 = Ok (Some u') w1
    /\ filter (Db.by_telegram_id id) (users (db w1)) = [u']
    /\ telegram_id u = id
    /\ (u' = u \/ u' = Webhook.set_username uname u).
Proof.
  unfold Webhook.getOrCreateUser at 1.
  destruct (supabase cfg) eqn:Hs; cbn [negb]; [|discriminate].
  unfold bind at 1, query.
  destruct (single (filter (Db.by_telegram_id id) (users (db w)))) as [e|] eqn:He.
  - apply single_some in He.
    assert (Hid : telegram_id e = id).
    { destruct (filter_single_in _ _ _ He) as [_ H]. now apply Z.eqb_eq in H. }
    destruct (Webhook.username_changed uname e) eqn:Hu.
    + unfold bind, Webhook.update_user, exec, ret. intros H. injection H as <- <-.
      assert (Hf : filter (Db.by_telegram_id id)
                     (users (db (mkWorld
                        (Db.set_users
                           (Db.update_where (Db.by_telegram_id id)
                                            (Webhook.set_username uname)) (db w))
                        (outbox w))))
                   = [Webhook.set_username uname e]).
      { simpl. rewrite filter_update_same by reflexivity. now rewrite He. }
      exists (Webhook.set_username uname e). split; [|split; [exact Hf|split]].
      * apply getOrCreateUser_known; [exact Hs | now rewrite Hf |].
        now apply refreshed_username_settled.
      * exact Hid.
      * now right.
    + unfold bind, ret. intros H. injection H as <- <-.
      exists e. split; [|split; [exact He|split]].
      * apply getOrCreateUser_known; [exact Hs | now rewrite He | exact Hu].
      * exact Hid.
      * now left.
  - unfold Db.insert_user.
    destruct (existsb (Db.by_telegram_id
                         (telegram_id (Webhook.new_user now id uname
                                         (Js.toUpperCase (Webhook.generateCode rnd 8)))))
                      (users (db w))) eqn:Hex; [discriminate|].
    cbn [orb].
    match goal with |- context [if ?b then None else _] => destruct b end;
      [discriminate|].
    intros H. injection H as <- <-.
    assert (Hf : filter (Db.by_telegram_id id)
                   (users (db w) ++ [Webhook.new_user now id uname
                                       (Js.toUpperCase (Webhook.generateCode rnd 8))])
                 = [Webhook.new_user now id uname
                      (Js.toUpperCase (Webhook.generateCode rnd 8))]).
    { assert (Hex' : existsb (Db.by_telegram_id id) (users (db w)) = false) by exact Hex.
      rewrite filter_app. rewrite (existsb_false_filter _ _ Hex'). simpl.
      unfold Db.by_telegram_id. simpl. now rewrite Z.eqb_refl. }
    eexists. split; [|split; [exact Hf|split]].
    + apply getOrCreateUser_known; [exact Hs | simpl; now rewrite Hf |].
      apply new_user_settled.
    + reflexivity.
    + now left.
Qed.

Lemma getOrCreateUser_settles_witness :
  exists u',
    Webhook.getOrCreateUser Sample.cfg 6 Sample.rnd2 9 (Some "bob")
      (mkWorld (mkStore (users Sample.one_alert
                         ++ [Webhook.new_user 5 9 (Some "bob") "ABCDEF01"])
                        (alerts Sample.one_alert) [] [] []) [])
    = Ok (Some u')
         (mkWorld (mkStore (users Sample.one_alert
                            ++ [Webhook.new_user 5 9 (Some "bob") "ABCDEF01"])
                           (alerts Sample.one_alert) [] [] []) [])
    /\ filter (Db.by_telegram_id 9)
              (users (db (mkWorld (mkStore (users Sample.one_alert
                                            ++ [Webhook.new_user 5 9 (Some "bob") "ABCDEF01"])
                                           (alerts Sample.one_alert) [] [] []) [])))
       = [u']
    /\ telegram_id (Webhook.new_user 5 9 (Some "bob") "ABCDEF01") = 9%Z
    /\ (u' = Webhook.new_user 5 9 (Some "bob") "ABCDEF01"
        \/ u' = Webhook.set_username (Some "bob")
                  (Webhook.new_user 5 9 (Some "bob") "ABCDEF01")).
Proof.
  apply (getOrCreateUser_settles Sample.cfg 5 6 Sample.rnd Sample.rnd2 9 (Some "bob")
           (mkWorld Sample.one_alert [])).
  reflexivity.
Defined.

(** X23. A referral-code collision makes an unseen participant
    unservable. When the code generated for a participant the store does
    not know is already another row's referral code, the insert is
    refused, [getOrCreateUser] yields nothing, and the webhook answers
    "Service unavailable." without writing or dispatching the command. *)
Theorem referral_code_collision
  (cfg : Config) (rt : Runtime) (co : Collab) (now : Z) (rnd : nat -> string)
  (m : Webhook.Message) (rawText : string) (w : World) :
  Js.truthy (BOT_TOKEN cfg) = true ->
  supabase cfg = true ->
  Webhook.msg_text m = Some rawText ->
  Js.truthy rawText = true ->
  single (filter (Db.by_telegram_id (Webhook.from_id m)) (users (db w))) = None ->
  existsb (Db.by_referral_code (Js.toUpperCase (Webhook.generateCode rnd 8)))
          (users (db w)) = true ->
  Webhook.handler cfg rt co now rnd (Spec.text_update m) w
  = Ok Webhook.ack
       (mkWorld (db w) (outbox w ++ [mkOut (Webhook.chat m) "Service unavailable."])).
Proof.
  intros Hb Hs Hm Hr Hn Hc.
  rewrite (handler_on_text cfg rt co now rnd m rawText w Hb Hm Hr).
  unfold Webhook.getOrCreateUser. rewrite Hs. cbn [negb].
  unfold bind at 1, query. rewrite Hn.
  assert (Hi : Db.insert_user
                 (Webhook.new_user now (Webhook.from_id m) (Webhook.from_username m)
                                   (Js.toUpperCase (Webhook.generateCode rnd 8))) (db w)
               = None).
  { unfold Db.insert_user.
    change (referral_code (Webhook.new_user now (Webhook.from_id m)
                             (Webhook.from_username m)
                             (Js.toUpperCase (Webhook.generateCode rnd 8))))
      with (Some (Js.toUpperCase (Webhook.generateCode rnd 8))).
    match goal with
    | |- (if ?a || ?b then _ else _) = _ =>
        destruct a; [reflexivity|]; cbn [orb];
        replace b with true by (symmetry; exact Hc)
    end.
    reflexivity. }
  rewrite Hi. reflexivity.
Qed.

Lemma referral_code_collision_witness :
  Webhook.handler Sample.cfg Sample.rt Sample.co 5 Sample.rnd_clash
                  (Spec.text_update Sample.noise) (mkWorld Sample.one_alert [])
  = Ok Webhook.ack
       (mkWorld (db (mkWorld Sample.one_alert []))
                (outbox (mkWorld Sample.one_alert [])
                 ++ [mkOut (Webhook.chat Sample.noise) "Service unavailable."])).
Proof.
  apply (referral_code_collision Sample.cfg Sample.rt Sample.co 5 Sample.rnd_clash
           Sample.noise "hello" (mkWorld Sample.one_alert []));
    reflexivity.
Defined.

(* ================================================================== *)
(** ** Whose rows the webhook touches *)
(* ================================================================== *)

Lemma own_rows_refl id (l : list TelegramUser) : Forall2 (Spec.own_row id) l l.
Proof. induction l; constructor; [now split | assumption]. Qed.

Lemma own_rows_trans id (l1 l2 l3 : list TelegramUser) :
  Forall2 (Spec.own_row id) l1 l2 -> Forall2 (Spec.own_row id) l2 l3 ->
  Forall2 (Spec.own_row id) l1 l3.
Proof.
  intros H. revert l3. induction H as [|a b l1 l2 [Hk Ho] _ IH]; intros l3 H23.
  - inversion H23. constructor.
  - inversion H23 as [|b' c l2' l3' [Hk' Ho'] Hrest]; subst. constructor; [|now apply IH].
    split; [congruence|]. intros Hne. rewrite Ho'; [now apply Ho | congruence].
Qed.

Lemma own_rows_update id (f : TelegramUser -> TelegramUser) (l : list TelegramUser) :
  (forall x, telegram_id (f x) = telegram_id x) ->
  Forall2 (Spec.own_row id) l (Db.update_where (Db.by_telegram_id id) f l).
Proof.
  intros Hf. induction l as [|x l IH]; simpl; constructor; [|exact IH].
  unfold Db.by_telegram_id. destruct (telegram_id x =? id)%Z eqn:E.
  - split; [apply Hf|]. apply Z.eqb_eq in E. congruence.
  - now split.
Qed.

Lemma own_rows_ids id (l l' : list TelegramUser) :
  Forall2 (Spec.own_row id) l l' -> map telegram_id l' = map telegram_id l.
Proof.
  induction 1 as [|a b l l' [Hk _] _ IH]; [reflexivity|]. simpl. now rewrite Hk, IH.
Qed.

Lemma own_rows_keep id (l l' : list TelegramUser) (x : TelegramUser) :
  Forall2 (Spec.own_row id) l l' -> In x l -> telegram_id x <> id -> In x l'.
Proof.
  induction 1 as [|a b l l' [_ Ho] _ IH]; intros Hin Hne; [destruct Hin|].
  destruct Hin as [->|Hin]; [left; now apply Ho | right; now apply IH].
Qed.

Section Touches.

Variable id : Z.

Lemma touches_ret {A} (a : A) : Spec.touches_own id (ret a).
Proof. intros w. apply own_rows_refl. Qed.

Lemma touches_throw {A} : Spec.touches_own id (@throw A).
Proof. intros w. apply own_rows_refl. Qed.

Lemma touches_query {A} (f : Store -> A) : Spec.touches_own id (query f).
Proof. intros w. apply own_rows_refl. Qed.

Lemma touches_send chatId t : Spec.touches_own id (Webhook.sendMessage chatId t).
Proof. intros w. apply own_rows_refl. Qed.

Lemma touches_exec (f : Store -> Store) :
  (forall s, users (f s) = users s) -> Spec.touches_own id (exec f).
Proof. intros H w. simpl. rewrite H. apply own_rows_refl. Qed.

Lemma touches_update (f : TelegramUser -> TelegramUser) :
  (forall x, telegram_id (f x) = telegram_id x) ->
  Spec.touches_own id (Webhook.update_user id f).
Proof. intros H w. simpl. now apply own_rows_update. Qed.

Lemma touches_bind {A B} (m : M A) (k : A -> M B) :
  Spec.touches_own id m -> (forall a, Spec.touches_own id (k a)) ->
  Spec.touches_own id (bind m k).
Proof.
  intros Hm Hk w. specialize (Hm w). unfold bind.
  destruct (m w) as [a w1|w1]; simpl in *; [|exact Hm].
  eapply own_rows_trans; [exact Hm | apply Hk].
Qed.

End Touches.

(** Break a handler into its steps. *)
Ltac touch :=
  repeat first
    [ apply touches_ret
    | apply touches_throw
    | apply touches_query
    | apply touches_send
    | apply touches_update; reflexivity
    | apply touches_exec; reflexivity
    | apply touches_bind; [|intro]
    | match goal with
      | |- Spec.touches_own _ (if ?b then _ else _) => destruct b
      | |- Spec.touches_own _ (match ?x with _ => _ end) => destruct x
      end ].

Section TouchesDispatch.

Variable cfg : Config.
Variable rt : Runtime.
Variable co : Collab.
Variable now : Z.
Variable rnd : nat -> string.

Lemma dispatch_touches chatId telegramId (user : TelegramUser) text cmd args :
  telegram_id user = telegramId ->
  Spec.touches_own telegramId
    (Webhook.dispatch cfg rt co now rnd chatId telegramId user text cmd args).
Proof.
  intros Hid. unfold Webhook.dispatch.
  unfold Webhook.handleStart, Webhook.handleHelp, Webhook.handleLink, Webhook.handleUnlink,
    Webhook.handleNotify, Webhook.handlePortfolio, Webhook.handleStaking,
    Webhook.handlePrice, Webhook.handleGas, Webhook.handleConvert, Webhook.handleAlert,
    Webhook.handleAlerts, Webhook.handleDeleteAlert, Webhook.handleWatch,
    Webhook.handleWatchlist, Webhook.handleUnwatch, Webhook.handleRefer,
    Webhook.handleReferrals, Webhook.handleContract, Webhook.handleFaq,
    Webhook.handleSupport.
  rewrite Hid. cbv zeta.
  touch.
  all: apply touches_exec; intros s.
  all: unfold Db.insert_referral, Db.insert_alert, Db.upsert_watch.
  all: match goal with |- users (if ?b then _ else _) = _ => now destruct b end.
Qed.

End TouchesDispatch.

Section TouchesHandler.

Variable cfg : Config.
Variable rt : Runtime.
Variable co : Collab.
Variable now : Z.
Variable rnd : nat -> string.

(** Identity resolution rewrites the participant's rows in place, or
    appends one row under an id no row had. *)
Lemma getOrCreateUser_rows id uname (w : World) :
  exists u w1,
    Webhook.getOrCreateUser cfg now rnd id uname w = Ok u w1
    /\ (forall usr, u = Some usr -> telegram_id usr = id)
    /\ (Forall2 (Spec.own_row id) (users (db w)) (users (db w1))
        \/ (existsb (Db.by_telegram_id id) (users (db w)) = false
            /\ exists nu, telegram_id nu = id
                          /\ users (db w1) = (users (db w) ++ [nu])%list)).
Proof.
  unfold Webhook.getOrCreateUser.
  destruct (supabase cfg); cbn [negb].
  2:{ eexists; eexists. split; [reflexivity|]. split; [discriminate|].
      left. apply own_rows_refl. }
  unfold bind at 1, query.
  destruct (single (filter (Db.by_telegram_id id) (users (db w)))) as [e|] eqn:He.
  - apply single_some in He.
    assert (Hid : telegram_id e = id).
    { destruct (filter_single_in _ _ _ He) as [_ H]. now apply Z.eqb_eq in H. }
    destruct (Webhook.username_changed uname e).
    + eexists; eexists. split; [reflexivity|]. split.
      * intros usr H. injection H as <-. exact Hid.
      * left. simpl. now apply own_rows_update.
    + eexists; eexists. split; [reflexivity|]. split.
      * intros usr H. injection H as <-. exact Hid.
      * left. apply own_rows_refl.
  - unfold Db.insert_user.
    destruct (existsb (Db.by_telegram_id
                         (telegram_id (Webhook.new_user now id uname
                                         (Js.toUpperCase (Webhook.generateCode rnd 8)))))
                      (users (db w))) eqn:Hex.
    { eexists; eexists. split; [reflexivity|]. split; [discriminate|].
      left. apply own_rows_refl. }
    cbn [orb].
    match goal with |- context [if ?b then None else _] => destruct b end.
    { eexists; eexists. split; [reflexivity|]. split; [discriminate|].
      left. apply own_rows_refl. }
    eexists; eexists. split; [reflexivity|]. split.
    + intros usr H. injection H as <-. reflexivity.
    + right. split; [exact Hex|]. eexists. split; [|reflexivity]. reflexivity.
Qed.

Lemma on_text_world (m : Webhook.Message) (rawText : string) (w : World) :
  exists w1,
    (Forall2 (Spec.own_row (Webhook.from_id m)) (users (db w)) (users (db w1))
     \/ (existsb (Db.by_telegram_id (Webhook.from_id m)) (users (db w)) = false
         /\ exists nu, telegram_id nu = Webhook.from_id m
                       /\ users (db w1) = (users (db w) ++ [nu])%list))
    /\ Forall2 (Spec.own_row (Webhook.from_id m)) (users (db w1))
               (users (db (world_of (Webhook.on_text cfg rt co now rnd m rawText w)))).
Proof.
  destruct (getOrCreateUser_rows (Webhook.from_id m) (Webhook.from_username m) w)
    as [u [w1 [Hg [Hid Hrows]]]].
  exists w1. split; [exact Hrows|].
  unfold Webhook.on_text, bind at 1. rewrite Hg.
  destruct u as [usr|].
  - destruct (Webhook.parse_command (Js.trim rawText)) as [cmd args].
    pose proof (dispatch_touches cfg rt co now rnd (Webhook.chat m) (Webhook.from_id m)
                  usr (Js.trim rawText) cmd args (Hid usr eq_refl) w1) as Hd.
    unfold bind.
    destruct (Webhook.dispatch cfg rt co now rnd (Webhook.chat m) (Webhook.from_id m) usr
                               (Js.trim rawText) cmd args w1); exact Hd.
  - simpl. apply own_rows_refl.
Qed.

Lemma handler_world (req : Webhook.Request) (w : World) :
  world_of (Webhook.handler cfg rt co now rnd req w) = w
  \/ exists m rawText,
       Webhook.update_message req = Some m
       /\ world_of (Webhook.handler cfg rt co now rnd req w)
          = world_of (Webhook.on_text cfg rt co now rnd m rawText w).
Proof.
  unfold Webhook.handler.
  destruct (negb (Webhook.method req =? "POST")); [now left|].
  destruct (negb (Js.truthy (BOT_TOKEN cfg))); [now left|].
  unfold try_catch.
  destruct (Webhook.update_message req) as [m|]; [|now left].
  destruct (Webhook.msg_text m) as [rawText|]; [|now left].
  destruct (Js.truthy rawText); [|now left].
  right. exists m, rawText. split; [reflexivity|].
  now destruct (Webhook.on_text cfg rt co now rnd m rawText w).
Qed.

End TouchesHandler.

(** X24. A webhook update touches only the sender's identity. Whatever
    the text, the command and the collaborators' answers: every row of
    [telegram_users] that belongs to another participant is still there,
    unchanged, after the update; no row changes its id; a row is added
    only for the sender and only when no row had the sender's id, so
    distinct ids stay distinct. *)
Theorem webhook_touches_only_sender
  (cfg : Config) (rt : Runtime) (co : Collab) (now : Z) (rnd : nat -> string)
  (req : Webhook.Request) (m : Webhook.Message) (w : World) :
  Webhook.update_message req = Some m ->
  (forall x, In x (users (db w)) -> telegram_id x <> Webhook.from_id m ->
             In x (users (db (world_of (Webhook.handler cfg rt co now rnd req w)))))
  /\ (NoDup (map telegram_id (users (db w))) ->
      NoDup (map telegram_id
               (users (db (world_of (Webhook.handler cfg rt co now rnd req w))))))
  /\ (map telegram_id (users (db (world_of (Webhook.handler cfg rt co now rnd req w))))
      = map telegram_id (users (db w))
      \/ map telegram_id (users (db (world_of (Webhook.handler cfg rt co now rnd req w))))
         = (map telegram_id (users (db w)) ++ [Webhook.from_id m])%list).
Proof.
  intros Hm.
  destruct (handler_world cfg rt co now rnd req w) as [H | [m' [rawText [Hm' H]]]];
    rewrite H.
  { repeat split; [tauto | tauto | now left]. }
  rewrite Hm in Hm'. injection Hm' as <-.
  destruct (on_text_world cfg rt co now rnd m rawText w) as [w1 [H1 H2]].
  pose proof (own_rows_ids _ _ _ H2) as Hids.
  destruct H1 as [H1 | [Hfresh [nu [Hnu Hu]]]].
  - pose proof (own_rows_ids _ _ _ H1) as Hids1. repeat split.
    + intros x Hx Hne. eapply own_rows_keep; [exact H2 | | exact Hne].
      eapply own_rows_keep; [exact H1 | exact Hx | exact Hne].
    + intros Hn. now rewrite Hids, Hids1.
    + left. now rewrite Hids, Hids1.
  - repeat split.
    + intros x Hx Hne. eapply own_rows_keep; [exact H2 | | exact Hne].
      rewrite Hu. apply in_or_app. now left.
    + intros Hn. rewrite Hids, Hu, map_app. simpl. rewrite Hnu.
      apply NoDup_app; [exact Hn | repeat constructor; intros [] |].
      intros i Hi [<-|[]]. apply in_map_iff in Hi. destruct Hi as [y [Hy Hin]].
      assert (existsb (Db.by_telegram_id (Webhook.from_id m)) (users (db w)) = true).
      { apply existsb_exists. exists y. split; [exact Hin|].
        unfold Db.by_telegram_id. now apply Z.eqb_eq. }
      congruence.
    + right. rewrite Hids, Hu, map_app. simpl. now rewrite Hnu.
Qed.

Lemma webhook_touches_only_sender_witness :
  (forall x, In x (users (db (mkWorld Sample.one_alert []))) ->
             telegram_id x <> Webhook.from_id Sample.noise ->
             In x (users (db (world_of
                     (Webhook.handler Sample.cfg Sample.rt Sample.co 5 Sample.rnd
                        (Spec.text_update Sample.noise) (mkWorld Sample.one_alert []))))))
  /\ (NoDup (map telegram_id (users (db (mkWorld Sample.one_alert [])))) ->
      NoDup (map telegram_id
               (users (db (world_of
                  (Webhook.handler Sample.cfg Sample.rt Sample.co 5 Sample.rnd
                     (Spec.text_update Sample.noise) (mkWorld Sample.one_alert [])))))))
  /\ (map telegram_id
          (users (db (world_of
             (Webhook.handler Sample.cfg Sample.rt Sample.co 5 Sample.rnd
                (Spec.text_update Sample.noise) (mkWorld Sample.one_alert [])))))
      = map telegram_id (users (db (mkWorld Sample.one_alert [])))
      \/ map telegram_id
             (users (db (world_of
                (Webhook.handler Sample.cfg Sample.rt Sample.co 5 Sample.rnd
                   (Spec.text_update Sample.noise) (mkWorld Sample.one_alert [])))))
         = (map telegram_id (users (db (mkWorld Sample.one_alert [])))
            ++ [Webhook.from_id Sample.noise])%list).
Proof.
  apply (webhook_touches_only_sender Sample.cfg Sample.rt Sample.co 5 Sample.rnd
           (Spec.text_update Sample.noise) Sample.noise (mkWorld Sample.one_alert [])).
  reflexivity.
Defined.

(* ================================================================== *)
(** ** Referral, notification preference, unknown commands *)
(* ================================================================== *)

(** X25. A referral is recorded once. [/start] from a participant
    without a referrer, carrying (in any letter case) the referral code of
    exactly one other participant, writes that participant as referrer on
    the sender's rows and appends one completed edge; any later [/start]
    of the sender, read with the referrer set, writes nothing, whatever
    code it carries. *)
Theorem start_records_referral_once
  (cfg : Config) (now chatId : Z) (user r : TelegramUser) (args : string)
  (s : Store) (out : list Outbound) :
  supabase cfg = true ->
  Js.truthy args = true ->
  referred_by user = None ->
  filter (Db.by_referral_code (Js.toUpperCase args)) (users s) = [r] ->
  telegram_id r <> telegram_id user ->
  telegram_id r <> 0%Z ->
  existsb (fun e => (referred_telegram_id e =? telegram_id user)%Z) (referrals s) = false ->
  exists t s1,
    Webhook.handleStart cfg now chatId user args (mkWorld s out)
    = Ok tt (mkWorld s1 (out ++ [mkOut chatId t]))
    /\ users s1
       = Db.update_where (Db.by_telegram_id (telegram_id user))
                         (Webhook.set_referred_by (Some (telegram_id r))) (users s)
    /\ referrals s1
       = (referrals s ++ [Spec.edge now (telegram_id r) (telegram_id user) args])%list
    /\ (forall now' args' o,
          exists t',
            Webhook.handleStart cfg now' chatId
                                (Webhook.set_referred_by (Some (telegram_id r)) user) args'
                                (mkWorld s1 o)
            = Ok tt (mkWorld s1 (o ++ [mkOut chatId t']))).
Proof.
  intros Hs Ha Hr Hf Hne Hnz He.
  eexists. eexists. split; [|split; [|split]].
  - unfold Webhook.handleStart. rewrite Ha, Hr, Hs. cbn [falsy_num andb].
    unfold bind at 1. unfold bind at 1, query. cbv beta iota. cbn [db]. rewrite Hf.
    cbn [single]. apply Z.eqb_neq in Hne. rewrite Hne. cbn [negb].
    unfold bind, Webhook.update_user, exec, Webhook.sendMessage, post.
    cbn [db outbox]. unfold Db.insert_referral.
    cbn [referrals Db.set_users referred_telegram_id]. rewrite He. reflexivity.
  - reflexivity.
  - reflexivity.
  - intros now' args' o. unfold Webhook.handleStart.
    cbn [referred_by Webhook.set_referred_by falsy_num].
    apply Z.eqb_neq in Hnz. rewrite Hnz. rewrite andb_false_r. cbn [andb].
    eexists. reflexivity.
Qed.

Lemma start_records_referral_once_witness :
  exists t s1,
    Webhook.handleStart Sample.cfg 5 42 (Sample.user 42 "AAAA0001") "aaaa0007"
                        (mkWorld Sample.two_users [])
    = Ok tt (mkWorld s1 ([] ++ [mkOut 42 t]))
    /\ users s1
       = Db.update_where (Db.by_telegram_id (telegram_id (Sample.user 42 "AAAA0001")))
                         (Webhook.set_referred_by
                            (Some (telegram_id (Sample.user 7 "AAAA0007"))))
                         (users Sample.two_users)
    /\ referrals s1
       = (referrals Sample.two_users
          ++ [Spec.edge 5 (telegram_id (Sample.user 7 "AAAA0007"))
                        (telegram_id (Sample.user 42 "AAAA0001")) "aaaa0007"])%list
    /\ (forall now' args' o,
          exists t',
            Webhook.handleStart Sample.cfg now' 42
              (Webhook.set_referred_by (Some (telegram_id (Sample.user 7 "AAAA0007")))
                                       (Sample.user 42 "AAAA0001"))
              args' (mkWorld s1 o)
            = Ok tt (mkWorld s1 (o ++ [mkOut 42 t']))).
Proof.
  apply (start_records_referral_once Sample.cfg 5 42 (Sample.user 42 "AAAA0001")
           (Sample.user 7 "AAAA0007") "aaaa0007" Sample.two_users []);
    try reflexivity; discriminate.
Defined.

Lemma find_update_same {A} (p : A -> bool) (f : A -> A) (l : list A) :
  (forall x, p (f x) = p x) ->
  find p (Db.update_where p f l) = option_map f (find p l).
Proof.
  intros H. induction l as [|x l IH]; [reflexivity|].
  simpl. destruct (p x) eqn:Hx.
  - now rewrite H, Hx.
  - now rewrite Hx.
Qed.

Lemma existsb_find {A} (p : A -> bool) (l : list A) :
  existsb p l = true -> exists x, find p l = Some x.
Proof.
  induction l as [|y l IH]; simpl; [discriminate|].
  destruct (p y); [eauto | exact IH].
Qed.

(** X26. Turning notifications off mutes the sweep but not the trigger.
    After [/notify] from a participant whose notifications were on, every
    alert of that participant is loaded by the sweep with the preference
    [false]; when such an alert is satisfied the loop marks it triggered,
    sends nothing and does not count it. *)
Theorem muted_owner_is_consumed_silently
  (cfg : Config) (rt : Runtime) (co : Collab) (now chatId id : Z)
  (user : TelegramUser) (a : PriceAlert) (p : Q) (s : Store) (out : list Outbound) :
  supabase cfg = true ->
  notifications_enabled user = true ->
  existsb (Db.by_telegram_id id) (users s) = true ->
  alert_owner a = id ->
  CheckAlerts.shouldTrigger p a = true ->
  exists s1,
    Webhook.handleNotify cfg chatId id user (mkWorld s out)
    = Ok tt (mkWorld s1 (out ++ [mkOut chatId "Notifications disabled."]))
    /\ CheckAlerts.join_owner s1 a = CheckAlerts.mkRow a (Some false)
    /\ (forall n o,
          CheckAlerts.check_alert rt co now p (CheckAlerts.join_owner s1 a) n (mkWorld s1 o)
          = Ok n (mkWorld
                    (Db.set_alerts
                       (Db.update_where (Db.by_alert_id (alert_id a))
                                        (CheckAlerts.mark_triggered now)) s1)
                    o)).
Proof.
  intros Hs Hn He Ho Hp.
  assert (Hj : CheckAlerts.join_owner
                 (Db.set_users (Db.update_where (Db.by_telegram_id id)
                                                (Webhook.set_notifications false)) s) a
               = CheckAlerts.mkRow a (Some false)).
  { unfold CheckAlerts.join_owner. simpl. rewrite Ho.
    rewrite find_update_same by reflexivity.
    destruct (existsb_find _ _ He) as [x Hx]. rewrite Hx. reflexivity. }
  exists (Db.set_users (Db.update_where (Db.by_telegram_id id)
                                        (Webhook.set_notifications false)) s).
  split; [|split].
  - unfold Webhook.handleNotify. rewrite Hs, Hn. cbn [negb]. reflexivity.
  - exact Hj.
  - intros n o. rewrite Hj. unfold CheckAlerts.check_alert. cbn [CheckAlerts.alert].
    rewrite Hp. reflexivity.
Qed.

Lemma muted_owner_is_consumed_silently_witness :
  exists s1,
    Webhook.handleNotify Sample.cfg 42 42 (Sample.user 42 "AAAA0001")
                         (mkWorld Sample.one_alert [])
    = Ok tt (mkWorld s1 ([] ++ [mkOut 42 "Notifications disabled."]))
    /\ CheckAlerts.join_owner s1 (Sample.alert 1 42 "above" 1)
       = CheckAlerts.mkRow (Sample.alert 1 42 "above" 1) (Some false)
    /\ (forall n o,
          CheckAlerts.check_alert Sample.rt Sample.co 100 1
            (CheckAlerts.join_owner s1 (Sample.alert 1 42 "above" 1)) n (mkWorld s1 o)
          = Ok n (mkWorld
                    (Db.set_alerts
                       (Db.update_where
                          (Db.by_alert_id (alert_id (Sample.alert 1 42 "above" 1)))
                          (CheckAlerts.mark_triggered 100)) s1)
                    o)).
Proof.
  apply (muted_owner_is_consumed_silently Sample.cfg Sample.rt Sample.co 100 42 42
           (Sample.user 42 "AAAA0001") (Sample.alert 1 42 "above" 1) 1
           Sample.one_alert []);
    reflexivity.
Defined.

(** X27. A text that begins with [/] and whose lower-cased head is none
    of the switch's command names is answered "Unknown command. Use
    /help", and the dispatch writes nothing. *)
Theorem unknown_command_is_reported
  (cfg : Config) (rt : Runtime) (co : Collab) (now : Z) (rnd : nat -> string)
  (chatId telegramId : Z) (user : TelegramUser) (text cmd args : string) (w : World) :
  Js.startsWith text "/" = true ->
  ~ In cmd Spec.known_commands ->
  Webhook.dispatch cfg rt co now rnd chatId telegramId user text cmd args w
  = Ok tt (mkWorld (db w) (outbox w ++ [mkOut chatId "Unknown command. Use /help"])).
Proof.
  intros Ht Hn. unfold Webhook.dispatch.
  repeat match goal with
         | |- context [cmd =? ?lit] =>
             replace (cmd =? lit) with false
               by (symmetry; apply String.eqb_neq; intros E; apply Hn; rewrite E;
                   unfold Spec.known_commands; simpl; tauto)
         end.
  cbn [orb]. rewrite Ht. reflexivity.
Qed.

Lemma unknown_command_is_reported_witness :
  Webhook.dispatch Sample.cfg Sample.rt Sample.co 5 Sample.rnd 42 42
                   (Sample.user 42 "AAAA0001") "/Alertz now" "/alertz" "now"
                   (mkWorld Sample.one_alert [])
  = Ok tt (mkWorld (db (mkWorld Sample.one_alert []))
                   (outbox (mkWorld Sample.one_alert [])
                    ++ [mkOut 42 "Unknown command. Use /help"])).
Proof.
  apply (unknown_command_is_reported Sample.cfg Sample.rt Sample.co 5 Sample.rnd 42 42
           (Sample.user 42 "AAAA0001") "/Alertz now" "/alertz" "now"
           (mkWorld Sample.one_alert []));
    [reflexivity|].
  unfold Spec.known_commands. simpl. intuition discriminate.
Defined.

(* ================================================================== *)
(** ** The webhook and the alert table *)
(* ================================================================== *)

Section AlertsFrame.

Lemma frame_ret {A} (a : A) : Spec.alerts_frame (ret a).
Proof. intros w x H. now left. Qed.

Lemma frame_throw {A} : Spec.alerts_frame (@throw A).
Proof. intros w x H. now left. Qed.

Lemma frame_query {A} (f : Store -> A) : Spec.alerts_frame (query f).
Proof. intros w x H. now left. Qed.

Lemma frame_send chatId t : Spec.alerts_frame (Webhook.sendMessage chatId t).
Proof. intros w x H. now left. Qed.

Lemma frame_exec (f : Store -> Store) :
  (forall s x, In x (alerts (f s)) -> Spec.kept_or_new (alerts s) x) ->
  Spec.alerts_frame (exec f).
Proof. intros H w x Hx. simpl in Hx. now apply H. Qed.

Lemma frame_exec_same (f : Store -> Store) :
  (forall s, alerts (f s) = alerts s) -> Spec.alerts_frame (exec f).
Proof. intros H. apply frame_exec. intros s x Hx. rewrite H in Hx. now left. Qed.

Lemma frame_update id (f : TelegramUser -> TelegramUser) :
  Spec.alerts_frame (Webhook.update_user id f).
Proof. apply frame_exec_same. reflexivity. Qed.

Lemma frame_bind {A B} (m : M A) (k : A -> M B) :
  Spec.alerts_frame m -> (forall a, Spec.alerts_frame (k a)) ->
  Spec.alerts_frame (bind m k).
Proof.
  intros Hm Hk w x. unfold bind. specialize (Hm w).
  destruct (m w) as [a w1|w1]; simpl in *; [|apply Hm].
  intros Hx. destruct (Hk a w1 x Hx) as [Hin|Hnew]; [now apply Hm | now right].
Qed.

End AlertsFrame.

Ltac frame :=
  repeat first
    [ apply frame_ret
    | apply frame_throw
    | apply frame_query
    | apply frame_send
    | apply frame_update
    | apply frame_exec_same; reflexivity
    | apply frame_bind; [|intro]
    | match goal with
      | |- Spec.alerts_frame (if ?b then _ else _) => destruct b
      | |- Spec.alerts_frame (match ?x with _ => _ end) => destruct x
      end ].

Section AlertsFrameDispatch.

Variable cfg : Config.
Variable rt : Runtime.
Variable co : Collab.
Variable now : Z.
Variable rnd : nat -> string.

Lemma dispatch_frame chatId telegramId (user : TelegramUser) text cmd args :
  Spec.alerts_frame
    (Webhook.dispatch cfg rt co now rnd chatId telegramId user text cmd args).
Proof.
  unfold Webhook.dispatch.
  unfold Webhook.handleStart, Webhook.handleHelp, Webhook.handleLink, Webhook.handleUnlink,
    Webhook.handleNotify, Webhook.handlePortfolio, Webhook.handleStaking,
    Webhook.handlePrice, Webhook.handleGas, Webhook.handleConvert, Webhook.handleAlert,
    Webhook.handleAlerts, Webhook.handleDeleteAlert, Webhook.handleWatch,
    Webhook.handleWatchlist, Webhook.handleUnwatch, Webhook.handleRefer,
    Webhook.handleReferrals, Webhook.handleContract, Webhook.handleFaq,
    Webhook.handleSupport.
  cbv zeta.
  frame.
  - apply frame_exec_same. intros s. unfold Db.insert_referral.
    now destruct (existsb _ (referrals s)).
  - apply frame_exec. intros s x Hx. unfold Db.insert_alert in Hx.
    destruct (Db.fits_decimal _); [|now left].
    simpl in Hx. apply in_app_or in Hx.
    destruct Hx as [Hx|[<-|[]]]; [now left | right; now split].
  - apply frame_exec. intros s x Hx. simpl in Hx. unfold Db.delete_where in Hx.
    apply filter_In in Hx. left. tauto.
  - apply frame_exec_same. intros s. unfold Db.upsert_watch.
    now destruct (existsb _ (watchlist s)).
Qed.

Lemma handler_frame (req : Webhook.Request) :
  Spec.alerts_frame (Webhook.handler cfg rt co now rnd req).
Proof.
  intros w x Hx.
  destruct (handler_world cfg rt co now rnd req w) as [H | [m [rawText [_ H]]]];
    rewrite H in Hx; [now left|].
  unfold Webhook.on_text, bind at 1 in Hx.
  destruct (getOrCreateUser_effect cfg now rnd (Webhook.from_id m)
              (Webhook.from_username m) w) as [u [w1 [Hg [_ [Ha _]]]]].
  rewrite Hg in Hx. rewrite <- Ha.
  destruct u as [usr|]; [|now left].
  destruct (Webhook.parse_command (Js.trim rawText)) as [cmd args].
  apply (frame_bind _ (fun _ => ret Webhook.ack)
           (dispatch_frame (Webhook.chat m) (Webhook.from_id m) usr (Js.trim rawText)
                           cmd args)
           (fun _ => frame_ret Webhook.ack) w1 x Hx).
Qed.

End AlertsFrameDispatch.

(** X28. The webhook never rewrites an alert. Whatever the update, each
    alert in the table afterwards either was there before, unchanged, or
    is untriggered with no trigger time: commands add untriggered alerts
    and delete alerts, and only the sweep marks one triggered. *)
Theorem webhook_never_rewrites_alerts
  (cfg : Config) (rt : Runtime) (co : Collab) (now : Z) (rnd : nat -> string)
  (req : Webhook.Request) (w : World) (x : PriceAlert) :
  In x (alerts (db (world_of (Webhook.handler cfg rt co now rnd req w)))) ->
  In x (alerts (db w)) \/ (triggered x = false /\ triggered_at x = None).
Proof. apply handler_frame. Qed.

Lemma webhook_never_rewrites_alerts_witness :
  In (mkAlert 2 42 "below" (inject_Z 3) false None) (alerts Sample.one_alert)
  \/ (triggered (mkAlert 2 42 "below" (inject_Z 3) false None) = false
      /\ triggered_at (mkAlert 2 42 "below" (inject_Z 3) false None) = None).
Proof.
  apply (webhook_never_rewrites_alerts Sample.cfg Sample.rt Sample.co 5 Sample.rnd
           (Spec.text_update Sample.ask_alert) (mkWorld Sample.one_alert [])).
  right. left. reflexivity.
Defined.

(* ================================================================== *)
(** ** Linked participants, and the length of a code *)
(* ================================================================== *)

(** X29. A linked participant is issued no code until the wallet is
    unlinked. With a wallet on the snapshot [/link] answers "Wallet
    already linked" and writes nothing; [/unlink] clears the wallet and
    the link time on the participant's rows; and [/link], read with the
    wallet cleared, then writes a code with its expiry. *)
Theorem relink_needs_unlink
  (cfg : Config) (now now' : Z) (rnd : nat -> string) (chatId id : Z)
  (user : TelegramUser) (s : Store) (out : list Outbound) :
  supabase cfg = true ->
  falsy_str (wallet_address user) = false ->
  (exists t,
     Webhook.handleLink cfg now rnd chatId id user (mkWorld s out)
     = Ok tt (mkWorld s (out ++ [mkOut chatId t])))
  /\ Webhook.handleUnlink cfg chatId id user (mkWorld s out)
     = Ok tt (mkWorld (Db.set_users
                         (Db.update_where (Db.by_telegram_id id)
                                          (Webhook.set_wallet None None)) s)
                      (out ++ [mkOut chatId "Wallet unlinked."]))
  /\ (forall o,
        exists t,
          Webhook.handleLink cfg now' rnd chatId id (Webhook.set_wallet None None user)
            (mkWorld (Db.set_users
                        (Db.update_where (Db.by_telegram_id id)
                                         (Webhook.set_wallet None None)) s) o)
          = Ok tt (mkWorld
                     (Db.set_users
                        (Db.update_where (Db.by_telegram_id id)
                           (Webhook.set_link (Some (Webhook.generateCode rnd 32))
                                             (Some (now' + 900000)%Z)))
                        (Db.set_users
                           (Db.update_where (Db.by_telegram_id id)
                                            (Webhook.set_wallet None None)) s))
                     (o ++ [mkOut chatId t]))).
Proof.
  intros Hs Hw. split; [|split].
  - unfold Webhook.handleLink. rewrite Hs, Hw. cbn [negb]. eexists. reflexivity.
  - unfold Webhook.handleUnlink. rewrite Hs, Hw. cbn [negb orb]. reflexivity.
  - intros o. apply handleLink_issues; [exact Hs | reflexivity].
Qed.

Lemma relink_needs_unlink_witness :
  (exists t,
     Webhook.handleLink Sample.cfg 600 Sample.rnd 7 7 Sample.linked
                        (mkWorld Sample.linked_store [])
     = Ok tt (mkWorld Sample.linked_store ([] ++ [mkOut 7 t])))
  /\ Webhook.handleUnlink Sample.cfg 7 7 Sample.linked (mkWorld Sample.linked_store [])
     = Ok tt (mkWorld (Db.set_users
                         (Db.update_where (Db.by_telegram_id 7)
                                          (Webhook.set_wallet None None)) Sample.linked_store)
                      ([] ++ [mkOut 7 "Wallet unlinked."]))
  /\ (forall o,
        exists t,
          Webhook.handleLink Sample.cfg 700 Sample.rnd 7 7
            (Webhook.set_wallet None None Sample.linked)
            (mkWorld (Db.set_users
                        (Db.update_where (Db.by_telegram_id 7)
                                         (Webhook.set_wallet None None))
                        Sample.linked_store) o)
          = Ok tt (mkWorld
                     (Db.set_users
                        (Db.update_where (Db.by_telegram_id 7)
                           (Webhook.set_link (Some (Webhook.generateCode Sample.rnd 32))
                                             (Some (700 + 900000)%Z)))
                        (Db.set_users
                           (Db.update_where (Db.by_telegram_id 7)
                                            (Webhook.set_wallet None None))
                           Sample.linked_store))
                     (o ++ [mkOut 7 t]))).
Proof.
  apply (relink_needs_unlink Sample.cfg 600 700 Sample.rnd 7 7 Sample.linked
           Sample.linked_store []);
    reflexivity.
Defined.

Lemma length_substring_0 (n : nat) (s : string) :
  String.length (substring 0 n s) = Nat.min n (String.length s).
Proof.
  revert s. induction n as [|n IH]; intros s.
  - now destruct s.
  - destruct s as [|c r]; [reflexivity|]. simpl. now rewrite IH.
Qed.

(** X30. [generateCode(n)] has exactly [n] characters when the random
    bytes render to [2n] hexadecimal digits, as [n] bytes do: referral
    codes have 8 characters and link codes 32, and for [n] above zero the
    code is not the empty string. *)
Theorem generateCode_length (rnd : nat -> string) (n : nat) :
  String.length (rnd n) = (2 * n)%nat ->
  (0 < n)%nat ->
  String.length (Webhook.generateCode rnd n) = n
  /\ Js.truthy (Webhook.generateCode rnd n) = true.
Proof.
  intros Hl Hn.
  assert (H : String.length (Webhook.generateCode rnd n) = n).
  { unfold Webhook.generateCode, Js.slice_to. rewrite length_substring_0, Hl. lia. }
  split; [exact H|].
  destruct (Webhook.generateCode rnd n); [simpl in H; lia | reflexivity].
Qed.

Lemma generateCode_length_witness :
  String.length (Webhook.generateCode Sample.rnd 32) = 32%nat
  /\ Js.truthy (Webhook.generateCode Sample.rnd 32) = true.
Proof.
  apply (generateCode_length Sample.rnd 32); [reflexivity | lia].
Defined.
